(** * plot_trading_history: a shallow embedding

    Source: [analysis_engine/plot_trading_history.py].

    The function selects up to four columns of a ``Trading History``
    dataset, scrubs the rows (start date, optional mask, dropna), draws
    every selected column on its own axes (the first on the primary axes,
    the others on twins), builds a legend and returns a result dictionary.

    pandas and matplotlib are external to the repository.  They are
    modelled by two small executable models ([pd] and [plt]) that keep
    exactly what the function observes of them: column lookup by name and
    its [KeyError], boolean row selection, [dropna]; the axes of the
    figure under composition, their lines, y-limits and legend, and a log
    of the remaining calls (show, tight_layout, ...).

    In the models a library call succeeds whenever the look-ups of the
    function succeed: what matplotlib or [DataFrame.plot] can raise of
    their own (a layout that cannot be solved, a y-limit that is not
    finite, a series that is the x column itself) is left out.  So the
    properties about the figure speak of calls that return, and the
    properties about failure speak of the look-ups and filters of the
    function itself. *)

From Stdlib Require Import ZArith Lia.
From Stdlib Require Import Floats.PrimFloat.
From stdpp Require Import base option list strings gmap pretty.

(** ** Python values and exceptions *)

Module py.

(** Exceptions the function can let escape. *)
Inductive exn :=
| ValueError (msg : string)     (* datetime.strptime on a malformed string *)
| KeyError (key : string)       (* pandas: column name not in the frame *)
| IndexingError                 (* pandas: unalignable boolean Series *)
| NameError (name : string).    (* a local read before assignment *)

Inductive outcome (A : Type) :=
| Return (a : A)
| Raise (e : exn).
Arguments Return {A} a.
Arguments Raise {A} e.

Definition obind {A B} (m : outcome A) (k : A -> outcome B) : outcome B :=
  match m with
  | Return a => k a
  | Raise e => Raise e
  end.

(** Truth value of an optional string argument: [None] and [''] are
    false, every other string is true. *)
Definition truthy (o : option string) : bool :=
  match o with
  | Some s => negb (String.eqb s "")
  | None => false
  end.

(** The objects stored in the [rec] dictionary. *)
Inductive pyval :=
| PyNone
| PyAxes (h : nat)
| PyFigure (n : nat).

End py.
Export py.

(** ** pandas: the part of DataFrame the function uses *)

Module pd.

(** A cell is a timestamp (date column), a number (value column) or
    missing ([None], pandas NaN/NaT).  Timestamps and numbers are
    integers here; the function never computes with the numbers. *)
Definition cell := option Z.

Record Row := mkRow { label : Z; cells : list cell }.

Record DataFrame := mkDF { columns : list string; rows : list Row }.

(** A Series: values tagged with their index label. *)
Definition Series (A : Type) := list (Z * A).

Definition cell_at (r : Row) (p : nat) : cell := nth p (cells r) None.

(** Every position at which [name] occurs among the column names. *)
Fixpoint positions_from (i : nat) (name : string) (cols : list string)
  : list nat :=
  match cols with
  | [] => []
  | c :: cs =>
      if String.eqb c name
      then i :: positions_from (S i) name cs
      else positions_from (S i) name cs
  end.

Definition positions (name : string) (cols : list string) : list nat :=
  positions_from 0 name cols.

(** [df[name]]: the column as a Series; [KeyError] when absent. *)
Definition getitem_col (d : DataFrame) (name : string)
  : outcome (Series cell) :=
  match positions name (columns d) with
  | [] => Raise (KeyError name)
  | p :: _ => Return (map (fun r => (label r, cell_at r p)) (rows d))
  end.

(** [series >= v]: a missing value compares false. *)
Definition ge (s : Series cell) (v : Z) : Series bool :=
  map (fun lc => (fst lc,
                  match snd lc with
                  | Some d => (v <=? d)%Z
                  | None => false
                  end)) s.

Fixpoint mask_lookup (mask : Series bool) (l : Z) : option bool :=
  match mask with
  | [] => None
  | (l', b) :: rest => if (l' =? l)%Z then Some b else mask_lookup rest l
  end.

(** Rows kept by a mask whose index equals the frame's: positional. *)
Fixpoint take_rows (flags : list bool) (rs : list Row) : list Row :=
  match flags, rs with
  | b :: flags', r :: rs' =>
      if b then r :: take_rows flags' rs' else take_rows flags' rs'
  | _, _ => []
  end.

(** Rows kept by a mask with another index: the mask is reindexed by
    label, and a label it lacks is an [IndexingError]. *)
Fixpoint align_rows (mask : Series bool) (rs : list Row)
  : outcome (list Row) :=
  match rs with
  | [] => Return []
  | r :: rs' =>
      match mask_lookup mask (label r) with
      | None => Raise IndexingError
      | Some b =>
          obind (align_rows mask rs')
                (fun kept => Return (if b then r :: kept else kept))
      end
  end.

Definition index_equal (mask : Series bool) (rs : list Row) : bool :=
  bool_decide (map fst mask = map label rs).

(** [df[mask]] for a boolean Series [mask]. *)
Definition getitem_mask (d : DataFrame) (mask : Series bool)
  : outcome DataFrame :=
  if index_equal mask (rows d)
  then Return (mkDF (columns d) (take_rows (map snd mask) (rows d)))
  else obind (align_rows mask (rows d))
             (fun kept => Return (mkDF (columns d) kept)).

(** Positions selected by a list of keys: for each key in turn every
    column of that name; [KeyError] on the first key without a column. *)
Fixpoint key_positions (keys : list string) (cols : list string)
  : outcome (list nat) :=
  match keys with
  | [] => Return []
  | k :: ks =>
      match positions k cols with
      | [] => Raise (KeyError k)
      | ps => obind (key_positions ks cols)
                    (fun qs => Return (ps ++ qs))
      end
  end.

Definition project_row (ps : list nat) (r : Row) : Row :=
  mkRow (label r) (map (cell_at r) ps).

(** [df[[k1, ..., kn]]]. *)
Definition getitem_cols (d : DataFrame) (keys : list string)
  : outcome DataFrame :=
  obind (key_positions keys (columns d))
        (fun ps =>
           Return (mkDF (map (fun p => nth p (columns d) ""%string) ps)
                        (map (project_row ps) (rows d)))).

Definition complete (width : nat) (r : Row) : bool :=
  forallb (fun p => bool_decide (is_Some (cell_at r p))) (seq 0 width).

(** [df.dropna(axis=0, how='any')]. *)
Definition dropna (d : DataFrame) : DataFrame :=
  mkDF (columns d) (filter (fun r => complete (length (columns d)) r = true) (rows d)).

(** [len(df.index)]. *)
Definition index_len (d : DataFrame) : nat := length (rows d).

(** The value a row of [d] has in column [name] (missing when [d] has
    no such column). *)
Definition value_at (d : DataFrame) (name : string) (r : Row) : cell :=
  match positions name (columns d) with
  | p :: _ => cell_at r p
  | [] => None
  end.

End pd.

(** ** matplotlib: the figure under composition *)

Module plt.

Inductive plot_kind := LineKind | BarKind.

(** A drawn artist: a line ([LineKind]) or the bars of a bar plot.
    [art_host] is the handle of the axes it lives on, so artists of
    different axes stay distinct even with equal labels. *)
Record Artist := mkArtist {
  art_host : nat;
  art_label : string;
  art_color : string;
  art_kind : plot_kind;
  art_x : list pd.cell;
  art_y : list pd.cell
}.

Definition is_line (a : Artist) : bool :=
  match art_kind a with
  | LineKind => true
  | BarKind => false
  end.

Record Legend := mkLegend {
  lg_handles : list Artist;
  lg_labels : list string;
  lg_loc : string;
  lg_shadow : bool
}.

(** Cosmetic calls on one axes, most recent first. *)
Inductive ax_call :=
| SetFmtXdata (fmt : string)
| XaxisGrid (on : bool) (which : string)
| YaxisGrid (on : bool)
| YaxisSetTicklabels (labels : list string)
| XaxisSetMinorFormatter (fmt : string)
| Grid (on : bool)
| SetTitle (t : string)
| SetXlabel (t : string)
| SetYlabel (t : string).

Record Axes := mkAxes {
  ax_artists : list Artist;
  ax_ylim : float * float;
  ax_autoscaley : bool;
  ax_legend : option Legend;
  ax_calls : list ax_call
}.

Definition new_axes : Axes :=
  mkAxes [] (0%float, 1%float) true None [].

Record Footnote := mkFootnote {
  fn_text : string;
  fn_xpos : float;
  fn_ypos : float;
  fn_color : string;
  fn_fontsize : float
}.

(** Calls on pyplot, the figure or the collaborators [ae_charts] and
    [log], most recent first. *)
Inductive call :=
| Show
| PlotNothing
| TightLayout
| AutofmtXdate
| AddFootnote (f : Footnote)
| SetCommonSeabornFonts
| LogInfo (msg : string).

(** The pyplot context.  Axes handles are positions in [axes]; the
    figure handle is [fig_num]. *)
Record state := mkState {
  fig_num : nat;
  figsize : float * float;
  axes : list Axes;
  current : nat;
  calls : list call
}.

Definition is_show (c : call) : bool :=
  match c with
  | Show => true
  | _ => false
  end.

(** How many times the figure was put on display. *)
Definition count_show (cs : list call) : nat :=
  length (List.filter is_show cs).

(** Labels that [get_legend_handles_labels] reports: non-empty and not
    starting with an underscore. *)
Definition legend_visible (l : Artist) : bool :=
  negb (String.eqb (art_label l) "")
  && negb (String.prefix "_" (art_label l)).

End plt.

(** ** The [df_filter] argument

    Documented as a boolean query such as [df['close'] > 0.01], that is a
    boolean Series; any other object can be passed as well.  A Series has
    a [to_json] attribute, a plain list of booleans or a callable has
    none. *)

Inductive filter_obj :=
| FilterNone
| FilterSeries (mask : pd.Series bool)
| FilterList (mask : list bool)
| FilterCallable (name : string).

Definition hasattr_to_json (f : filter_obj) : bool :=
  match f with
  | FilterSeries _ => true
  | _ => false
  end.

(** Truth value of an arbitrary filter object outside pandas. *)
Definition filter_truthy (f : filter_obj) : bool :=
  match f with
  | FilterNone => false
  | FilterSeries _ => true
  | FilterList m => negb (bool_decide (m = []))
  | FilterCallable _ => true
  end.

(** ** Collaborators of the repository that are not in the source tree *)

(** Modelled from the spec: [ae_consts.NOT_RUN], [SUCCESS], [FAILED],
    the three values of the envelope's status. *)
Inductive status_code := NOT_RUN | SUCCESS | FAILED.

(** Modelled from the spec: the dictionary built by
    [build_result.build_result(status, err, rec)], a status-tagged
    envelope carrying the error and the payload [rec]. *)
Record result := mkResult {
  status : status_code;
  err : option string;
  rec : gmap string pyval
}.

Definition build_result (st : status_code) (e : option string)
           (r : gmap string pyval) : result :=
  mkResult st e r.

(** ** Arguments of [plot_trading_history] *)

Record args := mkArgs {
  title : string;
  df : pd.DataFrame;
  red : option string;
  red_color : option string;
  blue : option string;
  blue_color : option string;
  green : option string;
  green_color : option string;
  orange : option string;
  orange_color : option string;
  date_col : string;
  xlabel : string;
  ylabel : string;
  linestyle : string;
  width : float;
  height : float;
  date_format : string;
  df_filter : filter_obj;
  start_date : option string;
  footnote_text : option string;
  footnote_xpos : float;
  footnote_ypos : float;
  footnote_color : string;
  footnote_fontsize : float;
  scale_y : bool;
  show_plot : bool;
  dropna_for_all : bool;
  verbose : bool
}.

(** The same call with another [scale_y]. *)
Definition set_scale_y (b : bool) (a : args) : args :=
  mkArgs (title a) (df a) (red a) (red_color a) (blue a) (blue_color a)
         (green a) (green_color a) (orange a) (orange_color a) (date_col a)
         (xlabel a) (ylabel a) (linestyle a) (width a) (height a)
         (date_format a) (df_filter a) (start_date a) (footnote_text a)
         (footnote_xpos a) (footnote_ypos a) (footnote_color a)
         (footnote_fontsize a) b (show_plot a) (dropna_for_all a)
         (verbose a).

(** The same call with another [df_filter]. *)
Definition set_df_filter (f : filter_obj) (a : args) : args :=
  mkArgs (title a) (df a) (red a) (red_color a) (blue a) (blue_color a)
         (green a) (green_color a) (orange a) (orange_color a) (date_col a)
         (xlabel a) (ylabel a) (linestyle a) (width a) (height a)
         (date_format a) f (start_date a) (footnote_text a)
         (footnote_xpos a) (footnote_ypos a) (footnote_color a)
         (footnote_fontsize a) (scale_y a) (show_plot a) (dropna_for_all a)
         (verbose a).

(** The column names the caller selected: the non-empty ones among
    [red], [blue], [green], [orange], in that order. *)
Definition selected_slots (a : args) : list string :=
  omap (fun slot => if truthy slot then slot else None)
       [red a; blue a; green a; orange a].

(** A series to draw: [{'column': ..., 'color': ...}]. *)
Record node := mkNode { column : string; color : string }.

(** ** Statements that touch pyplot: state and exceptions *)

Definition M (A : Type) : Type := plt.state -> outcome A * plt.state.

Definition ret {A} (a : A) : M A := fun s => (Return a, s).

Definition bind {A B} (m : M A) (k : A -> M B) : M B :=
  fun s =>
    match m s with
    | (Return a, s') => k a s'
    | (Raise e, s') => (Raise e, s')
    end.

Definition raise {A} (e : exn) : M A := fun s => (Raise e, s).

(** A pandas expression: it can raise, it leaves pyplot alone. *)
Definition lift {A} (o : outcome A) : M A := fun s => (o, s).

Declare Scope py_scope.
Delimit Scope py_scope with py.
Notation "x <- m ;; k" := (bind m (fun x => k))
  (at level 100, m at next level, k at level 200, right associativity)
  : py_scope.
Notation "m ;; k" := (bind m (fun _ => k))
  (at level 100, k at level 200, right associativity) : py_scope.
Open Scope py_scope.

(** [if flag: body] for a statement [body]. *)
Definition when (flag : bool) (body : M unit) : M unit :=
  if flag then body else ret tt.

Module pyplot.
Import plt.

(** A call on pyplot, the figure or a collaborator, kept in the log.  It
    is taken to succeed; a failure inside the library is not modelled. *)
Definition record (c : call) : M unit :=
  fun s => (Return tt,
            mkState (fig_num s) (figsize s) (axes s) (current s)
                    (c :: calls s)).

(** [log.info(...)]; the message is the format string. *)
Definition log_info (msg : string) : M unit := record (LogInfo msg).

(** [plt.subplots(sharex=True, sharey=True, figsize=...)]: a fresh
    figure with one axes, which becomes the current axes. *)
Definition subplots (size : float * float) : M (nat * nat) :=
  fun s => (Return (S (fig_num s), 0),
            mkState (S (fig_num s)) size [new_axes] 0 (calls s)).

(** [ax.twinx()]: one more axes on the figure, made current.  Only the
    x-axis is shared, the y-limits are the twin's own. *)
Definition twinx (ax : nat) : M nat :=
  fun s => (Return (length (axes s)),
            mkState (fig_num s) (figsize s) (axes s ++ [new_axes])
                    (length (axes s)) (calls s)).

Definition gca : M nat := fun s => (Return (current s), s).

Definition read_axes (h : nat) (s : state) : Axes :=
  default new_axes (axes s !! h).

Definition on_axes (h : nat) (f : Axes -> Axes) : M unit :=
  fun s => (Return tt,
            mkState (fig_num s) (figsize s) (alter f h (axes s))
                    (current s) (calls s)).

Definition ax_record (h : nat) (c : ax_call) : M unit :=
  on_axes h (fun a => mkAxes (ax_artists a) (ax_ylim a) (ax_autoscaley a)
                             (ax_legend a) (c :: ax_calls a)).

Definition get_ylim (h : nat) : M (float * float) :=
  fun s => (Return (ax_ylim (read_axes h s)), s).

(** [ax.set_ylim([bottom, top])]: the limits are stored and autoscaling
    of the y-axis is switched off.  The limits are stored as given;
    matplotlib's refusal of a limit that is not finite is not
    modelled. *)
Definition set_ylim (h : nat) (lim : float * float) : M unit :=
  on_axes h (fun a => mkAxes (ax_artists a) lim false
                             (ax_legend a) (ax_calls a)).

(** [ax.get_lines()]: the Line2D artists only. *)
Definition get_lines (h : nat) : M (list Artist) :=
  fun s => (Return (List.filter is_line (ax_artists (read_axes h s))), s).

Definition get_legend_handles_labels (h : nat)
  : M (list Artist * list string) :=
  fun s =>
    let shown := List.filter legend_visible (ax_artists (read_axes h s)) in
    (Return (shown, map art_label shown), s).

(** [ax.legend(handles, labels, loc=..., shadow=...)]. *)
Definition legend (h : nat) (handles : list Artist) (labels : list string)
           (loc : string) (shadow : bool) : M unit :=
  on_axes h (fun a => mkAxes (ax_artists a) (ax_ylim a) (ax_autoscaley a)
                             (Some (mkLegend handles labels loc shadow))
                             (ax_calls a)).

End pyplot.

(** Duplicate-free copy of the handle/label pairs, lines 272-276:
    a pair is appended only when its label is not yet in [newLabels]. *)
Fixpoint dedup_labels (pairs : list (plt.Artist * string))
         (newLabels : list string) (newHandles : list plt.Artist)
  : list string * list plt.Artist :=
  match pairs with
  | [] => (newLabels, newHandles)
  | (handle, lbl) :: rest =>
      if bool_decide (lbl ∈ newLabels)
      then dedup_labels rest newLabels newHandles
      else dedup_labels rest (newLabels ++ [lbl]) (newHandles ++ [handle])
  end.

(** Python's [zip]: stops at the shorter list. *)
Fixpoint zip_pairs {A B} (l : list A) (k : list B) : list (A * B) :=
  match l, k with
  | x :: l', y :: k' => (x, y) :: zip_pairs l' k'
  | _, _ => []
  end.

(** ** The function *)

Section Engine.

(** [datetime.datetime.strptime(text, format)]: the timestamp, or
    [None] where Python raises [ValueError]. *)
Variable strptime : string -> string -> option Z.

(** [ae_consts.COMMON_TICK_DATE_FORMAT] and [ae_consts.PLOT_COLORS],
    constants of the repository that live outside this file. *)
Variable COMMON_TICK_DATE_FORMAT : string.
Variable PLOT_COLORS : string -> string.

(** [datetime.datetime.now().strftime(format)]. *)
Variable now_strftime : string -> string.

(** The y-limits matplotlib's autoscaling gives to an axes showing the
    given artists. *)
Variable auto_ylim : list plt.Artist -> float * float.

(** [use_c = c_color; if not use_c: use_c = PLOT_COLORS[key]]. *)
Definition use_color (c_color : option string) (key : string) : string :=
  match c_color with
  | Some c => if String.eqb c "" then PLOT_COLORS key else c
  | None => PLOT_COLORS key
  end.

(** [if c: column_list.append(c); all_plots.append({...})]. *)
Definition add_plot (c : option string) (use_c : string)
           (acc : list string * list node) : list string * list node :=
  match c with
  | Some name =>
      if String.eqb name "" then acc
      else (fst acc ++ [name], snd acc ++ [mkNode name use_c])
  | None => acc
  end.

(** Lines 130-174: [(column_list, all_plots)]. *)
Definition select_series (a : args) : list string * list node :=
  let use_red := use_color (red_color a) "red" in
  let use_blue := use_color (blue_color a) "blue" in
  let use_green := use_color (green_color a) "green" in
  let use_orange := use_color (orange_color a) "orange" in
  let acc := ([date_col a], []) in
  let acc := add_plot (red a) use_red acc in
  let acc := add_plot (blue a) use_blue acc in
  let acc := add_plot (green a) use_green acc in
  let acc := add_plot (orange a) use_orange acc in
  acc.

Definition column_list (a : args) : list string := fst (select_series a).
Definition all_plots (a : args) : list node := snd (select_series a).

Definition parse_start_date (text : string) : outcome Z :=
  match strptime text COMMON_TICK_DATE_FORMAT with
  | Some v => Return v
  | None => Raise (ValueError text)
  end.

(** Lines 176-181: [use_df = df], narrowed to the rows from
    [start_date] on when a non-empty [start_date] is given. *)
Definition filter_by_start_date (a : args) (column_list : list string)
  : outcome pd.DataFrame :=
  match start_date a with
  | Some text =>
      if String.eqb text "" then Return (df a)
      else
        obind (parse_start_date text) (fun start_date_value =>
        obind (pd.getitem_col (df a) (date_col a)) (fun dates =>
        obind (pd.getitem_mask (df a) (pd.ge dates start_date_value))
              (fun kept => pd.getitem_cols kept column_list)))
  | None => Return (df a)
  end.

(** Lines 191-192: [if hasattr(df_filter, 'to_json'):
    use_df = use_df[df_filter][column_list]]. *)
Definition filter_by_df_filter (a : args) (column_list : list string)
           (use_df : pd.DataFrame) : outcome pd.DataFrame :=
  if hasattr_to_json (df_filter a)
  then
    match df_filter a with
    | FilterSeries mask =>
        obind (pd.getitem_mask use_df mask)
              (fun kept => pd.getitem_cols kept column_list)
    | _ => Return use_df
    end
  else Return use_df.

(** Lines 176-205: the frame that is plotted. *)
Definition scrub (a : args) (column_list : list string) : M pd.DataFrame :=
  use_df <- lift (filter_by_start_date a column_list) ;;
  when (verbose a)
       (pyplot.log_info
          "plot_history_df start_date={} df.index={} column_list={}") ;;
  use_df <- lift (filter_by_df_filter a column_list use_df) ;;
  when (verbose a)
       (pyplot.log_info "plot_history_df filter df.index={} column_list={}") ;;
  if dropna_for_all a
  then
    let use_df := pd.dropna use_df in
    when (verbose a) (pyplot.log_info "plot_history_df dropna_for_all") ;;
    ret use_df
  else ret use_df.

(** [frame.plot(x=..., ax=..., color=..., ...)]: one artist per column
    other than [x], labelled with the column name; the axes rescales
    its y-limits unless they were set by hand, and pandas gives the
    axes a legend of its own.  What pandas refuses to draw (a frame
    whose only column is [x] itself) is not modelled: nothing is drawn
    there. *)
Definition drawn_artists (frame : pd.DataFrame) (x : string) (px : nat)
           (kind : plt.plot_kind) (h : nat) (hex_color : string)
  : list plt.Artist :=
  let xs := map (fun r => pd.cell_at r px) (pd.rows frame) in
  omap (fun pc =>
          if String.eqb (snd pc) x then None
          else Some (plt.mkArtist h (snd pc) hex_color kind xs
                       (map (fun r => pd.cell_at r (fst pc))
                            (pd.rows frame))))
       (imap (fun p c => (p, c)) (pd.columns frame)).

Definition add_artists (drawn : list plt.Artist) (ax : plt.Axes) : plt.Axes :=
  let artists := plt.ax_artists ax ++ drawn in
  plt.mkAxes artists
    (if plt.ax_autoscaley ax then auto_ylim artists else plt.ax_ylim ax)
    (plt.ax_autoscaley ax)
    (Some (plt.mkLegend
             (List.filter plt.legend_visible artists)
             (map plt.art_label (List.filter plt.legend_visible artists))
             "best" false))
    (plt.ax_calls ax).

Definition df_plot (frame : pd.DataFrame) (x : string)
           (kind : plt.plot_kind) (h : nat) (hex_color : string) : M unit :=
  match pd.positions x (pd.columns frame) with
  | [] => raise (KeyError x)
  | px :: _ =>
      pyplot.on_axes h (add_artists (drawn_artists frame x px kind h hex_color))
  end.

(** Lines 220-268: the body of [for idx, node in enumerate(all_plots)];
    it yields the axes [use_ax] it drew on. *)
Definition plot_node (a : args) (use_df : pd.DataFrame) (ax : nat)
           (idx : nat) (node : node) : M nat :=
  let column_name := column node in
  let hex_color := color node in
  use_ax <- (if bool_decide (0 < idx) then pyplot.twinx ax else ret ax) ;;
  when (verbose a)
       (pyplot.log_info "plot_history_df - {}/{} - {} in {} - ax={}") ;;
  frame <- lift (pd.getitem_cols use_df [date_col a; column_name]) ;;
  (if String.eqb (linestyle a) "-"
   then df_plot frame (date_col a) plt.LineKind use_ax hex_color
   else df_plot frame (date_col a) plt.BarKind use_ax hex_color) ;;
  (if bool_decide (0 < idx)
   then
     when (scale_y a)
          (lim <- pyplot.get_ylim use_ax ;;
           pyplot.set_ylim use_ax (0%float, (snd lim * 3)%float)) ;;
     pyplot.ax_record use_ax (plt.SetFmtXdata (date_format a)) ;;
     pyplot.ax_record use_ax (plt.XaxisGrid false "major") ;;
     pyplot.ax_record use_ax (plt.YaxisGrid false) ;;
     pyplot.ax_record use_ax (plt.YaxisSetTicklabels [])
   else
     pyplot.ax_record use_ax (plt.XaxisGrid true "minor") ;;
     pyplot.ax_record use_ax (plt.SetFmtXdata (date_format a)) ;;
     pyplot.ax_record use_ax (plt.XaxisSetMinorFormatter (date_format a)) ;;
     cur <- pyplot.gca ;;
     pyplot.ax_record cur (plt.Grid true)) ;;
  ret use_ax.

(** Lines 219-269: the loop threads [all_axes] and leaves [use_ax]
    bound to the axes of the last iteration. *)
Fixpoint for_all_plots (a : args) (use_df : pd.DataFrame) (ax : nat)
         (idx : nat) (nodes : list node)
         (all_axes : list nat) (use_ax : option nat)
  : M (list nat * option nat) :=
  match nodes with
  | [] => ret (all_axes, use_ax)
  | node :: rest =>
      use_ax <- plot_node a use_df ax idx node ;;
      for_all_plots a use_df ax (S idx) rest (all_axes ++ [use_ax])
                    (Some use_ax)
  end.

(** Lines 278-281: [for idx, cur_ax in enumerate(all_axes)].  Every
    slot receives [use_ax], the variable left over from the loop above,
    not [cur_ax]. *)
Fixpoint for_all_axes (idx : nat) (axes_left : list nat)
         (use_ax : option nat)
         (lines : list plt.Artist) (rec : gmap string pyval)
  : M (list plt.Artist * gmap string pyval) :=
  match axes_left with
  | [] => ret (lines, rec)
  | cur_ax :: rest =>
      more <- pyplot.get_lines cur_ax ;;
      let lines := lines ++ more in
      match use_ax with
      | None => raise (NameError "use_ax")
      | Some h =>
          let rec := <["ax" +:+ pretty (idx + 1) := PyAxes h]> rec in
          for_all_axes (S idx) rest use_ax lines rec
      end
  end.

Definition plot_trading_history (a : args) : M result :=
  let rec : gmap string pyval :=
    <["ax1" := PyNone]> (<["ax2" := PyNone]> (<["ax3" := PyNone]>
    (<["ax4" := PyNone]> (<["fig" := PyNone]> ∅)))) in
  let result := build_result NOT_RUN None rec in
  when (verbose a) (pyplot.log_info "plot_trading_history - start") ;;
  let use_footnote :=
    if truthy (footnote_text a) then default "" (footnote_text a)
    else "algotraders - " +:+ now_strftime COMMON_TICK_DATE_FORMAT in
  let column_list := column_list a in
  let all_plots := all_plots a in
  use_df <- scrub a column_list ;;
  pyplot.record plt.SetCommonSeabornFonts ;;
  let hex_color := PLOT_COLORS "blue" in
  fig_ax <- pyplot.subplots (width a, height a) ;;
  let fig := fst fig_ax in
  let ax := snd fig_ax in
  let num_plots := length all_plots in
  looped <- for_all_plots a use_df ax 0 all_plots [] None ;;
  let all_axes := fst looped in
  let use_ax := snd looped in
  cur <- pyplot.gca ;;
  handles_labels <- pyplot.get_legend_handles_labels cur ;;
  let new_labels_handles :=
    dedup_labels (zip_pairs (fst handles_labels) (snd handles_labels))
                 [] [] in
  collected <- for_all_axes 0 all_axes use_ax [] rec ;;
  let lines := fst collected in
  let rec := snd collected in
  pyplot.legend ax lines (map plt.art_label lines) "best" true ;;
  pyplot.record plt.AutofmtXdate ;;
  cur <- pyplot.gca ;;
  pyplot.ax_record cur (plt.SetXlabel (xlabel a)) ;;
  cur <- pyplot.gca ;;
  pyplot.ax_record cur (plt.SetYlabel (ylabel a)) ;;
  pyplot.ax_record ax (plt.SetTitle (title a)) ;;
  pyplot.record
    (plt.AddFootnote
       (plt.mkFootnote use_footnote (footnote_xpos a) (footnote_ypos a)
                       (footnote_color a) (footnote_fontsize a))) ;;
  pyplot.record plt.TightLayout ;;
  pyplot.record plt.Show ;;
  (if show_plot a then pyplot.record plt.Show
   else pyplot.record plt.PlotNothing) ;;
  let rec := <["fig" := PyFigure fig]> rec in
  let result := build_result SUCCESS None rec in
  ret result.

End Engine.

(** ** A concrete environment and concrete calls

    Instances of the external parameters, used to run the function on
    explicit inputs.  Timestamps are written [YYYYMMDDhhmmss], which
    orders them as the dates they stand for. *)

Module env.

Definition digit (c : Ascii.ascii) : option Z :=
  let n := Z.of_nat (Ascii.nat_of_ascii c) in
  if ((48 <=? n) && (n <=? 57))%Z then Some (n - 48)%Z else None.

Fixpoint number (s : string) (acc : Z) : option Z :=
  match s with
  | EmptyString => Some acc
  | String c s' =>
      match digit c with
      | Some d => number s' (10 * acc + d)%Z
      | None => None
      end
  end.

Definition field (text : string) (start len : nat) (lo hi : Z)
  : option Z :=
  match number (String.substring start len text) 0 with
  | Some v => if ((lo <=? v) && (v <=? hi))%Z then Some v else None
  | None => None
  end.

Definition sep (text : string) (pos : nat) (c : string) : bool :=
  String.eqb (String.substring pos 1 text) c.

(** Modelled from the spec: [ae_consts.COMMON_TICK_DATE_FORMAT], the
    fixed [YYYY-MM-DD HH:MM:SS] format of [start_date]. *)
Definition COMMON_TICK_DATE_FORMAT : string := "%Y-%m-%d %H:%M:%S".

(** A strict reader of [YYYY-MM-DD HH:MM:SS], standing for
    [datetime.datetime.strptime]. *)
Definition strptime (text format : string) : option Z :=
  if negb (String.eqb format COMMON_TICK_DATE_FORMAT) then None
  else if negb (String.length text =? 19) then None
  else if negb (sep text 4 "-" && sep text 7 "-" && sep text 10 " "
                && sep text 13 ":" && sep text 16 ":") then None
  else
    match field text 0 4 0 9999, field text 5 2 1 12, field text 8 2 1 31,
          field text 11 2 0 23, field text 14 2 0 59, field text 17 2 0 59
    with
    | Some y, Some mo, Some d, Some h, Some mi, Some s =>
        Some (((((y * 100 + mo) * 100 + d) * 100 + h) * 100 + mi) * 100
              + s)%Z
    | _, _, _, _, _, _ => None
    end.

(** Modelled from the spec: [ae_consts.PLOT_COLORS], a fixed default
    palette keyed by slot; the hex codes are an example, no property
    depends on them. *)
Definition PLOT_COLORS (key : string) : string :=
  if String.eqb key "red" then "#E74C3C"
  else if String.eqb key "blue" then "#3498DB"
  else if String.eqb key "green" then "#2ECC71"
  else if String.eqb key "orange" then "#F39C12"
  else "#000000".

Definition now_strftime (format : string) : string :=
  "2020-01-10 16:00:00".

Fixpoint float_of_pos (p : positive) : float :=
  match p with
  | xH => 1%float
  | xO q => (2 * float_of_pos q)%float
  | xI q => (2 * float_of_pos q + 1)%float
  end.

Definition float_of_Z (z : Z) : float :=
  match z with
  | Z0 => 0%float
  | Zpos p => float_of_pos p
  | Zneg p => (- float_of_pos p)%float
  end.

(** A stand-in for autoscaling: the range of the data drawn, and
    matplotlib's empty-axes default [(0, 1)] without data. *)
Definition auto_ylim (artists : list plt.Artist) : float * float :=
  match omap id (flat_map plt.art_y artists) with
  | [] => (0%float, 1%float)
  | y :: ys =>
      (float_of_Z (fold_right Z.min y ys),
       float_of_Z (fold_right Z.max y ys))
  end.

(** pyplot before the call: no figure, nothing logged. *)
Definition fresh : plt.state :=
  plt.mkState 0 (0%float, 0%float) [] 0 [].

Definition newline : string := String (Ascii.ascii_of_nat 10) "".

(** A call [plot_trading_history(title, df, red, blue=..., ...)], the
    parameters not listed at their Python defaults. *)
Definition call (df : pd.DataFrame) (red blue green orange : option string)
           (df_filter : filter_obj) (start_date : option string)
           (scale_y show_plot dropna_for_all : bool) : args :=
  mkArgs "Trading History" df red None blue None green None orange None
         "date" "Date" "Algo Values" "-" 8%float 6%float
         ("%d" +:+ newline +:+ "%b")
         df_filter start_date None
         0x1.6666666666666p-1%float   (* 0.70 *)
         0x1.47ae147ae147bp-7%float   (* 0.01 *)
         "#888888" 8%float
         scale_y show_plot dropna_for_all false.

(** Ten daily rows, 2020-01-01 to 2020-01-10. *)
Definition history : pd.DataFrame :=
  pd.mkDF ["date"; "equity"; "cash"]
    (map (fun i : nat =>
            pd.mkRow (Z.of_nat i)
                     [Some (20200101000000 + Z.of_nat i * 1000000)%Z;
                      Some (1000 + 10 * Z.of_nat i)%Z;
                      Some (500 - 5 * Z.of_nat i)%Z])
         (seq 0 10)).

Definition run (a : args) : outcome result * plt.state :=
  plot_trading_history strptime COMMON_TICK_DATE_FORMAT PLOT_COLORS
                       now_strftime auto_ylim a fresh.

(** [red='equity'], nothing else. *)
Definition one_series : args :=
  call history (Some "equity") None None None FilterNone None false true false.

(** [red='equity', blue='cash', start_date='2020-01-05 00:00:00',
    scale_y=..., show_plot=False]. *)
Definition two_series (scale_y : bool) : args :=
  call history (Some "equity") (Some "cash") None None FilterNone
       (Some "2020-01-05 00:00:00") scale_y false false.

(** [blue='volume'], a column the dataset does not have. *)
Definition absent_column : args :=
  call history (Some "equity") (Some "volume") None None FilterNone None
       false true false.

(** The same column in two slots. *)
Definition same_column_twice : args :=
  call history (Some "equity") (Some "equity") None None FilterNone None
       false true false.

(** [df_filter] given as a plain list of booleans. *)
Definition list_filter : args :=
  call history (Some "equity") None None None
       (FilterList [true; false; true; false; true;
                    false; true; false; true; false])
       None false true false.

(** [start_date='yesterday'], which is not in the tick format. *)
Definition bad_start_date : args :=
  env.call env.history (Some "equity") None None None FilterNone
           (Some "yesterday") false true false.

(** [blue='volume'], absent from the dataset, with a start date. *)
Definition absent_column_from_start : args :=
  env.call env.history (Some "equity") (Some "volume") None None FilterNone
           (Some "2020-01-05 00:00:00") false true false.

(** Three rows, the second without a value. *)
Definition gappy_history : pd.DataFrame :=
  pd.mkDF ["date"; "equity"]
    [pd.mkRow 0 [Some 20200101000000; Some 1000];
     pd.mkRow 1 [Some 20200102000000; None];
     pd.mkRow 2 [Some 20200103000000; Some 1020]]%Z.

(** [red='equity', dropna_for_all=True] on the rows with a gap. *)
Definition with_gaps : args :=
  env.call gappy_history (Some "equity") None None None FilterNone None
           false false true.

(** A boolean Series over the index of [history]: the even labels. *)
Definition even_rows : pd.Series bool :=
  map (fun i : nat => (Z.of_nat i, Nat.even i)) (seq 0 10).

(** [red='equity', df_filter=<Series>]. *)
Definition series_filter : args :=
  env.call env.history (Some "equity") None None None (FilterSeries even_rows)
           None false false false.

End env.

(** ** Vocabulary of the properties *)

Section Vocabulary.

Variable strptime : string -> string -> option Z.
Variable COMMON_TICK_DATE_FORMAT : string.
Variable auto_ylim : list plt.Artist -> float * float.

(** The frame [scrub] hands to the plotting loop, without the logging. *)
Definition scrub_result (a : args) (cl : list string) : outcome pd.DataFrame :=
  obind (filter_by_start_date strptime COMMON_TICK_DATE_FORMAT a cl)
        (fun u1 =>
           obind (filter_by_df_filter a cl u1)
                 (fun u2 =>
                    Return (if dropna_for_all a then pd.dropna u2 else u2))).

(** Rows of [u] all carry, under [name], a date at or after [v]. *)
Definition dated_from (name : string) (v : Z) (u : pd.DataFrame) : Prop :=
  forall r, r ∈ pd.rows u ->
            exists t, pd.value_at u name r = Some t /\ (v <= t)%Z.

(** A non-empty [start_date] that [strptime] rejects. *)
Definition malformed_start_date (a : args) : Prop :=
  exists text, start_date a = Some text /\ text <> ""%string /\
               strptime text COMMON_TICK_DATE_FORMAT = None.

(** A selected series column that the dataset lacks. *)
Definition absent_series (a : args) : Prop :=
  exists c, c ∈ selected_slots a /\ c ∉ pd.columns (df a).

(** The dataset lacks the date column and the call looks it up: to cut at
    a start date, to re-project after a Series filter, or to plot. *)
Definition absent_date_col (a : args) : Prop :=
  (date_col a ∉ pd.columns (df a)) /\
  ((truthy (start_date a) = true) \/ (hasattr_to_json (df_filter a) = true) \/
   (selected_slots a <> [])).

Definition fatal (a : args) : Prop :=
  malformed_start_date a \/ absent_series a \/ absent_date_col a.

Definition plot_kind_of (a : args) : plt.plot_kind :=
  if String.eqb (linestyle a) "-" then plt.LineKind else plt.BarKind.

(** The artists [plot_node] draws for [nd] on the axes [h]. *)
Definition drawn_for (a : args) (use_df : pd.DataFrame) (h : nat) (nd : node)
  : option (list plt.Artist) :=
  match pd.getitem_cols use_df [date_col a; column nd] with
  | Return frame =>
      match pd.positions (date_col a) (pd.columns frame) with
      | px :: _ =>
          Some (drawn_artists frame (date_col a) px (plot_kind_of a) h
                              (color nd))
      | [] => None
      end
  | Raise _ => None
  end.

(** What a reader of the figure sees of an axes: artists and y-limits. *)
Definition geom (ax : plt.Axes) : list plt.Artist * (float * float) :=
  (plt.ax_artists ax, plt.ax_ylim ax).

(** A statement that changes no axes geometry once it returns. *)
Definition keeps_geom {A} (m : M A) : Prop :=
  forall s a s', m s = (Return a, s') ->
                 map geom (plt.axes s') = map geom (plt.axes s).

(** The primary axes after the first series: its artists, autoscaled. *)
Definition prim_ok (a : args) (use_df : pd.DataFrame) (nd : node)
           (g : list plt.Artist * (float * float)) : Prop :=
  drawn_for a use_df 0 nd = Some (fst g) /\ snd g = auto_ylim (fst g).

(** A twin axes [h] after its series: its artists, with the autoscaled
    limits, or [0, 3 * upper] under [scale_y]. *)
Definition twin_ok (a : args) (use_df : pd.DataFrame) (h : nat) (nd : node)
           (g : list plt.Artist * (float * float)) : Prop :=
  drawn_for a use_df h nd = Some (fst g) /\
  snd g = (if scale_y a then (0%float, (snd (auto_ylim (fst g)) * 3)%float)
           else auto_ylim (fst g)).

(** [gs] are the geometries of the twins made for [nodes], the first of
    them on the axes [h]. *)
Fixpoint described (a : args) (use_df : pd.DataFrame) (h : nat)
         (nodes : list node) (gs : list (list plt.Artist * (float * float)))
  : Prop :=
  match nodes, gs with
  | [], [] => True
  | nd :: nodes', g :: gs' =>
      twin_ok a use_df h nd g /\ described a use_df (S h) nodes' gs'
  | _, _ => False
  end.

(** The geometry of the whole figure after the loop over [nodes]. *)
Definition composed (a : args) (use_df : pd.DataFrame) (nodes : list node)
           (G : list (list plt.Artist * (float * float))) : Prop :=
  match nodes with
  | [] => G = [geom plt.new_axes]
  | nd :: rest =>
      exists g gs, G = g :: gs /\ prim_ok a use_df nd g /\
                   described a use_df 1 rest gs
  end.

(** A statement that, once it returns, has put the figure on display
    [n] more times. *)
Definition adds_shows {A} (n : nat) (m : M A) : Prop :=
  forall s a s', m s = (Return a, s') ->
                 plt.count_show (plt.calls s')
                 = plt.count_show (plt.calls s) + n.

(** The slots [ax(idx+1) .. ax(idx+k)] of [rec], all bound to the axes
    [h]. *)
Definition fill_slots (h : nat) (idx k : nat) (rec : gmap string pyval)
  : gmap string pyval :=
  fold_left (fun r i => <["ax" +:+ pretty (i + 1) := PyAxes h]> r)
            (seq idx k) rec.

End Vocabulary.

(** ** Vocabulary of the call as a whole

    What one run of the function leaves behind, written down without the
    monad: the axes after the plotting loop, the axes, the [rec] and the
    call log at the end. *)

(** The call log after [if flag: log.info(msg)]. *)
Definition logged (flag : bool) (msg : string) (cs : list plt.call)
  : list plt.call :=
  if flag then plt.LogInfo msg :: cs else cs.

(** A line written with [log.info]. *)
Definition is_log (c : plt.call) : bool :=
  match c with
  | plt.LogInfo _ => true
  | _ => false
  end.

(** The calls of a log that reach pyplot, the figure or [ae_charts]:
    everything but the log lines. *)
Definition figure_calls (cs : list plt.call) : list plt.call :=
  List.filter (fun c => negb (is_log c)) cs.

(** The legend pandas gives an axes when it plots on it. *)
Definition pandas_legend (artists : list plt.Artist) : option plt.Legend :=
  Some (plt.mkLegend (List.filter plt.legend_visible artists)
                     (map plt.art_label (List.filter plt.legend_visible artists))
                     "best" false).

(** The exception the body of the plotting loop raises for [nd] when it
    cannot look its columns up. *)
Definition node_error (a : args) (use_df : pd.DataFrame) (nd : node) : exn :=
  match pd.getitem_cols use_df [date_col a; column nd] with
  | Raise e => e
  | Return _ => KeyError (date_col a)
  end.

Section Shapes.
Variable auto_ylim : list plt.Artist -> float * float.

(** The primary axes once the first series is drawn on it. *)
Definition primary_axes (a : args) (drawn : list plt.Artist) : plt.Axes :=
  plt.mkAxes drawn (auto_ylim drawn) true (pandas_legend drawn)
             [plt.Grid true; plt.XaxisSetMinorFormatter (date_format a);
              plt.SetFmtXdata (date_format a); plt.XaxisGrid true "minor"].

(** A twin axes once its series is drawn on it. *)
Definition twin_axes (a : args) (drawn : list plt.Artist) : plt.Axes :=
  plt.mkAxes drawn
             (if scale_y a
              then (0%float, (snd (auto_ylim drawn) * 3)%float)
              else auto_ylim drawn)
             (negb (scale_y a)) (pandas_legend drawn)
             [plt.YaxisSetTicklabels []; plt.YaxisGrid false;
              plt.XaxisGrid false "major"; plt.SetFmtXdata (date_format a)].

(** The twins of [nodes], the first on the axes [h]; [None] when a
    series cannot be looked up. *)
Fixpoint twins_for (a : args) (use_df : pd.DataFrame) (h : nat)
         (nodes : list node) : option (list plt.Axes) :=
  match nodes with
  | [] => Some []
  | nd :: rest =>
      match drawn_for a use_df h nd, twins_for a use_df (S h) rest with
      | Some drawn, Some twins => Some (twin_axes a drawn :: twins)
      | _, _ => None
      end
  end.

(** The axes of the figure when the plotting loop is through. *)
Definition figure_axes (a : args) (use_df : pd.DataFrame) (nodes : list node)
  : option (list plt.Axes) :=
  match nodes with
  | [] => Some [plt.new_axes]
  | nd :: rest =>
      match drawn_for a use_df 0 nd, twins_for a use_df 1 rest with
      | Some drawn, Some twins => Some (primary_axes a drawn :: twins)
      | _, _ => None
      end
  end.
End Shapes.

(** The log messages of lines 229 and 128. *)
Definition loop_msg : string := "plot_history_df - {}/{} - {} in {} - ax={}".

Definition start_msg : string := "plot_trading_history - start".

(** The lines [for_all_axes] collects from every axes of the figure. *)
Definition legend_lines (L : list plt.Axes) : list plt.Artist :=
  flat_map (fun ax => List.filter plt.is_line (plt.ax_artists ax)) L.

(** The axes after one more cosmetic call. *)
Definition add_call (c : plt.ax_call) (ax : plt.Axes) : plt.Axes :=
  plt.mkAxes (plt.ax_artists ax) (plt.ax_ylim ax) (plt.ax_autoscaley ax)
             (plt.ax_legend ax) (c :: plt.ax_calls ax).

(** The axes with its legend replaced. *)
Definition set_legend (lg : plt.Legend) (ax : plt.Axes) : plt.Axes :=
  plt.mkAxes (plt.ax_artists ax) (plt.ax_ylim ax) (plt.ax_autoscaley ax)
             (Some lg) (plt.ax_calls ax).

(** The axes of the figure at the end of the call, from the axes [L] the
    plotting loop left: legend and title on the first, axis labels on the
    last. *)
Definition final_axes (a : args) (L : list plt.Axes) : list plt.Axes :=
  alter (add_call (plt.SetTitle (title a))) 0
    (alter (add_call (plt.SetYlabel (ylabel a))) (length L - 1)
       (alter (add_call (plt.SetXlabel (xlabel a))) (length L - 1)
          (alter (set_legend
                    (plt.mkLegend (legend_lines L)
                                  (map plt.art_label (legend_lines L))
                                  "best" true))
                 0 L))).

(** Lines 115-121: the [rec] the function starts from. *)
Definition rec0 : gmap string pyval :=
  <["ax1" := PyNone]> (<["ax2" := PyNone]> (<["ax3" := PyNone]>
  (<["ax4" := PyNone]> (<["fig" := PyNone]> ∅)))).

(** The [rec] dictionary of a returning call with [k] series. *)
Definition final_rec (fig k : nat) : gmap string pyval :=
  <["fig" := PyFigure fig]> (fill_slots (k - 1) 0 k rec0).

Section Finals.
Variable strptime : string -> string -> option Z.
Variable COMMON_TICK_DATE_FORMAT : string.
Variable now_strftime : string -> string.

(** Lines 144-149: the footnote text. *)
Definition use_footnote (a : args) : string :=
  if truthy (footnote_text a) then default ""%string (footnote_text a)
  else "algotraders - " +:+ now_strftime COMMON_TICK_DATE_FORMAT.

(** The pyplot-level calls from [autofmt_xdate] to the end, put on top
    of the log [cs]. *)
Definition final_calls (a : args) (cs : list plt.call) : list plt.call :=
  (if show_plot a then plt.Show else plt.PlotNothing)
    :: plt.Show :: plt.TightLayout
    :: plt.AddFootnote
         (plt.mkFootnote (use_footnote a) (footnote_xpos a) (footnote_ypos a)
                         (footnote_color a) (footnote_fontsize a))
    :: plt.AutofmtXdate :: cs.

(** The log after the scrubbing steps: one line per step that went
    through, when [verbose]. *)
Definition scrub_calls (a : args) (cl : list string) (cs : list plt.call)
  : list plt.call :=
  match filter_by_start_date strptime COMMON_TICK_DATE_FORMAT a cl with
  | Raise _ => cs
  | Return u1 =>
      let cs1 :=
        logged (verbose a)
               "plot_history_df start_date={} df.index={} column_list={}" cs in
      match filter_by_df_filter a cl u1 with
      | Raise _ => cs1
      | Return _ =>
          let cs2 :=
            logged (verbose a)
                   "plot_history_df filter df.index={} column_list={}" cs1 in
          if dropna_for_all a
          then logged (verbose a) "plot_history_df dropna_for_all" cs2
          else cs2
      end
  end.
End Finals.

(** What the end of the call adds to the axes at position [i] of [L]:
    the legend and the title on the first, the axis labels on the
    last. *)
Definition finish (a : args) (L : list plt.Axes) (i : nat) (ax : plt.Axes)
  : plt.Axes :=
  let ax :=
    if bool_decide (i = 0)
    then set_legend (plt.mkLegend (legend_lines L)
                                  (map plt.art_label (legend_lines L))
                                  "best" true) ax
    else ax in
  let ax :=
    if bool_decide (i = length L - 1)
    then add_call (plt.SetYlabel (ylabel a))
                  (add_call (plt.SetXlabel (xlabel a)) ax)
    else ax in
  if bool_decide (i = 0) then add_call (plt.SetTitle (title a)) ax else ax.

(** The index of [mask] has no entry for the label of some row of [d]. *)
Definition uncovered (mask : pd.Series bool) (d : pd.DataFrame) : Prop :=
  ∃ r, r ∈ pd.rows d ∧ pd.mask_lookup mask (pd.label r) = None.


(** The same call with another [verbose]. *)
Definition set_verbose (b : bool) (a : args) : args :=
  mkArgs (title a) (df a) (red a) (red_color a) (blue a) (blue_color a)
         (green a) (green_color a) (orange a) (orange_color a) (date_col a)
         (xlabel a) (ylabel a) (linestyle a) (width a) (height a)
         (date_format a) (df_filter a) (start_date a) (footnote_text a)
         (footnote_xpos a) (footnote_ypos a) (footnote_color a)
         (footnote_fontsize a) (scale_y a) (show_plot a) (dropna_for_all a)
         b.

(** * Properties *)

(** ** Facts about the pandas model *)

Lemma positions_from_spec (name : string) (cols : list string) (i p : nat) :
  p ∈ pd.positions_from i name cols ↔ i ≤ p ∧ cols !! (p - i) = Some name.
Proof.
  revert i. induction cols as [|c cs IH]; intros i; simpl.
  - split; [intros H; inversion H | intros [_ H]; discriminate].
  - destruct (String.eqb_spec c name) as [->|Hne].
    + rewrite elem_of_cons, IH. split.
      * intros [->|[Hle Hl]].
        -- split; [lia|]. by replace (i - i) with 0 by lia.
        -- split; [lia|]. by replace (p - i) with (S (p - S i)) by lia.
      * intros [Hle Hl]. destruct (decide (p = i)) as [->|Hpi]; [by left|].
        right. split; [lia|].
        by replace (p - i) with (S (p - S i)) in Hl by lia.
    + rewrite IH. split.
      * intros [Hle Hl]. split; [lia|].
        by replace (p - i) with (S (p - S i)) by lia.
      * intros [Hle Hl]. destruct (decide (p = i)) as [->|Hpi].
        -- replace (i - i) with 0 in Hl by lia. simpl in Hl. congruence.
        -- split; [lia|].
           by replace (p - i) with (S (p - S i)) in Hl by lia.
Qed.

Lemma positions_spec (name : string) (cols : list string) (p : nat) :
  p ∈ pd.positions name cols ↔ cols !! p = Some name.
Proof.
  unfold pd.positions. rewrite positions_from_spec.
  replace (p - 0) with p by lia. split; [tauto | intros; split; [lia | done]].
Qed.

Lemma positions_nil_iff (name : string) (cols : list string) :
  pd.positions name cols = [] ↔ name ∉ cols.
Proof.
  split.
  - intros Hnil Hin. apply list_elem_of_lookup in Hin as [p Hp].
    apply positions_spec in Hp. rewrite Hnil in Hp. inversion Hp.
  - intros Hnot. destruct (pd.positions name cols) as [|p ps] eqn:E; [done|].
    exfalso. apply Hnot. apply list_elem_of_lookup. exists p.
    apply positions_spec. rewrite E. by left.
Qed.

Lemma positions_nth (name : string) (cols : list string) (p : nat) :
  p ∈ pd.positions name cols → nth p cols ""%string = name.
Proof.
  intros H. apply positions_spec in H. by apply nth_lookup_Some with (d := ""%string) in H.
Qed.

Lemma positions_head (name : string) (cols : list string) :
  ∃ ps, pd.positions name (name :: cols) = 0 :: ps.
Proof.
  unfold pd.positions. simpl. rewrite String.eqb_refl. eauto.
Qed.

Lemma key_positions_cons (k : string) (ks cols : list string) (qs : list nat) :
  pd.key_positions (k :: ks) cols = Return qs →
  ∃ p ps rest, pd.positions k cols = p :: ps ∧ qs = (p :: ps) ++ rest.
Proof.
  simpl. destruct (pd.positions k cols) as [|p ps]; [discriminate|].
  destruct (pd.key_positions ks cols) as [rest|e]; simpl; [|discriminate].
  intros [= <-]. eauto.
Qed.

Lemma key_positions_missing (k : string) (keys cols : list string) :
  k ∈ keys → k ∉ cols → ∃ e, pd.key_positions keys cols = Raise e.
Proof.
  intros Hin Hnot. induction keys as [|k' ks IH]; [inversion Hin|].
  simpl. destruct (pd.positions k' cols) as [|p ps] eqn:E; [eauto|].
  apply elem_of_cons in Hin as [->|Hin].
  - apply positions_nil_iff in Hnot. congruence.
  - destruct (IH Hin) as [e ->]. simpl. eauto.
Qed.

Lemma key_positions_names (keys cols : list string) (qs : list nat) (q : nat) :
  pd.key_positions keys cols = Return qs → q ∈ qs →
  nth q cols ""%string ∈ cols.
Proof.
  revert qs. induction keys as [|k ks IH]; intros qs; simpl.
  - intros [= <-] H. inversion H.
  - destruct (pd.positions k cols) as [|p ps] eqn:E; [discriminate|].
    destruct (pd.key_positions ks cols) as [rest|e]; simpl; [|discriminate].
    intros [= <-] Hq. change (q ∈ (p :: ps) ++ rest) in Hq.
    apply elem_of_app in Hq as [Hq|Hq]; [|by eapply IH].
    rewrite <- E in Hq. pose proof (positions_nth _ _ _ Hq) as ->.
    apply positions_spec in Hq. by eapply list_elem_of_lookup_2.
Qed.

(** Selecting columns never invents a name. *)
Lemma getitem_cols_columns (d u : pd.DataFrame) (keys : list string) :
  pd.getitem_cols d keys = Return u → pd.columns u ⊆ pd.columns d.
Proof.
  unfold pd.getitem_cols.
  destruct (pd.key_positions keys (pd.columns d)) as [qs|e] eqn:E;
    simpl; [|discriminate].
  intros [= <-]. simpl. intros c Hc.
  apply list_elem_of_fmap in Hc as [q [-> Hq]]. by eapply key_positions_names.
Qed.

Lemma getitem_cols_missing (d : pd.DataFrame) (keys : list string) (k : string) :
  k ∈ keys → k ∉ pd.columns d → ∃ e, pd.getitem_cols d keys = Raise e.
Proof.
  intros Hin Hnot. unfold pd.getitem_cols.
  destruct (key_positions_missing k keys (pd.columns d) Hin Hnot) as [e ->].
  simpl. eauto.
Qed.

(** The first key of a selection names the first column of the result, and
    every row carries there the value it had under that name. *)
Lemma getitem_cols_value_at (d u : pd.DataFrame) (k : string)
      (ks : list string) (r' : pd.Row) :
  pd.getitem_cols d (k :: ks) = Return u → r' ∈ pd.rows u →
  ∃ r, r ∈ pd.rows d ∧ pd.value_at u k r' = pd.value_at d k r.
Proof.
  unfold pd.getitem_cols.
  destruct (pd.key_positions (k :: ks) (pd.columns d)) as [qs|e] eqn:E;
    simpl; [|discriminate].
  intros [= <-]. simpl. intros Hr'.
  apply list_elem_of_fmap in Hr' as [r [-> Hr]]. exists r. split; [done|].
  apply key_positions_cons in E as (p & ps & rest & Hpos & ->).
  unfold pd.value_at. rewrite Hpos. simpl.
  assert (nth p (pd.columns d) ""%string = k) as ->.
  { apply positions_nth. rewrite Hpos. by left. }
  destruct (positions_head k
              (map (λ p0, nth p0 (pd.columns d) ""%string) (ps ++ rest)))
    as [ps' ->].
  reflexivity.
Qed.

Lemma take_rows_map (f : pd.Row → bool) (rs : list pd.Row) (r : pd.Row) :
  r ∈ pd.take_rows (map f rs) rs → r ∈ rs ∧ f r = true.
Proof.
  induction rs as [|r0 rs IH]; simpl; [intros H; inversion H|].
  destruct (f r0) eqn:E.
  - intros [->|H]%elem_of_cons; [split; [by left | done]|].
    destruct (IH H). split; [by right | done].
  - intros H. destruct (IH H). split; [by right | done].
Qed.

Lemma take_rows_sub (flags : list bool) (rs : list pd.Row) :
  pd.take_rows flags rs ⊆ rs.
Proof.
  revert flags. induction rs as [|r0 rs IH]; intros [|b flags]; simpl;
    try (intros r H; by inversion H).
  destruct b; intros r H.
  - apply elem_of_cons in H as [->|H]; [by left|]. right. by eapply IH.
  - right. by eapply IH.
Qed.

Lemma align_rows_sub (mask : pd.Series bool) (rs kept : list pd.Row) :
  pd.align_rows mask rs = Return kept → kept ⊆ rs.
Proof.
  revert kept. induction rs as [|r0 rs IH]; intros kept; simpl.
  - intros [= <-]. done.
  - destruct (pd.mask_lookup mask (pd.label r0)) as [b|]; [|discriminate].
    destruct (pd.align_rows mask rs) as [k|e]; simpl; [|discriminate].
    intros [= <-]. specialize (IH k eq_refl). destruct b; intros r H.
    + apply elem_of_cons in H as [->|H]; [by left|]. right. by apply IH.
    + right. by apply IH.
Qed.

(** A boolean selection keeps the columns and some of the rows. *)
Lemma getitem_mask_frame (d u : pd.DataFrame) (mask : pd.Series bool) :
  pd.getitem_mask d mask = Return u →
  pd.columns u = pd.columns d ∧ pd.rows u ⊆ pd.rows d.
Proof.
  unfold pd.getitem_mask. destruct (pd.index_equal mask (pd.rows d)).
  - intros [= <-]. simpl. split; [done|]. apply take_rows_sub.
  - destruct (pd.align_rows mask (pd.rows d)) as [k|e] eqn:E; simpl;
      [|discriminate].
    intros [= <-]. simpl. split; [done|]. by eapply align_rows_sub.
Qed.

Lemma dropna_frame (d : pd.DataFrame) :
  pd.columns (pd.dropna d) = pd.columns d ∧ pd.rows (pd.dropna d) ⊆ pd.rows d.
Proof.
  unfold pd.dropna. simpl. split; [done|].
  intros r H. by apply list_elem_of_filter in H as [_ H].
Qed.

(** [df[df[name] >= v]] keeps exactly rows whose value under [name] is
    present and at least [v]. *)
Lemma getitem_ge_rows (d u : pd.DataFrame) (name : string) (v : Z)
      (dates : pd.Series pd.cell) (r : pd.Row) :
  pd.getitem_col d name = Return dates →
  pd.getitem_mask d (pd.ge dates v) = Return u →
  r ∈ pd.rows u →
  pd.columns u = pd.columns d ∧
  ∃ t, pd.value_at d name r = Some t ∧ (v <= t)%Z.
Proof.
  unfold pd.getitem_col, pd.value_at.
  destruct (pd.positions name (pd.columns d)) as [|p ps]; [discriminate|].
  intros [= <-]. unfold pd.getitem_mask, pd.ge, pd.index_equal.
  rewrite !map_map. simpl. rewrite bool_decide_eq_true_2 by done.
  intros [= <-]. simpl. intros Hr.
  apply (take_rows_map
           (λ r0, match pd.cell_at r0 p with
                  | Some t => (v <=? t)%Z
                  | None => false
                  end)) in Hr as [_ Hr].
  split; [done|]. destruct (pd.cell_at r p) as [t|]; [|discriminate].
  exists t. split; [done|]. by apply Z.leb_le.
Qed.
(** ** Reasoning about statements *)

Lemma bind_Return {A B} (m : M A) (k : A → M B) (s s' : plt.state) (b : B) :
  bind m k s = (Return b, s') →
  ∃ a s1, m s = (Return a, s1) ∧ k a s1 = (Return b, s').
Proof.
  unfold bind. destruct (m s) as [[a|e] s1]; [eauto | discriminate].
Qed.

Lemma bind_Raise_l {A B} (m : M A) (k : A → M B) (s s' : plt.state) (e : exn) :
  m s = (Raise e, s') → bind m k s = (Raise e, s').
Proof. unfold bind. by intros ->. Qed.

Lemma bind_step {A B} (m : M A) (k : A → M B) (s s1 : plt.state) (a : A) :
  m s = (Return a, s1) → bind m k s = k a s1.
Proof. unfold bind. by intros ->. Qed.

Lemma bind_ext {A B} (m m' : M A) (k k' : A → M B) (s : plt.state) :
  m s = m' s → (∀ a s1, k a s1 = k' a s1) → bind m k s = bind m' k' s.
Proof.
  intros Hm Hk. unfold bind. rewrite Hm.
  destruct (m' s) as [[a|e] s1]; [apply Hk | done].
Qed.

Ltac inv_bind H :=
  let a := fresh "x" in
  let s := fresh "s" in
  let H1 := fresh "Hm" in
  apply bind_Return in H as (a & s & H1 & H).

Tactic Notation "unbind" hyp(H) "as" ident(a) ident(s) ident(H1) :=
  apply bind_Return in H as (a & s & H1 & H).

Lemma when_state (flag : bool) (msg : string) (s : plt.state) :
  ∃ cs, when flag (pyplot.log_info msg) s
        = (Return tt, plt.mkState (plt.fig_num s) (plt.figsize s) (plt.axes s)
                                  (plt.current s) cs).
Proof. destruct flag; simpl; destruct s; eauto. Qed.

Lemma alter_snoc {A} (f : A → A) (l : list A) (x : A) :
  alter f (length l) (l ++ [x]) = l ++ [f x].
Proof.
  replace (length l) with (length l + 0) by lia. by rewrite alter_app_r.
Qed.

Lemma lookup_snoc {A} (l : list A) (x : A) : (l ++ [x]) !! length l = Some x.
Proof. by apply list_lookup_middle. Qed.

Lemma described_lookup auto_ylim a use_df h nodes gs j g :
  described auto_ylim a use_df h nodes gs → gs !! j = Some g →
  ∃ nd, nodes !! j = Some nd ∧ twin_ok auto_ylim a use_df (h + j) nd g.
Proof.
  revert h gs j. induction nodes as [|nd nodes IH]; intros h [|g0 gs] j; simpl;
    try done.
  intros [Hok Hd] Hj. destruct j as [|j]; simpl in Hj.
  - injection Hj as <-. exists nd. split; [done|]. by rewrite Nat.add_0_r.
  - destruct (IH _ _ _ Hd Hj) as (nd' & Hn & Hok'). exists nd'. split; [done|].
    by replace (h + S j) with (S h + j) by lia.
Qed.

Lemma described_length auto_ylim a use_df h nodes gs :
  described auto_ylim a use_df h nodes gs → length gs = length nodes.
Proof.
  revert h gs. induction nodes as [|nd nodes IH]; intros h [|g0 gs]; simpl;
    try done.
  intros [_ Hd]. f_equal. by eapply IH.
Qed.

(** *** Statements that keep the geometry *)

Lemma keeps_geom_ret {A} (a : A) : keeps_geom (ret a).
Proof. by intros s x s' [= _ <-]. Qed.

Lemma keeps_geom_bind {A B} (m : M A) (k : A → M B) :
  keeps_geom m → (∀ a, keeps_geom (k a)) → keeps_geom (bind m k).
Proof.
  intros Hm Hk s b s' H. apply bind_Return in H as (a & s1 & H1 & H2).
  rewrite (Hk _ _ _ _ H2). by eapply Hm.
Qed.

Lemma keeps_geom_raise {A} (e : exn) : keeps_geom (@raise A e).
Proof. by intros s x s' [=]. Qed.

Lemma keeps_geom_record (c : plt.call) : keeps_geom (pyplot.record c).
Proof. by intros s x s' [= _ <-]. Qed.

Lemma keeps_geom_gca : keeps_geom pyplot.gca.
Proof. by intros s x s' [= _ <-]. Qed.

Lemma keeps_geom_get_lines (h : nat) : keeps_geom (pyplot.get_lines h).
Proof. by intros s x s' [= _ <-]. Qed.

Lemma keeps_geom_get_legend_handles_labels (h : nat) :
  keeps_geom (pyplot.get_legend_handles_labels h).
Proof. by intros s x s' [= _ <-]. Qed.

Lemma keeps_geom_on_axes (h : nat) (f : plt.Axes → plt.Axes) :
  (∀ ax, geom (f ax) = geom ax) → keeps_geom (pyplot.on_axes h f).
Proof.
  intros Hf s x s' [= _ <-]. simpl. generalize (plt.axes s). clear s.
  intros l. revert h. induction l as [|ax l IH]; intros [|h]; simpl;
    [done | done | by rewrite Hf | f_equal; apply IH].
Qed.

Lemma keeps_geom_ax_record (h : nat) (c : plt.ax_call) :
  keeps_geom (pyplot.ax_record h c).
Proof. by apply keeps_geom_on_axes. Qed.

Lemma keeps_geom_legend (h : nat) handles labels loc shadow :
  keeps_geom (pyplot.legend h handles labels loc shadow).
Proof. by apply keeps_geom_on_axes. Qed.

Lemma keeps_geom_for_all_axes (all_axes : list nat) :
  ∀ idx use_ax lines rec,
    keeps_geom (for_all_axes idx all_axes use_ax lines rec).
Proof.
  induction all_axes as [|cur_ax rest IH]; intros idx use_ax lines rec; simpl.
  - apply keeps_geom_ret.
  - apply keeps_geom_bind; [apply keeps_geom_get_lines|].
    intros more. destruct use_ax; [apply IH | apply keeps_geom_raise].
Qed.

Create HintDb geom.
#[local] Hint Resolve keeps_geom_ret keeps_geom_raise keeps_geom_record
  keeps_geom_gca keeps_geom_get_lines keeps_geom_get_legend_handles_labels
  keeps_geom_ax_record keeps_geom_legend keeps_geom_for_all_axes : geom.

Ltac keeps_geom_tac :=
  repeat first
    [ apply keeps_geom_bind; [|intros ?]
    | match goal with
      | |- keeps_geom (if ?b then _ else _) => destruct b
      end
    | solve [auto with geom] ].

Lemma map_lookup_Some {A B} (f : A → B) (l : list A) (i : nat) (x : A) :
  l !! i = Some x → map f l !! i = Some (f x).
Proof.
  revert i. induction l as [|y l IH]; intros [|i]; simpl; try done.
  - by intros [= ->].
  - apply IH.
Qed.

(** *** Counting the displays *)

Lemma adds_shows_eq {A} (n k : nat) (m : M A) :
  adds_shows n m → n = k → adds_shows k m.
Proof. by intros H <-. Qed.

Lemma adds_shows_ret {A} (a : A) : adds_shows 0 (ret a).
Proof. intros s x s' [= _ <-]. lia. Qed.

Lemma adds_shows_raise {A} (e : exn) : adds_shows 0 (@raise A e).
Proof. by intros s x s' [=]. Qed.

Lemma adds_shows_lift {A} (o : outcome A) : adds_shows 0 (lift o).
Proof. intros s x s' [= _ <-]. lia. Qed.

Lemma adds_shows_bind {A B} (n k : nat) (m : M A) (f : A → M B) :
  adds_shows n m → (∀ a, adds_shows k (f a)) → adds_shows (n + k) (bind m f).
Proof.
  intros Hm Hf s b s' H. apply bind_Return in H as (a & s1 & H1 & H2).
  rewrite (Hf _ _ _ _ H2), (Hm _ _ _ H1). lia.
Qed.

Lemma adds_shows_record (c : plt.call) :
  adds_shows (if plt.is_show c then 1 else 0) (pyplot.record c).
Proof.
  intros s x s' [= _ <-]. unfold plt.count_show. simpl.
  destruct (plt.is_show c); simpl; lia.
Qed.

Lemma adds_shows_log (flag : bool) (msg : string) :
  adds_shows 0 (when flag (pyplot.log_info msg)).
Proof. destruct flag; [apply (adds_shows_record (plt.LogInfo msg)) | apply adds_shows_ret]. Qed.

Lemma adds_shows_gca : adds_shows 0 pyplot.gca.
Proof. intros s x s' [= _ <-]. lia. Qed.

Lemma adds_shows_subplots size : adds_shows 0 (pyplot.subplots size).
Proof. intros s x s' [= _ <-]. simpl. lia. Qed.

Lemma adds_shows_twinx ax : adds_shows 0 (pyplot.twinx ax).
Proof. intros s x s' [= _ <-]. simpl. lia. Qed.

Lemma adds_shows_on_axes h f : adds_shows 0 (pyplot.on_axes h f).
Proof. intros s x s' [= _ <-]. simpl. lia. Qed.

Lemma adds_shows_ax_record h c : adds_shows 0 (pyplot.ax_record h c).
Proof. apply adds_shows_on_axes. Qed.

Lemma adds_shows_set_ylim h lim : adds_shows 0 (pyplot.set_ylim h lim).
Proof. apply adds_shows_on_axes. Qed.

Lemma adds_shows_legend h hs ls loc sh : adds_shows 0 (pyplot.legend h hs ls loc sh).
Proof. apply adds_shows_on_axes. Qed.

Lemma adds_shows_get_ylim h : adds_shows 0 (pyplot.get_ylim h).
Proof. intros s x s' [= _ <-]. lia. Qed.

Lemma adds_shows_get_lines h : adds_shows 0 (pyplot.get_lines h).
Proof. intros s x s' [= _ <-]. lia. Qed.

Lemma adds_shows_get_legend_handles_labels h :
  adds_shows 0 (pyplot.get_legend_handles_labels h).
Proof. intros s x s' [= _ <-]. lia. Qed.

Create HintDb shows.
#[local] Hint Resolve adds_shows_ret adds_shows_raise adds_shows_lift
  adds_shows_record adds_shows_log adds_shows_gca adds_shows_subplots
  adds_shows_twinx adds_shows_on_axes adds_shows_ax_record adds_shows_set_ylim
  adds_shows_legend adds_shows_get_ylim adds_shows_get_lines
  adds_shows_get_legend_handles_labels : shows.

Ltac adds_shows_tac :=
  repeat first
    [ eapply adds_shows_bind; [|intros ?]
    | match goal with
      | |- adds_shows _ (if ?b then _ else _) => destruct b
      | |- adds_shows _ (match ?o with _ => _ end) => destruct o
      end
    | solve [eauto with shows] ].

Ltac zero_shows :=
  eapply adds_shows_eq; [adds_shows_tac | reflexivity].

(** *** The unused duplicate-free legend lists *)

Lemma dedup_labels_NoDup (pairs : list (plt.Artist * string)) :
  ∀ newLabels newHandles,
    NoDup newLabels → NoDup (fst (dedup_labels pairs newLabels newHandles)).
Proof.
  induction pairs as [|[handle lbl] rest IH]; intros newLabels newHandles Hnd;
    simpl; [done|].
  case_bool_decide as Hin; apply IH; [done|].
  apply NoDup_app. split; [done|]. split; [|apply NoDup_singleton].
  intros x Hx ->%list_elem_of_singleton. done.
Qed.

Section Properties.

Variable strptime : string → string → option Z.
Variable COMMON_TICK_DATE_FORMAT : string.
Variable PLOT_COLORS : string → string.
Variable now_strftime : string → string.
Variable auto_ylim : list plt.Artist → float * float.

Local Abbreviation run :=
  (plot_trading_history strptime COMMON_TICK_DATE_FORMAT PLOT_COLORS
                        now_strftime auto_ylim).

(** *** SeriesSelector *)

Ltac case_slot slot :=
  let n := fresh "name" in
  destruct slot as [n|]; [destruct (String.eqb_spec n "")|].

Ltac slot_cases a :=
  case_slot (red a); case_slot (blue a); case_slot (green a);
  case_slot (orange a); subst; simpl;
  repeat match goal with
         | H : ?n ≠ ""%string |- context [String.eqb ?n ""] =>
             rewrite (proj2 (String.eqb_neq n "") H)
         end.

Lemma column_list_eq (a : args) :
  column_list PLOT_COLORS a = date_col a :: selected_slots a.
Proof.
  unfold column_list, select_series, selected_slots, add_plot, truthy.
  slot_cases a; reflexivity.
Qed.

Lemma all_plots_columns (a : args) :
  map column (all_plots PLOT_COLORS a) = selected_slots a.
Proof.
  unfold all_plots, select_series, selected_slots, add_plot, truthy.
  slot_cases a; reflexivity.
Qed.

Lemma NoDup_occurs_once (l : list string) (c : string) :
  NoDup l → c ∈ l → length (filter (λ x, x = c) l) = 1.
Proof.
  induction l as [|x l IH]; intros Hnd Hin; [inversion Hin|].
  apply NoDup_cons in Hnd as [Hx Hnd]. rewrite filter_cons.
  destruct (decide (x = c)) as [->|Hne].
  - assert (filter (λ x, x = c) l = []) as ->; [|done].
    destruct (filter (λ x, x = c) l) as [|y k] eqn:E; [done|].
    assert (y ∈ filter (λ x, x = c) l) as Hy by (rewrite E; left).
    by apply list_elem_of_filter in Hy as [-> Hy].
  - apply IH; [done|]. apply elem_of_cons in Hin as [->|Hin]; done.
Qed.

(** C5 (amended): for every choice of the slots the column list is the
    date column followed by the selected names, so it begins with the
    date column and holds every selected name; when the date column and
    the selected names are pairwise distinct, the list has no duplicate
    and holds every selected name exactly once. *)
Theorem column_list_distinct (a : args) :
  column_list PLOT_COLORS a = date_col a :: selected_slots a ∧
  head (column_list PLOT_COLORS a) = Some (date_col a) ∧
  (∀ c, c ∈ selected_slots a → c ∈ column_list PLOT_COLORS a) ∧
  (NoDup (date_col a :: selected_slots a) →
   NoDup (column_list PLOT_COLORS a) ∧
   ∀ c, c ∈ selected_slots a →
        length (filter (λ x, x = c) (column_list PLOT_COLORS a)) = 1).
Proof.
  rewrite column_list_eq. split; [done|]. split; [done|].
  split; [intros c Hc; by right|].
  intros Hnd. split; [done|].
  intros c Hc. apply NoDup_occurs_once; [done | by right].
Qed.

(** *** DateRangeFilter *)

Lemma scrub_Return (a : args) (cl : list string) (s s' : plt.state)
      (use_df : pd.DataFrame) :
  scrub strptime COMMON_TICK_DATE_FORMAT a cl s = (Return use_df, s') →
  ∃ u1 u2,
    filter_by_start_date strptime COMMON_TICK_DATE_FORMAT a cl = Return u1 ∧
    filter_by_df_filter a cl u1 = Return u2 ∧
    use_df = (if dropna_for_all a then pd.dropna u2 else u2).
Proof.
  unfold scrub. intros H.
  apply bind_Return in H as (u1 & s1 & H1 & H).
  apply bind_Return in H as ([] & s2 & _ & H).
  apply bind_Return in H as (u2 & s3 & H2 & H).
  apply bind_Return in H as ([] & s4 & _ & H).
  exists u1, u2. unfold lift in H1, H2.
  injection H1 as H1 _. injection H2 as H2 _. repeat split; [done..|].
  destruct (dropna_for_all a).
  - apply bind_Return in H as ([] & s5 & _ & H). by injection H as <- _.
  - by injection H as <- _.
Qed.

Lemma dated_from_sub (name : string) (v : Z) (d u : pd.DataFrame) :
  pd.columns u = pd.columns d → pd.rows u ⊆ pd.rows d →
  dated_from name v d → dated_from name v u.
Proof.
  intros Hc Hr Hd r Hin. destruct (Hd r (Hr r Hin)) as (t & Ht & Hle).
  exists t. split; [|done]. unfold pd.value_at in *. by rewrite Hc.
Qed.

Lemma dated_from_getitem_cols (name : string) (v : Z) (d u : pd.DataFrame)
      (ks : list string) :
  pd.getitem_cols d (name :: ks) = Return u →
  dated_from name v d → dated_from name v u.
Proof.
  intros Hsel Hd r' Hr'.
  destruct (getitem_cols_value_at _ _ _ _ _ Hsel Hr') as (r & Hr & ->).
  by apply Hd.
Qed.

(** C6: with a well-formed start date [text], parsed to [v], every row of
    the frame left by the scrubbing steps has a date at or after [v],
    whatever [df_filter] and [dropna_for_all] are. *)
Theorem scrub_dates_from_start (a : args) (text : string) (v : Z)
        (s s' : plt.state) (use_df : pd.DataFrame) :
  start_date a = Some text → text ≠ ""%string →
  strptime text COMMON_TICK_DATE_FORMAT = Some v →
  scrub strptime COMMON_TICK_DATE_FORMAT a (column_list PLOT_COLORS a) s
  = (Return use_df, s') →
  ∀ r, r ∈ pd.rows use_df →
       ∃ t, pd.value_at use_df (date_col a) r = Some t ∧ (v <= t)%Z.
Proof.
  intros Hstart Hne Hparse Hrun.
  apply scrub_Return in Hrun as (u1 & u2 & H1 & H2 & ->).
  rewrite column_list_eq in H1, H2.
  assert (dated_from (date_col a) v u1) as D1.
  { unfold filter_by_start_date, parse_start_date in H1.
    rewrite Hstart, (proj2 (String.eqb_neq text "") Hne), Hparse in H1.
    simpl in H1.
    destruct (pd.getitem_col (df a) (date_col a)) as [dates|e] eqn:Ecol;
      simpl in H1; [|discriminate].
    destruct (pd.getitem_mask (df a) (pd.ge dates v)) as [kept|e] eqn:Emask;
      simpl in H1; [|discriminate].
    eapply dated_from_getitem_cols; [exact H1|].
    intros r Hr.
    destruct (getitem_ge_rows _ _ _ _ _ _ Ecol Emask Hr) as (Hc & t & Ht & Hle).
    exists t. split; [|done]. unfold pd.value_at in *. by rewrite Hc. }
  assert (dated_from (date_col a) v u2) as D2.
  { unfold filter_by_df_filter in H2.
    destruct (hasattr_to_json (df_filter a)); [|by injection H2 as <-].
    destruct (df_filter a) as [|mask| |]; try by injection H2 as <-.
    destruct (pd.getitem_mask u1 mask) as [kept|e] eqn:Emask; simpl in H2;
      [|discriminate].
    eapply dated_from_getitem_cols; [exact H2|].
    apply getitem_mask_frame in Emask as [Hc Hr].
    by eapply dated_from_sub. }
  destruct (dropna_for_all a); [|exact D2].
  destruct (dropna_frame u2) as [Hc Hr]. by eapply dated_from_sub.
Qed.

(** [scrub] is [scrub_result] plus log lines. *)
Lemma scrub_run (a : args) (cl : list string) (s : plt.state) :
  ∃ cs, scrub strptime COMMON_TICK_DATE_FORMAT a cl s
        = (scrub_result strptime COMMON_TICK_DATE_FORMAT a cl,
           plt.mkState (plt.fig_num s) (plt.figsize s) (plt.axes s)
                       (plt.current s) cs).
Proof.
  unfold scrub, scrub_result, bind, lift.
  destruct (filter_by_start_date strptime COMMON_TICK_DATE_FORMAT a cl)
    as [u1|e]; simpl; [|destruct s; eauto].
  destruct (when_state (verbose a)
              "plot_history_df start_date={} df.index={} column_list={}" s)
    as [cs1 ->].
  destruct (filter_by_df_filter a cl u1) as [u2|e]; simpl; [|eauto].
  match goal with
  | |- context [when (verbose a) (pyplot.log_info ?m) ?st] =>
      destruct (when_state (verbose a) m st) as [cs2 ->]
  end.
  simpl. destruct (dropna_for_all a); [|eauto].
  match goal with
  | |- context [when (verbose a) (pyplot.log_info ?m) ?st] =>
      destruct (when_state (verbose a) m st) as [cs3 ->]
  end.
  simpl. eauto.
Qed.

(** The scrubbing steps only log: the figure state is left alone. *)
Lemma scrub_state (a : args) (cl : list string) (s s' : plt.state)
      (o : outcome pd.DataFrame) :
  scrub strptime COMMON_TICK_DATE_FORMAT a cl s = (o, s') →
  plt.fig_num s' = plt.fig_num s ∧ plt.figsize s' = plt.figsize s ∧
  plt.axes s' = plt.axes s ∧ plt.current s' = plt.current s.
Proof.
  unfold scrub, bind, lift.
  destruct (filter_by_start_date strptime COMMON_TICK_DATE_FORMAT a cl)
    as [u1|e]; [|by intros [= <- <-]].
  destruct (when_state (verbose a)
              "plot_history_df start_date={} df.index={} column_list={}" s)
    as [cs1 ->].
  destruct (filter_by_df_filter a cl u1) as [u2|e]; [|by intros [= <- <-]].
  match goal with
  | |- context [when (verbose a) (pyplot.log_info ?m) ?st] =>
      destruct (when_state (verbose a) m st) as [cs2 ->]
  end.
  simpl. destruct (dropna_for_all a).
  - match goal with
    | |- context [when (verbose a) (pyplot.log_info ?m) ?st] =>
        destruct (when_state (verbose a) m st) as [cs3 ->]
    end.
    simpl. by intros [= <- <-].
  - by intros [= <- <-].
Qed.

Lemma when_scale_state (flag : bool) (h : nat) (s : plt.state) :
  when flag (lim <- pyplot.get_ylim h ;;
             pyplot.set_ylim h (0%float, (snd lim * 3)%float)) s
  = (Return tt,
     if flag
     then plt.mkState (plt.fig_num s) (plt.figsize s)
            (alter (λ ax, plt.mkAxes (plt.ax_artists ax)
                            (0%float,
                             (snd (plt.ax_ylim (pyplot.read_axes h s)) * 3)%float)
                            false (plt.ax_legend ax) (plt.ax_calls ax))
                   h (plt.axes s))
            (plt.current s) (plt.calls s)
     else s).
Proof. destruct flag; reflexivity. Qed.

(** A secondary series: a twin axes is appended to the figure, it holds
    the artists of that series, and its y-limits are the autoscaled ones,
    or [0, 3 * upper] under [scale_y]. *)
Lemma plot_node_twin (a : args) (use_df : pd.DataFrame) (ax idx : nat)
      (nd : node) (s s' : plt.state) (h : nat) :
  0 < idx →
  plot_node auto_ylim a use_df ax idx nd s = (Return h, s') →
  h = length (plt.axes s) ∧
  ∃ drawn twin,
    drawn_for a use_df h nd = Some drawn ∧
    plt.axes s' = plt.axes s ++ [twin] ∧
    plt.ax_artists twin = drawn ∧
    plt.ax_ylim twin
    = (if scale_y a then (0%float, (snd (auto_ylim drawn) * 3)%float)
       else auto_ylim drawn).
Proof.
  intros Hidx. unfold plot_node. rewrite !bool_decide_eq_true_2 by done.
  intros H.
  unbind H as h0 s1 Htwin. injection Htwin as <- <-.
  unbind H as u s2 Hlog.
  match type of Hlog with
  | when _ (pyplot.log_info ?m) ?st = _ =>
      destruct (when_state (verbose a) m st) as [cs E]
  end.
  rewrite E in Hlog. injection Hlog as _ <-. clear E. simpl in H.
  unbind H as frame s3 Hframe. injection Hframe as Hframe <-.
  unbind H as u2 s4 Hplot.
  assert (df_plot auto_ylim frame (date_col a) (plot_kind_of a)
                  (length (plt.axes s)) (color nd)
                  (plt.mkState (plt.fig_num s) (plt.figsize s)
                     (plt.axes s ++ [plt.new_axes]) (length (plt.axes s)) cs)
          = (Return u2, s4)) as Hplot'.
  { unfold plot_kind_of. by destruct (String.eqb (linestyle a) "-"). }
  clear Hplot. unfold df_plot in Hplot'.
  destruct (pd.positions (date_col a) (pd.columns frame)) as [|px pxs] eqn:Epos;
    [discriminate|].
  injection Hplot' as _ <-. simpl in H. rewrite alter_snoc in H.
  unbind H as u3 s5 Hrest. injection H as <- <-.
  unbind Hrest as u4 s6 Hscale. rewrite when_scale_state in Hscale.
  injection Hscale as _ <-.
  unfold pyplot.ax_record, pyplot.on_axes in Hrest.
  unbind Hrest as u5 s7 Hr1. injection Hr1 as _ <-.
  unbind Hrest as u6 s8 Hr2. injection Hr2 as _ <-.
  unbind Hrest as u7 s9 Hr3. injection Hr3 as _ <-.
  injection Hrest as _ <-.
  split; [done|].
  unfold drawn_for. rewrite Hframe, Epos.
  unfold pyplot.read_axes. simpl.
  destruct (scale_y a); simpl;
    rewrite ?lookup_snoc, ?alter_snoc; simpl; rewrite ?alter_snoc;
    eexists _, _; (split; [reflexivity|]); (split; [reflexivity|]);
    simpl; split; reflexivity.
Qed.

(** The first series: drawn on the only axes of the fresh figure, which
    autoscales to it. *)
Lemma plot_node_primary (a : args) (use_df : pd.DataFrame) (nd : node)
      (s s' : plt.state) (h : nat) :
  plt.axes s = [plt.new_axes] → plt.current s = 0 →
  plot_node auto_ylim a use_df 0 0 nd s = (Return h, s') →
  h = 0 ∧ ∃ prim, plt.axes s' = [prim] ∧ prim_ok auto_ylim a use_df nd (geom prim).
Proof.
  destruct s as [n sz axs cur cs]. simpl. intros -> ->.
  unfold plot_node. rewrite !bool_decide_eq_false_2 by lia. intros H.
  unbind H as h0 s1 Hret. injection Hret as <- <-.
  unbind H as u s2 Hlog.
  match type of Hlog with
  | when _ (pyplot.log_info ?m) ?st = _ =>
      destruct (when_state (verbose a) m st) as [cs' E]
  end.
  rewrite E in Hlog. injection Hlog as _ <-. clear E. simpl in H.
  unbind H as frame s3 Hframe. injection Hframe as Hframe <-.
  unbind H as u2 s4 Hplot.
  assert (df_plot auto_ylim frame (date_col a) (plot_kind_of a) 0 (color nd)
                  (plt.mkState n sz [plt.new_axes] 0 cs')
          = (Return u2, s4)) as Hplot'.
  { unfold plot_kind_of. by destruct (String.eqb (linestyle a) "-"). }
  clear Hplot. unfold df_plot in Hplot'.
  destruct (pd.positions (date_col a) (pd.columns frame)) as [|px pxs] eqn:Epos;
    [discriminate|].
  injection Hplot' as _ <-. simpl in H.
  unbind H as u3 s5 Hrest. injection H as <- <-.
  unbind Hrest as u4 s6 Hr1. injection Hr1 as _ <-.
  unbind Hrest as u5 s7 Hr2. injection Hr2 as _ <-.
  unbind Hrest as u6 s8 Hr3. injection Hr3 as _ <-.
  unbind Hrest as cur s9 Hgca. injection Hgca as <- <-.
  injection Hrest as _ <-. simpl.
  split; [done|]. eexists. split; [reflexivity|].
  unfold prim_ok, drawn_for. rewrite Hframe, Epos. simpl. done.
Qed.

Lemma for_all_plots_twins (a : args) (use_df : pd.DataFrame) (ax : nat)
      (nodes : list node) :
  ∀ idx all_axes use_ax s res s',
    0 < idx →
    for_all_plots auto_ylim a use_df ax idx nodes all_axes use_ax s
    = (Return res, s') →
    ∃ twins, plt.axes s' = plt.axes s ++ twins ∧
             described auto_ylim a use_df (length (plt.axes s)) nodes
                       (map geom twins).
Proof.
  induction nodes as [|nd rest IH]; intros idx all_axes use_ax s res s' Hidx;
    simpl.
  - intros [= _ <-]. exists []. by rewrite app_nil_r.
  - intros H. unbind H as h s1 Hnode.
    apply plot_node_twin in Hnode as (-> & drawn & twin & Hd & Hax & Ha & Hy);
      [|done].
    apply IH in H as (twins & Hax' & Hdesc); [|lia].
    exists (twin :: twins). split.
    + rewrite Hax', Hax, <- app_assoc. done.
    + simpl. split.
      * unfold twin_ok. simpl. rewrite Ha. split; [done|]. by rewrite Hy, <- Ha.
      * rewrite Hax, length_app in Hdesc. simpl in Hdesc.
        by replace (length (plt.axes s) + 1) with (S (length (plt.axes s)))
          in Hdesc by lia.
Qed.

(** The loop over all series, started on the fresh figure. *)
Lemma for_all_plots_composed (a : args) (use_df : pd.DataFrame)
      (nodes : list node) (s s' : plt.state) res :
  plt.axes s = [plt.new_axes] → plt.current s = 0 →
  for_all_plots auto_ylim a use_df 0 0 nodes [] None s = (Return res, s') →
  composed auto_ylim a use_df nodes (map geom (plt.axes s')).
Proof.
  intros Hax Hcur. destruct nodes as [|nd rest]; simpl.
  - intros [= _ <-]. by rewrite Hax.
  - intros H. unbind H as h s1 Hnode.
    apply plot_node_primary in Hnode as (-> & prim & Hax1 & Hprim); [|done..].
    apply for_all_plots_twins in H as (twins & Hax' & Hdesc); [|lia].
    rewrite Hax1 in Hax', Hdesc. simpl in Hax', Hdesc.
    exists (geom prim), (map geom twins). rewrite Hax'. done.
Qed.

Lemma scrub_result_Return (a : args) (cl : list string) (s s' : plt.state)
      (use_df : pd.DataFrame) :
  scrub strptime COMMON_TICK_DATE_FORMAT a cl s = (Return use_df, s') →
  scrub_result strptime COMMON_TICK_DATE_FORMAT a cl = Return use_df.
Proof.
  intros H. apply scrub_Return in H as (u1 & u2 & H1 & H2 & ->).
  unfold scrub_result. rewrite H1. simpl. rewrite H2. done.
Qed.

(** The geometry of the figure a returning call leaves behind. *)
Lemma run_geometry (a : args) (s s' : plt.state) (res : result) :
  run a s = (Return res, s') →
  ∃ use_df,
    scrub_result strptime COMMON_TICK_DATE_FORMAT a (column_list PLOT_COLORS a)
    = Return use_df ∧
    composed auto_ylim a use_df (all_plots PLOT_COLORS a)
             (map geom (plt.axes s')).
Proof.
  unfold plot_trading_history. intros H.
  unbind H as u0 s0 Hlog.
  unbind H as use_df s1 Hscrub. apply scrub_result_Return in Hscrub.
  unbind H as u1 s2 Hfonts.
  unbind H as fig_ax s3 Hsub. injection Hsub as <- <-. simpl in H.
  unbind H as looped s4 Hloop.
  apply for_all_plots_composed in Hloop; [|done..].
  exists use_df. split; [done|].
  assert (map geom (plt.axes s') = map geom (plt.axes s4)) as ->; [|done].
  match type of H with
  | ?m s4 = _ => assert (keeps_geom m) as K; [|exact (K _ _ _ H)]
  end.
  keeps_geom_tac.
Qed.

Lemma composed_twin (a : args) (use_df : pd.DataFrame) (nodes : list node)
      (axs : list plt.Axes) (i : nat) (ax : plt.Axes) :
  composed auto_ylim a use_df nodes (map geom axs) →
  0 < i → axs !! i = Some ax →
  ∃ nd, nodes !! i = Some nd ∧ twin_ok auto_ylim a use_df i nd (geom ax).
Proof.
  intros Hc Hi Hax. apply (map_lookup_Some geom) in Hax.
  destruct i as [|j]; [lia|]. destruct nodes as [|nd rest]; simpl in Hc.
  - rewrite Hc in Hax. by destruct j.
  - destruct Hc as (g & gs & E & _ & Hd). rewrite E in Hax. simpl in Hax.
    destruct (described_lookup _ _ _ _ _ _ _ _ Hd Hax) as (nd' & Hn & Hok).
    exists nd'. split; [done|]. by replace (S j) with (1 + j) by lia.
Qed.

Lemma composed_primary (a : args) (use_df : pd.DataFrame) (nodes : list node)
      (axs : list plt.Axes) (ax : plt.Axes) :
  composed auto_ylim a use_df nodes (map geom axs) →
  axs !! 0 = Some ax →
  match nodes with
  | [] => geom ax = geom plt.new_axes
  | nd :: _ => prim_ok auto_ylim a use_df nd (geom ax)
  end.
Proof.
  intros Hc Hax. apply (map_lookup_Some geom) in Hax.
  destruct nodes as [|nd rest]; simpl in Hc.
  - rewrite Hc in Hax. simpl in Hax. congruence.
  - destruct Hc as (g & gs & E & Hp & _). rewrite E in Hax. simpl in Hax.
    congruence.
Qed.

Lemma composed_length (a : args) (use_df : pd.DataFrame) (nodes : list node)
      (axs : list plt.Axes) :
  composed auto_ylim a use_df nodes (map geom axs) →
  length axs = Nat.max 1 (length nodes).
Proof.
  intros Hc. rewrite <- (length_map geom axs).
  destruct nodes as [|nd rest]; simpl in Hc.
  - by rewrite Hc.
  - destruct Hc as (g & gs & -> & _ & Hd). simpl.
    by rewrite (described_length _ _ _ _ _ _ Hd).
Qed.

(** C10: under [scale_y], every secondary axes ends with the y-limits
    [0, 3 * upper], where [upper] is the upper limit autoscaling gives to
    the artists drawn on it; the lower limit is 0 whatever the autoscaled
    lower limit was. *)
Theorem scale_y_sets_zero_to_triple (a : args) (s s' : plt.state)
        (res : result) (i : nat) (ax : plt.Axes) :
  scale_y a = true →
  run a s = (Return res, s') →
  0 < i → plt.axes s' !! i = Some ax →
  plt.ax_ylim ax
  = (0%float, (snd (auto_ylim (plt.ax_artists ax)) * 3)%float).
Proof.
  intros Hscale Hrun Hi Hax.
  apply run_geometry in Hrun as (use_df & _ & Hc).
  destruct (composed_twin _ _ _ _ _ _ Hc Hi Hax) as (nd & _ & _ & Hy).
  simpl in Hy. by rewrite Hscale in Hy.
Qed.

(** C7: for the same call and the same pyplot state, the run with
    [scale_y] set and the run with it unset build the same axes; on each
    secondary axes the upper y-limit of the first is three times that of
    the second, and the limits of the primary axes are equal. *)
Theorem scale_y_triples_upper_limit (a : args) (s s1 s0 : plt.state)
        (r1 r0 : result) :
  run (set_scale_y true a) s = (Return r1, s1) →
  run (set_scale_y false a) s = (Return r0, s0) →
  length (plt.axes s1) = length (plt.axes s0) ∧
  (∀ i ax1 ax0,
      0 < i → plt.axes s1 !! i = Some ax1 → plt.axes s0 !! i = Some ax0 →
      plt.ax_artists ax1 = plt.ax_artists ax0 ∧
      snd (plt.ax_ylim ax1) = (snd (plt.ax_ylim ax0) * 3)%float) ∧
  (∀ ax1 ax0,
      plt.axes s1 !! 0 = Some ax1 → plt.axes s0 !! 0 = Some ax0 →
      plt.ax_ylim ax1 = plt.ax_ylim ax0).
Proof.
  intros H1 H0.
  apply run_geometry in H1 as (u1 & Hu1 & C1).
  apply run_geometry in H0 as (u0 & Hu0 & C0).
  change (scrub_result strptime COMMON_TICK_DATE_FORMAT (set_scale_y true a)
            (column_list PLOT_COLORS (set_scale_y true a)))
    with (scrub_result strptime COMMON_TICK_DATE_FORMAT a
            (column_list PLOT_COLORS a)) in Hu1.
  change (scrub_result strptime COMMON_TICK_DATE_FORMAT (set_scale_y false a)
            (column_list PLOT_COLORS (set_scale_y false a)))
    with (scrub_result strptime COMMON_TICK_DATE_FORMAT a
            (column_list PLOT_COLORS a)) in Hu0.
  rewrite Hu1 in Hu0. injection Hu0 as <-.
  change (all_plots PLOT_COLORS (set_scale_y true a))
    with (all_plots PLOT_COLORS a) in C1.
  change (all_plots PLOT_COLORS (set_scale_y false a))
    with (all_plots PLOT_COLORS a) in C0.
  split; [|split].
  - by rewrite (composed_length _ _ _ _ C1), (composed_length _ _ _ _ C0).
  - intros i ax1 ax0 Hi Hax1 Hax0.
    destruct (composed_twin _ _ _ _ _ _ C1 Hi Hax1) as (nd & Hn & Hd1 & Hy1).
    destruct (composed_twin _ _ _ _ _ _ C0 Hi Hax0) as (nd' & Hn' & Hd0 & Hy0).
    rewrite Hn in Hn'. injection Hn' as <-.
    change (drawn_for (set_scale_y true a) u1 i nd)
      with (drawn_for a u1 i nd) in Hd1.
    change (drawn_for (set_scale_y false a) u1 i nd)
      with (drawn_for a u1 i nd) in Hd0.
    rewrite Hd1 in Hd0. injection Hd0 as E. simpl in *.
    split; [done|]. by rewrite Hy1, Hy0, E.
  - intros ax1 ax0 Hax1 Hax0.
    pose proof (composed_primary _ _ _ _ _ C1 Hax1) as P1.
    pose proof (composed_primary _ _ _ _ _ C0 Hax0) as P0.
    destruct (all_plots PLOT_COLORS a) as [|nd rest].
    + unfold geom in P1, P0. congruence.
    + destruct P1 as [Hd1 Hy1], P0 as [Hd0 Hy0].
      change (drawn_for (set_scale_y true a) u1 0 nd)
        with (drawn_for a u1 0 nd) in Hd1.
      change (drawn_for (set_scale_y false a) u1 0 nd)
        with (drawn_for a u1 0 nd) in Hd0.
      rewrite Hd1 in Hd0. injection Hd0 as E. simpl in *.
      by rewrite Hy1, Hy0, E.
Qed.

Lemma filter_by_start_date_columns (a : args) (cl : list string)
      (u : pd.DataFrame) :
  filter_by_start_date strptime COMMON_TICK_DATE_FORMAT a cl = Return u →
  pd.columns u ⊆ pd.columns (df a).
Proof.
  unfold filter_by_start_date.
  destruct (start_date a) as [text|]; [|by intros [= <-]].
  destruct (String.eqb text ""); [by intros [= <-]|].
  destruct (parse_start_date strptime COMMON_TICK_DATE_FORMAT text) as [v|e];
    simpl; [|discriminate].
  destruct (pd.getitem_col (df a) (date_col a)) as [dates|e]; simpl;
    [|discriminate].
  destruct (pd.getitem_mask (df a) (pd.ge dates v)) as [kept|e] eqn:Emask;
    simpl; [|discriminate].
  intros Hsel. apply getitem_cols_columns in Hsel.
  apply getitem_mask_frame in Emask as [Hc _]. by rewrite <- Hc.
Qed.

Lemma filter_by_df_filter_columns (a : args) (cl : list string)
      (u1 u2 : pd.DataFrame) :
  filter_by_df_filter a cl u1 = Return u2 → pd.columns u2 ⊆ pd.columns u1.
Proof.
  unfold filter_by_df_filter.
  destruct (hasattr_to_json (df_filter a)); [|by intros [= <-]].
  destruct (df_filter a) as [|mask| |]; try by intros [= <-].
  destruct (pd.getitem_mask u1 mask) as [kept|e] eqn:Emask; simpl;
    [|discriminate].
  intros Hsel. apply getitem_cols_columns in Hsel.
  apply getitem_mask_frame in Emask as [Hc _]. by rewrite <- Hc.
Qed.

Lemma scrub_result_columns (a : args) (cl : list string) (u : pd.DataFrame) :
  scrub_result strptime COMMON_TICK_DATE_FORMAT a cl = Return u →
  pd.columns u ⊆ pd.columns (df a).
Proof.
  unfold scrub_result.
  destruct (filter_by_start_date strptime COMMON_TICK_DATE_FORMAT a cl)
    as [u1|e] eqn:E1; simpl; [|discriminate].
  destruct (filter_by_df_filter a cl u1) as [u2|e] eqn:E2; simpl;
    [|discriminate].
  intros [= <-].
  apply filter_by_start_date_columns in E1.
  apply filter_by_df_filter_columns in E2.
  destruct (dropna_for_all a); simpl; set_solver.
Qed.

Lemma plot_node_Return_frame (a : args) (use_df : pd.DataFrame) (ax idx : nat)
      (nd : node) (s s' : plt.state) (h : nat) :
  plot_node auto_ylim a use_df ax idx nd s = (Return h, s') →
  ∃ frame, pd.getitem_cols use_df [date_col a; column nd] = Return frame.
Proof.
  unfold plot_node. intros H.
  unbind H as h0 s1 Hax. unbind H as u s2 Hlog.
  unbind H as frame s3 Hframe. injection Hframe as Hframe _. eauto.
Qed.

(** The loop raises as soon as one of its series cannot be looked up. *)
Lemma for_all_plots_raises (a : args) (use_df : pd.DataFrame) (ax : nat)
      (nodes : list node) (bad : node) :
  bad ∈ nodes →
  (∀ frame, pd.getitem_cols use_df [date_col a; column bad] ≠ Return frame) →
  ∀ idx all_axes use_ax s,
    ∃ e s', for_all_plots auto_ylim a use_df ax idx nodes all_axes use_ax s
            = (Raise e, s').
Proof.
  intros Hin Hbad. induction nodes as [|nd rest IH]; [inversion Hin|].
  intros idx all_axes use_ax s. simpl.
  destruct (plot_node auto_ylim a use_df ax idx nd s) as [[h|e] s1] eqn:Hnode.
  - rewrite (bind_step _ _ _ _ _ Hnode).
    apply elem_of_cons in Hin as [->|Hin].
    + apply plot_node_Return_frame in Hnode as [frame Hframe].
      by destruct (Hbad frame).
    + by apply IH.
  - exists e, s1. by apply bind_Raise_l.
Qed.

Lemma run_raises_scrub (a : args) (e : exn) (s : plt.state) :
  scrub_result strptime COMMON_TICK_DATE_FORMAT a (column_list PLOT_COLORS a)
  = Raise e →
  ∃ s', run a s = (Raise e, s').
Proof.
  intros Hs. unfold plot_trading_history.
  destruct (when_state (verbose a) "plot_trading_history - start" s)
    as [cs0 E0].
  rewrite (bind_step _ _ _ _ _ E0). cbv beta.
  match goal with
  | |- context [bind (scrub _ _ _ _) _ ?st] =>
      destruct (scrub_run a (column_list PLOT_COLORS a) st) as [cs1 E1]
  end.
  rewrite Hs in E1. eexists. apply bind_Raise_l. exact E1.
Qed.

Lemma run_raises_loop (a : args) (use_df : pd.DataFrame) (bad : node)
      (s : plt.state) :
  scrub_result strptime COMMON_TICK_DATE_FORMAT a (column_list PLOT_COLORS a)
  = Return use_df →
  bad ∈ all_plots PLOT_COLORS a →
  (∀ frame, pd.getitem_cols use_df [date_col a; column bad] ≠ Return frame) →
  ∃ e s', run a s = (Raise e, s').
Proof.
  intros Hs Hin Hbad. unfold plot_trading_history.
  destruct (when_state (verbose a) "plot_trading_history - start" s)
    as [cs0 E0].
  rewrite (bind_step _ _ _ _ _ E0). cbv beta.
  match goal with
  | |- context [bind (scrub _ _ _ _) _ ?st] =>
      destruct (scrub_run a (column_list PLOT_COLORS a) st) as [cs1 E1]
  end.
  rewrite Hs in E1. rewrite (bind_step _ _ _ _ _ E1).
  unfold bind at 1. simpl. unfold bind at 1. simpl.
  match goal with
  | |- context [bind (for_all_plots _ _ _ ?ax ?idx _ ?aa ?ua) _ ?st] =>
      destruct (for_all_plots_raises a use_df ax _ bad Hin Hbad idx aa ua st)
        as (e & s' & Hloop)
  end.
  exists e, s'. by apply bind_Raise_l.
Qed.

Lemma getitem_cols_not_Return (d : pd.DataFrame) (keys : list string)
      (k : string) :
  k ∈ keys → k ∉ pd.columns d →
  ∀ frame, pd.getitem_cols d keys ≠ Return frame.
Proof.
  intros Hin Hnot frame.
  destruct (getitem_cols_missing d keys k Hin Hnot) as [e ->]. done.
Qed.

(** C1 (amended): under a fatal condition the call raises; no envelope,
    of whatever status, reaches the caller. *)
Theorem fatal_condition_raises (a : args) (s : plt.state) :
  fatal strptime COMMON_TICK_DATE_FORMAT a →
  ∃ e s', run a s = (Raise e, s').
Proof.
  intros Hfatal.
  destruct (scrub_result strptime COMMON_TICK_DATE_FORMAT a
                         (column_list PLOT_COLORS a))
    as [use_df|e] eqn:Hs;
    [|destruct (run_raises_scrub a e s Hs) as [s' H]; eauto].
  pose proof (scrub_result_columns _ _ _ Hs) as Hsub.
  assert (∀ c, c ∈ selected_slots a →
               (c ∉ pd.columns (df a) ∨ date_col a ∉ pd.columns (df a)) →
               ∃ e s', run a s = (Raise e, s')) as Hloop.
  { intros c Hc Habs. rewrite <- (all_plots_columns a) in Hc.
    apply list_elem_of_fmap in Hc as (bad & -> & Hbad).
    eapply run_raises_loop; [exact Hs | exact Hbad |].
    destruct Habs as [Habs|Habs].
    - apply (getitem_cols_not_Return _ _ (column bad)); set_solver.
    - apply (getitem_cols_not_Return _ _ (date_col a)); set_solver. }
  destruct Hfatal as [(text & Hstart & Hne & Hparse) | [(c & Hc & Habs) | (Habs & Huse)]].
  - exfalso. revert Hs. unfold scrub_result, filter_by_start_date, parse_start_date.
    rewrite Hstart, (proj2 (String.eqb_neq text "") Hne), Hparse. done.
  - eauto.
  - destruct Huse as [Hstart | [Hfilter | Hsel]].
    + exfalso. revert Hs. unfold scrub_result, filter_by_start_date, truthy in *.
      destruct (start_date a) as [text|]; [|done].
      destruct (String.eqb text ""); [done|].
      destruct (parse_start_date strptime COMMON_TICK_DATE_FORMAT text); [|done].
      simpl. unfold pd.getitem_col.
      rewrite (proj2 (positions_nil_iff _ _) Habs). done.
    + exfalso. revert Hs. unfold scrub_result.
      destruct (filter_by_start_date strptime COMMON_TICK_DATE_FORMAT a
                                     (column_list PLOT_COLORS a))
        as [u1|e1] eqn:E1; simpl; [|done].
      apply filter_by_start_date_columns in E1.
      unfold filter_by_df_filter. rewrite Hfilter.
      destruct (df_filter a) as [|mask| |]; try done.
      destruct (pd.getitem_mask u1 mask) as [kept|e2] eqn:Emask; simpl; [|done].
      apply getitem_mask_frame in Emask as [Hc _].
      rewrite column_list_eq.
      destruct (getitem_cols_missing kept (date_col a :: selected_slots a)
                                     (date_col a)) as [e3 ->]; [set_solver| |done].
      rewrite Hc. set_solver.
    + destruct (selected_slots a) as [|c rest] eqn:E; [done|].
      apply (Hloop c); [by left | by right].
Qed.

(** *** The [df_filter] step *)

Lemma for_all_plots_df_filter (f : filter_obj) (a : args)
      (use_df : pd.DataFrame) (ax : nat) (nodes : list node) :
  ∀ idx all_axes use_ax s,
    for_all_plots auto_ylim a use_df ax idx nodes all_axes use_ax s
    = for_all_plots auto_ylim (set_df_filter f a) use_df ax idx nodes
                    all_axes use_ax s.
Proof.
  induction nodes as [|nd rest IH]; intros idx all_axes use_ax s; simpl;
    [done|].
  apply bind_ext; [reflexivity|]. intros h s1. apply IH.
Qed.

(** C8: a [df_filter] without a [to_json] attribute, truthy or not, is
    never applied: the filter step hands the frame on unchanged, and the
    whole call behaves as with [df_filter=None]. *)
Theorem df_filter_without_to_json_is_skipped (a : args) :
  hasattr_to_json (df_filter a) = false →
  (∀ cl use_df, filter_by_df_filter a cl use_df = Return use_df) ∧
  (∀ s, run a s = run (set_df_filter FilterNone a) s).
Proof.
  intros Hattr.
  assert (∀ cl use_df, filter_by_df_filter a cl use_df = Return use_df) as Hskip.
  { intros cl use_df. unfold filter_by_df_filter. by rewrite Hattr. }
  split; [exact Hskip|].
  intros s. unfold plot_trading_history.
  apply bind_ext; [reflexivity|]. intros u0 s0.
  apply bind_ext.
  { unfold scrub. apply bind_ext; [reflexivity|]. intros u1 s1.
    apply bind_ext; [reflexivity|]. intros u2 s2.
    apply bind_ext; [|reflexivity]. unfold lift. by rewrite Hskip. }
  intros use_df s1.
  apply bind_ext; [reflexivity|]. intros u1 s2.
  apply bind_ext; [reflexivity|]. intros fig_ax s3.
  apply bind_ext; [apply for_all_plots_df_filter|]. intros looped s4.
  reflexivity.
Qed.

(** *** Displays and result slots of a returning call *)

Lemma adds_shows_scrub a cl :
  adds_shows 0 (scrub strptime COMMON_TICK_DATE_FORMAT a cl).
Proof. unfold scrub. destruct (dropna_for_all a); zero_shows. Qed.

Lemma adds_shows_df_plot frame x kind h c :
  adds_shows 0 (df_plot auto_ylim frame x kind h c).
Proof. unfold df_plot. zero_shows. Qed.

Lemma adds_shows_plot_node a use_df ax idx nd :
  adds_shows 0 (plot_node auto_ylim a use_df ax idx nd).
Proof.
  unfold plot_node, when.
  destruct (bool_decide (0 < idx)), (String.eqb (linestyle a) "-"),
    (scale_y a), (verbose a);
    (eapply adds_shows_eq;
     [repeat first [ apply adds_shows_df_plot
                   | apply (adds_shows_record (plt.LogInfo _))
                   | eapply adds_shows_bind; [|intros ?]
                   | solve [eauto with shows] ]
     | reflexivity]).
Qed.

Lemma adds_shows_for_all_plots a use_df ax nodes :
  ∀ idx all_axes use_ax,
    adds_shows 0 (for_all_plots auto_ylim a use_df ax idx nodes all_axes use_ax).
Proof.
  induction nodes as [|nd rest IH]; intros idx all_axes use_ax; simpl.
  - apply adds_shows_ret.
  - apply (adds_shows_bind 0 0); [apply adds_shows_plot_node | intros h; apply IH].
Qed.

Lemma adds_shows_for_all_axes all_axes :
  ∀ idx use_ax lines rec,
    adds_shows 0 (for_all_axes idx all_axes use_ax lines rec).
Proof.
  induction all_axes as [|cur_ax rest IH]; intros idx use_ax lines rec; simpl.
  - apply adds_shows_ret.
  - apply (adds_shows_bind 0 0); [apply adds_shows_get_lines|].
    intros more. destruct use_ax; [apply IH | apply adds_shows_raise].
Qed.

(** X1: every returning call shows the figure once more than
    [show_plot] asks for: once with the flag unset, twice with it set. *)
Lemma run_shows (a : args) (s s' : plt.state) (res : result) :
  plot_trading_history strptime COMMON_TICK_DATE_FORMAT PLOT_COLORS
                       now_strftime auto_ylim a s = (Return res, s') →
  plt.count_show (plt.calls s')
  = plt.count_show (plt.calls s) + (if show_plot a then 2 else 1).
Proof.
  intros H.
  assert (adds_shows (if show_plot a then 2 else 1)
            (plot_trading_history strptime COMMON_TICK_DATE_FORMAT PLOT_COLORS
                                  now_strftime auto_ylim a)) as K; [|eauto].
  unfold plot_trading_history. cbv zeta.
  destruct (show_plot a);
    (eapply adds_shows_eq;
     [repeat first [ apply adds_shows_scrub
                   | apply adds_shows_for_all_plots
                   | apply adds_shows_for_all_axes
                   | apply adds_shows_log
                   | eapply adds_shows_bind; [|intros ?]
                   | solve [eauto with shows] ]
     | reflexivity]).
Qed.

Lemma all_plots_length (a : args) : length (all_plots PLOT_COLORS a) ≤ 4.
Proof.
  rewrite <- (length_map column), all_plots_columns.
  unfold selected_slots. simpl. repeat case_match; simpl; lia.
Qed.

Lemma for_all_plots_handles_twins (a : args) (use_df : pd.DataFrame) (ax : nat)
      (nodes : list node) :
  ∀ idx all_axes use_ax s res s',
    0 < idx →
    for_all_plots auto_ylim a use_df ax idx nodes all_axes use_ax s
    = (Return res, s') →
    fst res = all_axes ++ seq (length (plt.axes s)) (length nodes) ∧
    snd res = match nodes with
              | [] => use_ax
              | _ => Some (length (plt.axes s) + length nodes - 1)
              end.
Proof.
  induction nodes as [|nd rest IH]; intros idx all_axes use_ax s res s' Hidx;
    simpl.
  - intros [= <- _]. simpl. by rewrite app_nil_r.
  - intros H. unbind H as h s1 Hnode.
    apply plot_node_twin in Hnode as (-> & drawn & twin & _ & Hax & _);
      [|done].
    apply IH in H as [Hfst Hsnd]; [|lia].
    rewrite Hax, length_app in Hfst, Hsnd. simpl in Hfst, Hsnd.
    split.
    + rewrite Hfst, <- app_assoc. simpl.
      by replace (length (plt.axes s) + 1) with (S (length (plt.axes s)))
        by lia.
    + rewrite Hsnd. destruct rest; f_equal; simpl; lia.
Qed.

(** The loop hands over the axes [0 .. k-1] and leaves [use_ax] on the
    last of them. *)
Lemma for_all_plots_handles (a : args) (use_df : pd.DataFrame)
      (nodes : list node) (s s' : plt.state) res :
  plt.axes s = [plt.new_axes] → plt.current s = 0 →
  for_all_plots auto_ylim a use_df 0 0 nodes [] None s = (Return res, s') →
  fst res = seq 0 (length nodes) ∧
  snd res = match nodes with
            | [] => None
            | _ => Some (length nodes - 1)
            end.
Proof.
  intros Hax Hcur. destruct nodes as [|nd rest]; simpl.
  - by intros [= <- _].
  - intros H. unbind H as h s1 Hnode.
    apply plot_node_primary in Hnode as (-> & prim & Hax1 & _); [|done..].
    apply for_all_plots_handles_twins in H as [Hfst Hsnd]; [|lia].
    rewrite Hax1 in Hfst, Hsnd. simpl in Hfst, Hsnd.
    split; [done|]. rewrite Hsnd. destruct rest; f_equal; simpl; lia.
Qed.

Lemma for_all_axes_slots (axs : list nat) :
  ∀ idx h lines rec s res s',
    for_all_axes idx axs (Some h) lines rec s = (Return res, s') →
    snd res = fill_slots h idx (length axs) rec.
Proof.
  induction axs as [|cur_ax rest IH]; intros idx h lines rec s res s'; simpl.
  - by intros [= <- _].
  - intros H. unbind H as more s1 Hlines. apply IH in H. by rewrite H.
Qed.

(** X2: with [k] series selected, a returning call leaves [PyAxes (k-1)],
    the axes of the last series, in each of [ax1 .. axk], and [None] in
    the remaining slots. *)
Lemma run_slots (a : args) (s s' : plt.state) (res : result) (i : nat) :
  plot_trading_history strptime COMMON_TICK_DATE_FORMAT PLOT_COLORS
                       now_strftime auto_ylim a s = (Return res, s') →
  i < 4 →
  rec res !! ("ax" +:+ pretty (i + 1))
  = Some (if bool_decide (i < length (all_plots PLOT_COLORS a))
          then PyAxes (length (all_plots PLOT_COLORS a) - 1)
          else PyNone).
Proof.
  unfold plot_trading_history. intros H Hi.
  unbind H as u0 s0 Hlog.
  unbind H as use_df s1 Hscrub.
  unbind H as u1 s2 Hfonts.
  unbind H as fig_ax s3 Hsub. injection Hsub as <- <-. simpl in H.
  unbind H as looped s4 Hloop.
  apply for_all_plots_handles in Hloop as [Hfst Hsnd]; [|done..].
  unbind H as cur s5 Hgca. unbind H as hl s6 Hhl.
  unbind H as collected s7 Hcol. rewrite Hfst, Hsnd in Hcol.
  pose proof (all_plots_length a) as Hk.
  assert (snd collected
          = fill_slots (length (all_plots PLOT_COLORS a) - 1) 0
              (length (all_plots PLOT_COLORS a))
              (<["ax1":=PyNone]> (<["ax2":=PyNone]> (<["ax3":=PyNone]>
                 (<["ax4":=PyNone]> (<["fig":=PyNone]> ∅)))))) as Hrec.
  { destruct (all_plots PLOT_COLORS a) as [|nd rest].
    - simpl in Hcol. by injection Hcol as <- _.
    - apply for_all_axes_slots in Hcol. by rewrite length_seq in Hcol. }
  repeat inv_bind H. injection H as <- _. simpl. rewrite Hrec.
  generalize (plt.fig_num s2). intros n.
  destruct (length (all_plots PLOT_COLORS a)) as [|[|[|[|[|k]]]]]; [..|lia];
    destruct i as [|[|[|[|i]]]]; try lia; vm_compute; reflexivity.
Qed.

End Properties.

(** * The call as a whole *)

(** ** The plotting loop, as equations *)

Lemma figure_calls_logged (flag : bool) (msg : string) (cs : list plt.call) :
  figure_calls (logged flag msg cs) = figure_calls cs.
Proof. by destruct flag. Qed.

Lemma count_show_figure_calls (cs : list plt.call) :
  plt.count_show (figure_calls cs) = plt.count_show cs.
Proof.
  unfold plt.count_show, figure_calls.
  induction cs as [|c cs IH]; simpl; [done|].
  destruct c; simpl; by rewrite ?IH.
Qed.

Lemma when_logged (flag : bool) (msg : string) (s : plt.state) :
  when flag (pyplot.log_info msg) s
  = (Return tt, plt.mkState (plt.fig_num s) (plt.figsize s) (plt.axes s)
                            (plt.current s) (logged flag msg (plt.calls s))).
Proof. destruct flag, s; reflexivity. Qed.

Section LoopBody.
Variable auto_ylim : list plt.Artist -> float * float.

(** The body of the loop for a secondary series, as one equation. *)
Lemma plot_node_twin_eq (a : args) (use_df : pd.DataFrame) (ax idx : nat)
      (nd : node) (s : plt.state) :
  0 < idx →
  plot_node auto_ylim a use_df ax idx nd s
  = match drawn_for a use_df (length (plt.axes s)) nd with
    | Some drawn =>
        (Return (length (plt.axes s)),
         plt.mkState (plt.fig_num s) (plt.figsize s)
                     (plt.axes s ++ [twin_axes auto_ylim a drawn])
                     (length (plt.axes s))
                     (logged (verbose a) loop_msg (plt.calls s)))
    | None =>
        (Raise (node_error a use_df nd),
         plt.mkState (plt.fig_num s) (plt.figsize s)
                     (plt.axes s ++ [plt.new_axes])
                     (length (plt.axes s))
                     (logged (verbose a) loop_msg (plt.calls s)))
    end.
Proof.
  intros Hidx. destruct s as [fn fs axs cur cs].
  unfold plot_node. rewrite !bool_decide_eq_true_2 by done.
  unfold bind at 1. simpl.
  unfold bind at 1. rewrite when_logged. simpl.
  unfold drawn_for, node_error, bind at 1, lift.
  destruct (pd.getitem_cols use_df [date_col a; column nd]) as [frame|e];
    [|reflexivity].
  unfold bind at 1.
  assert (∀ st,
    (if String.eqb (linestyle a) "-"
     then df_plot auto_ylim frame (date_col a) plt.LineKind (length axs) (color nd)
     else df_plot auto_ylim frame (date_col a) plt.BarKind (length axs) (color nd)) st
    = df_plot auto_ylim frame (date_col a) (plot_kind_of a) (length axs) (color nd) st)
    as ->.
  { intros st. unfold plot_kind_of. by destruct (String.eqb (linestyle a) "-"). }
  unfold df_plot.
  destruct (pd.positions (date_col a) (pd.columns frame)) as [|px pxs];
    [reflexivity|].
  unfold pyplot.on_axes at 1. simpl. rewrite alter_snoc.
  unfold bind, when, pyplot.ax_record, pyplot.set_ylim, pyplot.get_ylim,
    pyplot.on_axes, pyplot.read_axes, ret.
  unfold twin_axes, pandas_legend, add_artists.
  destruct (scale_y a); simpl; rewrite ?lookup_snoc, ?alter_snoc; simpl;
    rewrite ?alter_snoc; reflexivity.
Qed.

(** The body of the loop for the first series, on the fresh figure. *)
Lemma plot_node_primary_eq (a : args) (use_df : pd.DataFrame) (nd : node)
      (s : plt.state) :
  plt.axes s = [plt.new_axes] → plt.current s = 0 →
  plot_node auto_ylim a use_df 0 0 nd s
  = match drawn_for a use_df 0 nd with
    | Some drawn =>
        (Return 0,
         plt.mkState (plt.fig_num s) (plt.figsize s)
                     [primary_axes auto_ylim a drawn] 0
                     (logged (verbose a) loop_msg (plt.calls s)))
    | None =>
        (Raise (node_error a use_df nd),
         plt.mkState (plt.fig_num s) (plt.figsize s) [plt.new_axes] 0
                     (logged (verbose a) loop_msg (plt.calls s)))
    end.
Proof.
  destruct s as [fn fs axs cur cs]. simpl. intros -> ->.
  unfold plot_node. rewrite !bool_decide_eq_false_2 by lia.
  unfold bind at 1. simpl.
  unfold bind at 1. rewrite when_logged. simpl.
  unfold drawn_for, node_error, bind at 1, lift.
  destruct (pd.getitem_cols use_df [date_col a; column nd]) as [frame|e];
    [|reflexivity].
  unfold bind at 1.
  assert (∀ st,
    (if String.eqb (linestyle a) "-"
     then df_plot auto_ylim frame (date_col a) plt.LineKind 0 (color nd)
     else df_plot auto_ylim frame (date_col a) plt.BarKind 0 (color nd)) st
    = df_plot auto_ylim frame (date_col a) (plot_kind_of a) 0 (color nd) st)
    as ->.
  { intros st. unfold plot_kind_of. by destruct (String.eqb (linestyle a) "-"). }
  unfold df_plot.
  destruct (pd.positions (date_col a) (pd.columns frame)) as [|px pxs];
    reflexivity.
Qed.

End LoopBody.

Lemma flat_map_read {A B} (f : A → list B) (d : A) (L P : list A) :
  flat_map (λ c, f (default d ((P ++ L) !! c))) (seq (length P) (length L))
  = flat_map f L.
Proof.
  revert P. induction L as [|x L IH]; intros P; simpl; [done|].
  rewrite list_lookup_middle by done. simpl. f_equal.
  specialize (IH (P ++ [x])). rewrite length_app, <- app_assoc in IH.
  simpl in IH. by replace (length P + 1) with (S (length P)) in IH by lia.
Qed.

Lemma drawn_for_host (a : args) (use_df : pd.DataFrame) (h h' : nat) (nd : node) :
  drawn_for a use_df h nd = None → drawn_for a use_df h' nd = None.
Proof.
  unfold drawn_for.
  destruct (pd.getitem_cols use_df [date_col a; column nd]) as [frame|e];
    [|done].
  by destruct (pd.positions (date_col a) (pd.columns frame)).
Qed.

Section LoopRuns.
Variable strptime : string -> string -> option Z.
Variable COMMON_TICK_DATE_FORMAT : string.
Variable PLOT_COLORS : string -> string.
Variable now_strftime : string -> string.
Variable auto_ylim : list plt.Artist -> float * float.

Lemma scrub_eq (a : args) (cl : list string) (s : plt.state) :
  scrub strptime COMMON_TICK_DATE_FORMAT a cl s
  = (scrub_result strptime COMMON_TICK_DATE_FORMAT a cl,
     plt.mkState (plt.fig_num s) (plt.figsize s) (plt.axes s) (plt.current s)
                 (scrub_calls strptime COMMON_TICK_DATE_FORMAT a cl
                              (plt.calls s))).
Proof.
  unfold scrub, scrub_result, scrub_calls, bind, lift.
  destruct (filter_by_start_date strptime COMMON_TICK_DATE_FORMAT a cl)
    as [u1|e]; simpl; [|by destruct s].
  rewrite when_logged.
  destruct (filter_by_df_filter a cl u1) as [u2|e]; simpl; [|done].
  rewrite when_logged. simpl.
  destruct (dropna_for_all a); [|done].
  rewrite when_logged. done.
Qed.

Lemma twins_for_length (a : args) (use_df : pd.DataFrame) (nodes : list node) :
  ∀ h twins, twins_for auto_ylim a use_df h nodes = Some twins →
             length twins = length nodes.
Proof.
  induction nodes as [|nd rest IH]; intros h twins; simpl.
  - by intros [= <-].
  - destruct (drawn_for a use_df h nd); [|done].
    destruct (twins_for auto_ylim a use_df (S h) rest) as [tw|] eqn:E; [|done].
    intros [= <-]. simpl. f_equal. by eapply IH.
Qed.

(** The iterations for the secondary series. *)
Lemma for_all_plots_twins_eq (a : args) (use_df : pd.DataFrame) (ax : nat)
      (nodes : list node) :
  ∀ idx all_axes use_ax s,
    0 < idx →
    match twins_for auto_ylim a use_df (length (plt.axes s)) nodes with
    | Some twins =>
        for_all_plots auto_ylim a use_df ax idx nodes all_axes use_ax s
        = (Return (all_axes ++ seq (length (plt.axes s)) (length nodes),
                   match nodes with
                   | [] => use_ax
                   | _ => Some (length (plt.axes s) + length nodes - 1)
                   end),
           plt.mkState (plt.fig_num s) (plt.figsize s) (plt.axes s ++ twins)
                       (match nodes with
                        | [] => plt.current s
                        | _ => length (plt.axes s) + length nodes - 1
                        end)
                       (Nat.iter (length nodes) (logged (verbose a) loop_msg)
                                 (plt.calls s)))
    | None =>
        ∃ nd s', nd ∈ nodes ∧ drawn_for a use_df 0 nd = None ∧
                 for_all_plots auto_ylim a use_df ax idx nodes all_axes
                               use_ax s
                 = (Raise (node_error a use_df nd), s') ∧
                 plt.fig_num s' = plt.fig_num s ∧
                 plt.figsize s' = plt.figsize s ∧
                 figure_calls (plt.calls s') = figure_calls (plt.calls s)
    end.
Proof.
  induction nodes as [|nd rest IH]; intros idx all_axes use_ax s Hidx; simpl.
  - destruct s. unfold ret. simpl. by rewrite !app_nil_r.
  - unfold bind at 1 2. rewrite plot_node_twin_eq by done.
    destruct (drawn_for a use_df (length (plt.axes s)) nd) as [drawn|] eqn:Ed.
    + specialize (IH (S idx) (all_axes ++ [length (plt.axes s)])
                     (Some (length (plt.axes s)))
                     (plt.mkState (plt.fig_num s) (plt.figsize s)
                        (plt.axes s ++ [twin_axes auto_ylim a drawn])
                        (length (plt.axes s))
                        (logged (verbose a) loop_msg (plt.calls s)))
                     ltac:(lia)).
      simpl in IH. rewrite length_app in IH. simpl in IH.
      replace (length (plt.axes s) + 1) with (S (length (plt.axes s)))
        in IH by lia.
      destruct (twins_for auto_ylim a use_df (S (length (plt.axes s))) rest)
        as [twins|].
      * rewrite IH. rewrite <- !app_assoc. rewrite Nat.iter_swap.
        f_equal; [f_equal; f_equal | f_equal];
          try (destruct rest; simpl; f_equal; lia);
          destruct rest; simpl; lia.
      * destruct IH as (bad & s' & Hin & Hnone & Hrun & Hfn & Hfs & Hcs).
        exists bad, s'. split; [by right|]. split; [done|].
        split; [exact Hrun|]. split; [exact Hfn|]. split; [exact Hfs|].
        simpl in Hcs. by rewrite Hcs, figure_calls_logged.
    + exists nd. eexists. split; [by left|].
      split; [by eapply drawn_for_host|]. split; [reflexivity|].
      split; [done|]. split; [done|]. simpl. apply figure_calls_logged.
Qed.

(** The whole loop, started on the fresh figure. *)
Lemma for_all_plots_eq (a : args) (use_df : pd.DataFrame) (nodes : list node)
      (s : plt.state) :
  plt.axes s = [plt.new_axes] → plt.current s = 0 →
  match figure_axes auto_ylim a use_df nodes with
  | Some L =>
      for_all_plots auto_ylim a use_df 0 0 nodes [] None s
      = (Return (seq 0 (length nodes),
                 match nodes with
                 | [] => None
                 | _ => Some (length nodes - 1)
                 end),
         plt.mkState (plt.fig_num s) (plt.figsize s) L (length L - 1)
                     (Nat.iter (length nodes) (logged (verbose a) loop_msg)
                               (plt.calls s)))
  | None =>
      ∃ nd s', nd ∈ nodes ∧ drawn_for a use_df 0 nd = None ∧
               for_all_plots auto_ylim a use_df 0 0 nodes [] None s
               = (Raise (node_error a use_df nd), s') ∧
               plt.fig_num s' = plt.fig_num s ∧
               plt.figsize s' = plt.figsize s ∧
               figure_calls (plt.calls s') = figure_calls (plt.calls s)
  end.
Proof.
  intros Hax Hcur. destruct nodes as [|nd rest]; simpl.
  - destruct s. simpl in *. subst. reflexivity.
  - unfold bind at 1 2. rewrite plot_node_primary_eq by done.
    destruct (drawn_for a use_df 0 nd) as [drawn|] eqn:Ed.
    + pose proof (for_all_plots_twins_eq a use_df 0 rest 1 [0] (Some 0)
                    (plt.mkState (plt.fig_num s) (plt.figsize s)
                       [primary_axes auto_ylim a drawn] 0
                       (logged (verbose a) loop_msg (plt.calls s)))
                    ltac:(lia)) as IH.
      simpl in IH.
      destruct (twins_for auto_ylim a use_df 1 rest) as [twins|] eqn:Et.
      * rewrite IH. rewrite Nat.iter_swap.
        pose proof (twins_for_length _ _ _ _ _ Et) as Hlen.
        f_equal; [f_equal; f_equal | f_equal];
          try (destruct rest; simpl; f_equal; lia);
          simpl; rewrite Hlen; destruct rest; simpl; lia.
      * destruct IH as (bad & s' & Hin & Hnone & Hrun & Hfn & Hfs & Hcs).
        exists bad, s'. split; [by right|]. split; [done|].
        split; [exact Hrun|]. split; [exact Hfn|]. split; [exact Hfs|].
        simpl in Hcs. by rewrite Hcs, figure_calls_logged.
    + exists nd. eexists. split; [by left|]. split; [done|].
      split; [reflexivity|]. split; [done|]. split; [done|]. simpl.
      apply figure_calls_logged.
Qed.

Lemma for_all_axes_eq (axs : list nat) (h : nat) :
  ∀ idx lines rec s,
    for_all_axes idx axs (Some h) lines rec s
    = (Return (lines ++ flat_map
                 (λ c, List.filter plt.is_line
                         (plt.ax_artists (pyplot.read_axes c s))) axs,
               fill_slots h idx (length axs) rec), s).
Proof.
  induction axs as [|cur_ax rest IH]; intros idx lines rec s; simpl.
  - unfold ret. by rewrite app_nil_r.
  - unfold bind, pyplot.get_lines. rewrite IH. by rewrite <- app_assoc.
Qed.

End LoopRuns.

(** ** The call, as equations *)

Section WholeCall.
Variable strptime : string -> string -> option Z.
Variable COMMON_TICK_DATE_FORMAT : string.
Variable PLOT_COLORS : string -> string.
Variable now_strftime : string -> string.
Variable auto_ylim : list plt.Artist -> float * float.

Local Abbreviation run :=
  (plot_trading_history strptime COMMON_TICK_DATE_FORMAT PLOT_COLORS
                        now_strftime auto_ylim).
Local Abbreviation the_scrub_result a :=
  (scrub_result strptime COMMON_TICK_DATE_FORMAT a (column_list PLOT_COLORS a)).
Local Abbreviation the_scrub_calls a :=
  (scrub_calls strptime COMMON_TICK_DATE_FORMAT a (column_list PLOT_COLORS a)).

Lemma figure_axes_length (a : args) (use_df : pd.DataFrame)
      (nodes : list node) (L : list plt.Axes) :
  figure_axes auto_ylim a use_df nodes = Some L →
  length L = Nat.max 1 (length nodes).
Proof.
  destruct nodes as [|nd rest]; simpl; [by intros [= <-]|].
  destruct (drawn_for a use_df 0 nd); [|done].
  destruct (twins_for auto_ylim a use_df 1 rest) as [tw|] eqn:E; [|done].
  intros [= <-]. simpl. by rewrite (twins_for_length _ _ _ _ _ _ E).
Qed.

(** A failing scrubbing step ends the call at once. *)
Lemma run_scrub_raise_eq (a : args) (e : exn) (s : plt.state) :
  the_scrub_result a = Raise e →
  run a s
  = (Raise e,
     plt.mkState (plt.fig_num s) (plt.figsize s) (plt.axes s) (plt.current s)
                 (the_scrub_calls a (logged (verbose a) start_msg (plt.calls s)))).
Proof.
  intros Hs. unfold plot_trading_history.
  unfold bind at 1. rewrite when_logged.
  unfold bind at 1. rewrite scrub_eq, Hs. reflexivity.
Qed.

(** The call that gets through, as one equation. *)
Lemma run_return_eq (a : args) (use_df : pd.DataFrame) (L : list plt.Axes)
      (s : plt.state) :
  the_scrub_result a = Return use_df →
  figure_axes auto_ylim a use_df (all_plots PLOT_COLORS a) = Some L →
  run a s
  = (Return (build_result SUCCESS None
               (final_rec (S (plt.fig_num s))
                          (length (all_plots PLOT_COLORS a)))),
     plt.mkState (S (plt.fig_num s)) (width a, height a) (final_axes a L)
                 (length L - 1)
                 (final_calls COMMON_TICK_DATE_FORMAT now_strftime a
                    (Nat.iter (length (all_plots PLOT_COLORS a))
                              (logged (verbose a) loop_msg)
                              (plt.SetCommonSeabornFonts
                                 :: the_scrub_calls a
                                      (logged (verbose a) start_msg
                                              (plt.calls s)))))).
Proof.
  intros Hs HL. unfold plot_trading_history.
  unfold bind at 1. rewrite when_logged.
  unfold bind at 1. rewrite scrub_eq, Hs.
  unfold bind at 1. simpl. unfold bind at 1. simpl.
  match goal with
  | |- context [bind (for_all_plots _ _ _ _ _ _ _ _) _ ?st] =>
      pose proof (for_all_plots_eq auto_ylim a use_df
                    (all_plots PLOT_COLORS a) st eq_refl eq_refl) as Hloop
  end.
  rewrite HL in Hloop. simpl in Hloop.
  unfold bind at 1. rewrite Hloop. clear Hloop.
  pose proof (figure_axes_length _ _ _ _ HL) as Hlen.
  unfold bind at 1. simpl. unfold bind at 1. simpl.
  unfold bind at 1.
  assert (∀ st, plt.axes st = L →
    for_all_axes 0 (seq 0 (length (all_plots PLOT_COLORS a)))
      match all_plots PLOT_COLORS a with
      | [] => None
      | _ :: _ => Some (length (all_plots PLOT_COLORS a) - 1)
      end [] rec0 st
    = (Return (legend_lines L,
               fill_slots (length (all_plots PLOT_COLORS a) - 1) 0
                          (length (all_plots PLOT_COLORS a)) rec0), st))
    as Haxes.
  { intros st Hst. destruct (all_plots PLOT_COLORS a) as [|nd rest] eqn:E.
    - simpl. unfold ret. f_equal. f_equal. unfold legend_lines.
      simpl in HL. injection HL as <-. reflexivity.
    - assert (length (nd :: rest) = length L) as Hk
        by (rewrite Hlen; simpl; lia).
      cbv match. rewrite for_all_axes_eq, length_seq, app_nil_l, Hk.
      unfold pyplot.read_axes. rewrite Hst. f_equal. f_equal. f_equal.
      apply (flat_map_read
               (λ ax, List.filter plt.is_line (plt.ax_artists ax))
               plt.new_axes L []). }
  fold rec0. rewrite Haxes by reflexivity. clear Haxes.
  unfold final_rec, final_axes, final_calls, use_footnote, build_result.
  unfold pyplot.legend, pyplot.ax_record, pyplot.on_axes, pyplot.record,
    pyplot.gca, ret.
  destruct (show_plot a);
    repeat (unfold bind at 1;
            cbv beta iota zeta
                delta [fst snd plt.fig_num plt.figsize plt.axes plt.current
                       plt.calls]);
    reflexivity.
Qed.

End WholeCall.

(** ** More facts about the pandas model *)

(** *** More facts about the pandas model *)

Lemma key_positions_total (keys cols : list string) :
  (∀ k, k ∈ keys → k ∈ cols) → ∃ ps, pd.key_positions keys cols = Return ps.
Proof.
  induction keys as [|k ks IH]; intros Hall; simpl; [eauto|].
  destruct (pd.positions k cols) as [|p ps] eqn:E.
  - apply positions_nil_iff in E. destruct E. apply Hall. by left.
  - destruct IH as [qs ->]; [intros k' Hk'; apply Hall; by right|].
    simpl. eauto.
Qed.

Lemma getitem_cols_total (d : pd.DataFrame) (keys : list string) :
  (∀ k, k ∈ keys → k ∈ pd.columns d) → ∃ u, pd.getitem_cols d keys = Return u.
Proof.
  intros Hall. unfold pd.getitem_cols.
  destruct (key_positions_total keys (pd.columns d) Hall) as [ps ->].
  simpl. eauto.
Qed.

Lemma key_positions_Raise (keys cols : list string) (e : exn) :
  pd.key_positions keys cols = Raise e →
  ∃ k, e = KeyError k ∧ k ∈ keys ∧ k ∉ cols.
Proof.
  induction keys as [|k ks IH]; simpl; [done|].
  destruct (pd.positions k cols) as [|p ps] eqn:E.
  - intros [= <-]. exists k. split; [done|]. split; [by left|].
    by apply positions_nil_iff.
  - destruct (pd.key_positions ks cols) as [qs|e']; simpl; [done|].
    intros [= <-]. destruct (IH eq_refl) as (k' & -> & Hin & Hnot).
    exists k'. split; [done|]. split; [by right | done].
Qed.

(** A failing column selection names a key the frame lacks. *)
Lemma getitem_cols_Raise (d : pd.DataFrame) (keys : list string) (e : exn) :
  pd.getitem_cols d keys = Raise e →
  ∃ k, e = KeyError k ∧ k ∈ keys ∧ k ∉ pd.columns d.
Proof.
  unfold pd.getitem_cols.
  destruct (pd.key_positions keys (pd.columns d)) as [ps|e'] eqn:E; simpl;
    [done|].
  intros [= <-]. by apply key_positions_Raise.
Qed.

Lemma key_positions_keys (keys cols : list string) (qs : list nat) :
  pd.key_positions keys cols = Return qs →
  (∀ q, q ∈ qs → nth q cols ""%string ∈ keys) ∧
  (∀ k, k ∈ keys → ∃ q, q ∈ qs ∧ nth q cols ""%string = k).
Proof.
  revert qs. induction keys as [|k ks IH]; intros qs; simpl.
  - intros [= <-]. split; [intros q H | intros k H]; inversion H.
  - destruct (pd.positions k cols) as [|p ps] eqn:E; [discriminate|].
    destruct (pd.key_positions ks cols) as [rest|e]; simpl; [|discriminate].
    intros [= <-]. destruct (IH rest eq_refl) as [IH1 IH2]. split.
    + intros q Hq. change (q ∈ (p :: ps) ++ rest) in Hq.
      apply elem_of_app in Hq as [Hq|Hq]; [|right; by apply IH1].
      rewrite <- E in Hq. rewrite (positions_nth _ _ _ Hq). by left.
    + intros k' [->|Hk']%elem_of_cons.
      * exists p. split; [by left|]. apply positions_nth. rewrite E. by left.
      * destruct (IH2 k' Hk') as (q & Hq & Hn). exists q.
        split; [|done]. change (q ∈ (p :: ps) ++ rest).
        apply elem_of_app. by right.
Qed.

(** The columns of a selection are named by its keys, all of them. *)
Lemma getitem_cols_names (d u : pd.DataFrame) (keys : list string) :
  pd.getitem_cols d keys = Return u →
  ∀ name, name ∈ pd.columns u ↔ name ∈ keys.
Proof.
  unfold pd.getitem_cols.
  destruct (pd.key_positions keys (pd.columns d)) as [qs|e] eqn:E; simpl;
    [|discriminate].
  intros [= <-]. simpl. destruct (key_positions_keys _ _ _ E) as [H1 H2].
  intros name. split.
  - intros Hn. apply list_elem_of_fmap in Hn as (q & -> & Hq). by apply H1.
  - intros Hk. destruct (H2 name Hk) as (q & Hq & <-).
    apply list_elem_of_fmap. eauto.
Qed.

(** A selection keeps every row, in place. *)
Lemma getitem_cols_labels (d u : pd.DataFrame) (keys : list string) :
  pd.getitem_cols d keys = Return u →
  map pd.label (pd.rows u) = map pd.label (pd.rows d).
Proof.
  unfold pd.getitem_cols.
  destruct (pd.key_positions keys (pd.columns d)) as [qs|e]; simpl;
    [|discriminate].
  intros [= <-]. simpl. by rewrite map_map.
Qed.

Lemma take_rows_sublist (flags : list bool) (rs : list pd.Row) :
  sublist (pd.take_rows flags rs) rs.
Proof.
  revert flags. induction rs as [|r rs IH]; intros [|b flags]; simpl;
    try apply sublist_nil_l.
  destruct b; [apply sublist_skip | apply sublist_cons]; apply IH.
Qed.

Lemma align_rows_sublist (mask : pd.Series bool) (rs kept : list pd.Row) :
  pd.align_rows mask rs = Return kept → sublist kept rs.
Proof.
  revert kept. induction rs as [|r rs IH]; intros kept; simpl.
  - intros [= <-]. constructor.
  - destruct (pd.mask_lookup mask (pd.label r)) as [b|]; [|discriminate].
    destruct (pd.align_rows mask rs) as [k|e]; simpl; [|discriminate].
    intros [= <-]. pose proof (IH k eq_refl) as Hsub.
    destruct b; [apply sublist_skip | apply sublist_cons]; exact Hsub.
Qed.

Lemma getitem_mask_sublist (d u : pd.DataFrame) (mask : pd.Series bool) :
  pd.getitem_mask d mask = Return u → sublist (pd.rows u) (pd.rows d).
Proof.
  unfold pd.getitem_mask. destruct (pd.index_equal mask (pd.rows d)).
  - intros [= <-]. apply take_rows_sublist.
  - destruct (pd.align_rows mask (pd.rows d)) as [k|e] eqn:E; simpl;
      [|discriminate].
    intros [= <-]. simpl. by eapply align_rows_sublist.
Qed.

Lemma dropna_sublist (d : pd.DataFrame) :
  sublist (pd.rows (pd.dropna d)) (pd.rows d).
Proof. unfold pd.dropna. simpl. apply (sublist_filter _). Qed.

(** After [dropna] no row has a missing value in any column. *)
Lemma dropna_complete (d : pd.DataFrame) (r : pd.Row) (p : nat) :
  r ∈ pd.rows (pd.dropna d) → p < length (pd.columns d) →
  is_Some (pd.cell_at r p).
Proof.
  unfold pd.dropna. simpl. intros Hr Hp.
  apply list_elem_of_filter in Hr as [Hc _]. unfold pd.complete in Hc.
  rewrite forallb_forall in Hc.
  assert (In p (seq 0 (length (pd.columns d)))) as Hin
    by (apply in_seq; lia).
  apply Hc in Hin. by apply bool_decide_eq_true in Hin.
Qed.

(** *** What is drawn for a series *)

Lemma drawn_for_None (a : args) (use_df : pd.DataFrame) (h : nat) (nd : node) :
  drawn_for a use_df h nd = None →
  ∃ k, node_error a use_df nd = KeyError k ∧
       k ∈ [date_col a; column nd] ∧ k ∉ pd.columns use_df.
Proof.
  unfold drawn_for, node_error.
  destruct (pd.getitem_cols use_df [date_col a; column nd]) as [frame|e] eqn:E.
  - destruct (pd.positions (date_col a) (pd.columns frame)) as [|px pxs] eqn:Ep;
      [|done].
    intros _. exfalso. apply positions_nil_iff in Ep. apply Ep.
    apply (getitem_cols_names _ _ _ E). by left.
  - intros _. by apply getitem_cols_Raise.
Qed.

Lemma drawn_for_Some (a : args) (use_df : pd.DataFrame) (h : nat) (nd : node) :
  date_col a ∈ pd.columns use_df → column nd ∈ pd.columns use_df →
  ∃ drawn, drawn_for a use_df h nd = Some drawn.
Proof.
  intros Hd Hc. destruct (drawn_for a use_df h nd) as [drawn|] eqn:E; [eauto|].
  destruct (drawn_for_None _ _ _ _ E) as (k & _ & Hin & Hnot).
  exfalso. apply Hnot.
  apply elem_of_cons in Hin as [->|Hin]; [done|].
  by apply list_elem_of_singleton in Hin as ->.
Qed.

(** The artists of a series: on its axes, in its colour, of the kind
    [linestyle] selects, labelled with its column, one point per row. *)
Lemma drawn_for_artists (a : args) (use_df : pd.DataFrame) (h : nat)
      (nd : node) (drawn : list plt.Artist) (art : plt.Artist) :
  drawn_for a use_df h nd = Some drawn → art ∈ drawn →
  plt.art_host art = h ∧ plt.art_color art = color nd ∧
  plt.art_kind art = plot_kind_of a ∧ plt.art_label art = column nd ∧
  plt.art_label art ≠ date_col a ∧
  length (plt.art_x art) = length (pd.rows use_df) ∧
  length (plt.art_y art) = length (pd.rows use_df).
Proof.
  unfold drawn_for.
  destruct (pd.getitem_cols use_df [date_col a; column nd]) as [frame|e] eqn:E;
    [|done].
  destruct (pd.positions (date_col a) (pd.columns frame)) as [|px pxs]; [done|].
  intros [= <-]. unfold drawn_artists. intros Hart.
  apply list_elem_of_omap in Hart as ([p c] & Hpc & Hsome). simpl in Hsome.
  destruct (String.eqb_spec c (date_col a)) as [->|Hne]; [done|].
  injection Hsome as <-. simpl.
  apply list_elem_of_lookup in Hpc as [i Hi].
  rewrite list_lookup_imap in Hi.
  destruct (pd.columns frame !! i) as [c'|] eqn:Ec; [|done].
  simpl in Hi. injection Hi as <- <-.
  assert (c' ∈ [date_col a; column nd]) as Hin.
  { apply (getitem_cols_names _ _ _ E). by eapply list_elem_of_lookup_2. }
  assert (length (pd.rows frame) = length (pd.rows use_df)) as Hlen.
  { rewrite <- (length_map pd.label (pd.rows frame)),
      (getitem_cols_labels _ _ _ E). apply length_map. }
  repeat split; try done.
  - apply elem_of_cons in Hin as [->|Hin]; [done|].
    by apply list_elem_of_singleton in Hin.
  - by rewrite length_map.
  - by rewrite length_map.
Qed.

(** ** The axes at the end of the call *)

Lemma final_axes_lookup (a : args) (L : list plt.Axes) (i : nat) :
  final_axes a L !! i = finish a L i <$> L !! i.
Proof.
  unfold final_axes, finish. rewrite !list_lookup_alter.
  repeat case_decide; subst; repeat case_bool_decide; try done;
    try lia; by destruct (L !! _).
Qed.

Lemma final_axes_length (a : args) (L : list plt.Axes) :
  length (final_axes a L) = length L.
Proof. unfold final_axes. by rewrite !length_alter. Qed.

Lemma finish_geom (a : args) (L : list plt.Axes) (i : nat) (ax : plt.Axes) :
  plt.ax_artists (finish a L i ax) = plt.ax_artists ax ∧
  plt.ax_ylim (finish a L i ax) = plt.ax_ylim ax ∧
  plt.ax_autoscaley (finish a L i ax) = plt.ax_autoscaley ax.
Proof. unfold finish. by repeat case_bool_decide. Qed.

Lemma legend_lines_final (a : args) (L : list plt.Axes) :
  legend_lines (final_axes a L) = legend_lines L.
Proof.
  unfold legend_lines.
  assert (∀ (f : plt.Axes → plt.Axes) j (l : list plt.Axes),
            (∀ ax, plt.ax_artists (f ax) = plt.ax_artists ax) →
            flat_map (λ ax, List.filter plt.is_line (plt.ax_artists ax))
                     (alter f j l)
            = flat_map (λ ax, List.filter plt.is_line (plt.ax_artists ax)) l)
    as Halter.
  { intros f j l Hf. revert j. induction l as [|x l IH]; intros [|j]; simpl;
      [done | done | by rewrite Hf | f_equal; apply IH]. }
  unfold final_axes. by rewrite !Halter.
Qed.

Lemma figure_calls_scrub_calls (strptime : string -> string -> option Z)
      (fmt : string) (a : args) (cl : list string) (cs : list plt.call) :
  figure_calls (scrub_calls strptime fmt a cl cs) = figure_calls cs.
Proof.
  unfold scrub_calls.
  destruct (filter_by_start_date strptime fmt a cl) as [u1|e]; [|done].
  destruct (filter_by_df_filter a cl u1) as [u2|e];
    [|by rewrite figure_calls_logged].
  destruct (dropna_for_all a); by rewrite !figure_calls_logged.
Qed.

Lemma figure_calls_iter_logged (flag : bool) (msg : string) (n : nat)
      (cs : list plt.call) :
  figure_calls (Nat.iter n (logged flag msg) cs) = figure_calls cs.
Proof.
  induction n as [|n IH]; simpl; [done|]. by rewrite figure_calls_logged.
Qed.

Section Inversion.
Variable strptime : string -> string -> option Z.
Variable COMMON_TICK_DATE_FORMAT : string.
Variable PLOT_COLORS : string -> string.
Variable now_strftime : string -> string.
Variable auto_ylim : list plt.Artist -> float * float.

Local Abbreviation run :=
  (plot_trading_history strptime COMMON_TICK_DATE_FORMAT PLOT_COLORS
                        now_strftime auto_ylim).
Local Abbreviation the_scrub_result a :=
  (scrub_result strptime COMMON_TICK_DATE_FORMAT a (column_list PLOT_COLORS a)).
Local Abbreviation the_scrub_calls a :=
  (scrub_calls strptime COMMON_TICK_DATE_FORMAT a (column_list PLOT_COLORS a)).

Lemma twins_for_lookup (a : args) (use_df : pd.DataFrame) (nodes : list node) :
  ∀ h twins j tw,
    twins_for auto_ylim a use_df h nodes = Some twins → twins !! j = Some tw →
    ∃ nd drawn, nodes !! j = Some nd ∧
                drawn_for a use_df (h + j) nd = Some drawn ∧
                tw = twin_axes auto_ylim a drawn.
Proof.
  induction nodes as [|nd rest IH]; intros h twins j tw; simpl.
  - by intros [= <-].
  - destruct (drawn_for a use_df h nd) as [drawn|] eqn:Ed; [|done].
    destruct (twins_for auto_ylim a use_df (S h) rest) as [tws|] eqn:Et;
      [|done].
    intros [= <-]. destruct j as [|j]; simpl.
    + intros [= <-]. exists nd, drawn. by rewrite Nat.add_0_r.
    + intros Hj. destruct (IH _ _ _ _ Et Hj) as (nd' & drawn' & Hn & Hd & ->).
      exists nd', drawn'. split; [done|]. split; [|done].
      by replace (h + S j) with (S h + j) by lia.
Qed.

(** Position by position, the axes the loop leaves are those of the
    series. *)
Lemma figure_axes_lookup (a : args) (use_df : pd.DataFrame)
      (nodes : list node) (L : list plt.Axes) (i : nat) (nd : node) :
  figure_axes auto_ylim a use_df nodes = Some L → nodes !! i = Some nd →
  ∃ drawn, drawn_for a use_df i nd = Some drawn ∧
           L !! i = Some (if bool_decide (i = 0)
                          then primary_axes auto_ylim a drawn
                          else twin_axes auto_ylim a drawn).
Proof.
  destruct nodes as [|nd0 rest]; simpl; [done|].
  destruct (drawn_for a use_df 0 nd0) as [drawn0|] eqn:Ed; [|done].
  destruct (twins_for auto_ylim a use_df 1 rest) as [twins|] eqn:Et; [|done].
  intros [= <-]. destruct i as [|j]; simpl.
  - intros [= <-]. eauto.
  - intros Hj.
    pose proof (twins_for_length _ _ _ _ _ _ Et) as Hlen.
    destruct (twins !! j) as [tw|] eqn:Etw.
    + destruct (twins_for_lookup _ _ _ _ _ _ _ Et Etw)
        as (nd' & drawn & Hn & Hd & ->).
      rewrite Hj in Hn. injection Hn as <-. eauto.
    + apply lookup_ge_None in Etw. apply lookup_lt_Some in Hj. lia.
Qed.

(** The three ways a run of the model can end. *)
Lemma run_cases (a : args) (s : plt.state) :
  (∃ e, the_scrub_result a = Raise e ∧
        run a s
        = (Raise e,
           plt.mkState (plt.fig_num s) (plt.figsize s) (plt.axes s)
                       (plt.current s)
                       (the_scrub_calls a
                          (logged (verbose a) start_msg (plt.calls s))))) ∨
  (∃ use_df L,
      the_scrub_result a = Return use_df ∧
      figure_axes auto_ylim a use_df (all_plots PLOT_COLORS a) = Some L ∧
      run a s
      = (Return (build_result SUCCESS None
                   (final_rec (S (plt.fig_num s))
                              (length (all_plots PLOT_COLORS a)))),
         plt.mkState (S (plt.fig_num s)) (width a, height a) (final_axes a L)
                     (length L - 1)
                     (final_calls COMMON_TICK_DATE_FORMAT now_strftime a
                        (Nat.iter (length (all_plots PLOT_COLORS a))
                                  (logged (verbose a) loop_msg)
                                  (plt.SetCommonSeabornFonts
                                     :: the_scrub_calls a
                                          (logged (verbose a) start_msg
                                                  (plt.calls s))))))) ∨
  (∃ use_df nd s',
      the_scrub_result a = Return use_df ∧
      nd ∈ all_plots PLOT_COLORS a ∧ drawn_for a use_df 0 nd = None ∧
      run a s = (Raise (node_error a use_df nd), s') ∧
      plt.fig_num s' = S (plt.fig_num s) ∧
      plt.figsize s' = (width a, height a) ∧
      figure_calls (plt.calls s')
      = plt.SetCommonSeabornFonts :: figure_calls (plt.calls s)).
Proof.
  destruct (the_scrub_result a) as [use_df|e] eqn:Hs.
  - destruct (figure_axes auto_ylim a use_df (all_plots PLOT_COLORS a))
      as [L|] eqn:HL.
    + right. left. exists use_df, L. split; [done|]. split; [done|].
      by eapply run_return_eq.
    + right. right. unfold plot_trading_history.
      unfold bind at 1. rewrite when_logged.
      unfold bind at 1. rewrite scrub_eq, Hs.
      unfold bind at 1. simpl. unfold bind at 1. simpl.
      match goal with
      | |- context [bind (for_all_plots _ _ _ _ _ _ _ _) _ ?st] =>
          pose proof (for_all_plots_eq auto_ylim a use_df
                        (all_plots PLOT_COLORS a) st eq_refl eq_refl) as Hloop
      end.
      rewrite HL in Hloop.
      destruct Hloop as (nd & s' & Hin & Hnone & Hrun & Hfn & Hfs & Hcs).
      exists use_df, nd, s'. split; [done|]. split; [done|]. split; [done|].
      split; [unfold bind at 1; by rewrite Hrun|]. split; [done|].
      split; [done|]. rewrite Hcs. simpl.
      by rewrite figure_calls_scrub_calls, figure_calls_logged.
  - left. exists e. split; [done|]. by apply run_scrub_raise_eq.
Qed.

(** What a returning call returns and leaves behind. *)
Lemma run_Return_inv (a : args) (s s' : plt.state) (res : result) :
  run a s = (Return res, s') →
  ∃ use_df L,
    the_scrub_result a = Return use_df ∧
    figure_axes auto_ylim a use_df (all_plots PLOT_COLORS a) = Some L ∧
    res = build_result SUCCESS None
            (final_rec (S (plt.fig_num s)) (length (all_plots PLOT_COLORS a))) ∧
    s' = plt.mkState (S (plt.fig_num s)) (width a, height a) (final_axes a L)
                     (length L - 1)
                     (final_calls COMMON_TICK_DATE_FORMAT now_strftime a
                        (Nat.iter (length (all_plots PLOT_COLORS a))
                                  (logged (verbose a) loop_msg)
                                  (plt.SetCommonSeabornFonts
                                     :: the_scrub_calls a
                                          (logged (verbose a) start_msg
                                                  (plt.calls s))))).
Proof.
  intros H.
  destruct (run_cases a s)
    as [(e & _ & E) | [(use_df & L & Hs & HL & E)
                      | (use_df & nd & s'' & _ & _ & _ & E & _)]];
    rewrite E in H; [discriminate | | discriminate].
  injection H as <- <-. exists use_df, L. by repeat split.
Qed.

End Inversion.

(** ** The scrubbing steps *)

Lemma getitem_col_Raise (d : pd.DataFrame) (name : string) (e : exn) :
  pd.getitem_col d name = Raise e → e = KeyError name ∧ name ∉ pd.columns d.
Proof.
  unfold pd.getitem_col.
  destruct (pd.positions name (pd.columns d)) as [|p ps] eqn:E; [|done].
  intros [= <-]. split; [done|]. by apply positions_nil_iff.
Qed.

Lemma getitem_col_index (d : pd.DataFrame) (name : string)
      (col : pd.Series pd.cell) :
  pd.getitem_col d name = Return col → map fst col = map pd.label (pd.rows d).
Proof.
  unfold pd.getitem_col.
  destruct (pd.positions name (pd.columns d)) as [|p ps]; [done|].
  intros [= <-]. rewrite map_map. done.
Qed.

(** A mask computed from a column of the frame selects without error. *)
Lemma getitem_mask_ge_total (d : pd.DataFrame) (name : string)
      (col : pd.Series pd.cell) (v : Z) :
  pd.getitem_col d name = Return col →
  ∃ u, pd.getitem_mask d (pd.ge col v) = Return u.
Proof.
  intros Hcol. unfold pd.getitem_mask, pd.index_equal.
  rewrite bool_decide_eq_true_2; [eauto|].
  unfold pd.ge. rewrite map_map. simpl.
  by apply getitem_col_index in Hcol.
Qed.

Lemma align_rows_Raise (mask : pd.Series bool) (rs : list pd.Row) (e : exn) :
  pd.align_rows mask rs = Raise e →
  e = IndexingError ∧ ∃ r, r ∈ rs ∧ pd.mask_lookup mask (pd.label r) = None.
Proof.
  induction rs as [|r0 rs IH]; simpl; [done|].
  destruct (pd.mask_lookup mask (pd.label r0)) as [b|] eqn:E.
  - destruct (pd.align_rows mask rs) as [k|e'] eqn:Ea; simpl; [done|].
    intros [= <-]. destruct (IH eq_refl) as [-> (r & Hr & Hl)].
    split; [done|]. exists r. split; [by right | done].
  - intros [= <-]. split; [done|]. exists r0. split; [by left | done].
Qed.

Lemma getitem_mask_Raise (d : pd.DataFrame) (mask : pd.Series bool) (e : exn) :
  pd.getitem_mask d mask = Raise e → e = IndexingError ∧ uncovered mask d.
Proof.
  unfold pd.getitem_mask. destruct (pd.index_equal mask (pd.rows d)); [done|].
  destruct (pd.align_rows mask (pd.rows d)) as [k|e'] eqn:E; simpl; [done|].
  intros [= <-]. by apply align_rows_Raise.
Qed.

Lemma mask_lookup_Some (mask : pd.Series bool) (l : Z) (b : bool) :
  pd.mask_lookup mask l = Some b → (l, b) ∈ mask.
Proof.
  induction mask as [|[l' b'] mask IH]; simpl; [done|].
  destruct (Z.eqb_spec l' l) as [->|Hne].
  - intros [= <-]. by left.
  - intros H. right. by apply IH.
Qed.

Lemma mask_lookup_covered (mask : pd.Series bool) (l : Z) :
  l ∈ map fst mask → is_Some (pd.mask_lookup mask l).
Proof.
  induction mask as [|[l' b'] mask IH]; simpl.
  - intros H. inversion H.
  - intros H. destruct (Z.eqb_spec l' l) as [->|Hne]; [eauto|].
    apply IH. apply elem_of_cons in H as [->|H]; [done | exact H].
Qed.

Lemma take_rows_flagged (mask : pd.Series bool) :
  ∀ rs r, map fst mask = map pd.label rs →
          r ∈ pd.take_rows (map snd mask) rs → (pd.label r, true) ∈ mask.
Proof.
  induction mask as [|[l b] mask IH]; intros [|r0 rs] r; simpl; try done.
  - intros _ H. inversion H.
  - intros [= -> Hrest]. destruct b.
    + intros H. apply elem_of_cons in H as [->|H]; [by left|].
      right. by eapply IH.
    + intros H. right. by eapply IH.
Qed.

Lemma align_rows_flagged (mask : pd.Series bool) (rs kept : list pd.Row)
      (r : pd.Row) :
  pd.align_rows mask rs = Return kept → r ∈ kept → (pd.label r, true) ∈ mask.
Proof.
  revert kept. induction rs as [|r0 rs IH]; intros kept; simpl.
  - intros [= <-] H. inversion H.
  - destruct (pd.mask_lookup mask (pd.label r0)) as [b|] eqn:E; [|done].
    destruct (pd.align_rows mask rs) as [k|e] eqn:Ea; simpl; [|done].
    intros [= <-]. destruct b.
    + intros H. apply elem_of_cons in H as [->|H];
        [by apply mask_lookup_Some | by eapply IH].
    + intros H. by eapply IH.
Qed.

(** [df[mask]] keeps only rows whose label the mask flags. *)
Lemma getitem_mask_flagged (d u : pd.DataFrame) (mask : pd.Series bool)
      (r : pd.Row) :
  pd.getitem_mask d mask = Return u → r ∈ pd.rows u →
  (pd.label r, true) ∈ mask.
Proof.
  unfold pd.getitem_mask, pd.index_equal. case_bool_decide as Hidx.
  - intros [= <-]. simpl. by apply take_rows_flagged.
  - destruct (pd.align_rows mask (pd.rows d)) as [k|e] eqn:E; simpl; [|done].
    intros [= <-]. simpl. by eapply align_rows_flagged.
Qed.

Lemma sublist_map {A B} (f : A → B) (l1 l2 : list A) :
  sublist l1 l2 → sublist (map f l1) (map f l2).
Proof. induction 1; simpl; by constructor. Qed.

Lemma elem_of_map_label (rs : list pd.Row) (r : pd.Row) :
  r ∈ rs → pd.label r ∈ map pd.label rs.
Proof.
  induction 1 as [|r0 r' rs' H IH]; simpl; [by left | by right].
Qed.

Lemma map_label_elem (rs : list pd.Row) (l : Z) :
  l ∈ map pd.label rs → ∃ r, r ∈ rs ∧ pd.label r = l.
Proof.
  induction rs as [|r0 rs IH]; simpl; intros H; [inversion H|].
  apply elem_of_cons in H as [->|H].
  - exists r0. split; [by left | done].
  - destruct (IH H) as (r & Hr & Hl). exists r. split; [by right | done].
Qed.

Section Scrubbing.
Variable strptime : string -> string -> option Z.
Variable COMMON_TICK_DATE_FORMAT : string.

Local Abbreviation by_start_date :=
  (filter_by_start_date strptime COMMON_TICK_DATE_FORMAT).
Local Abbreviation the_scrub_result :=
  (scrub_result strptime COMMON_TICK_DATE_FORMAT).

(** Each scrubbing step only drops rows and never loses a listed
    column. *)
Lemma filter_by_start_date_frame (a : args) (cl : list string)
      (u : pd.DataFrame) :
  by_start_date a cl = Return u →
  sublist (map pd.label (pd.rows u)) (map pd.label (pd.rows (df a))) ∧
  pd.columns u ⊆ pd.columns (df a) ∧
  ∀ k, k ∈ cl → k ∈ pd.columns (df a) → k ∈ pd.columns u.
Proof.
  unfold filter_by_start_date.
  destruct (start_date a) as [text|]; [|by intros [= <-]].
  destruct (String.eqb text ""); [by intros [= <-]|].
  destruct (parse_start_date strptime COMMON_TICK_DATE_FORMAT text) as [v|e];
    simpl; [|done].
  destruct (pd.getitem_col (df a) (date_col a)) as [dates|e]; simpl; [|done].
  destruct (pd.getitem_mask (df a) (pd.ge dates v)) as [kept|e] eqn:Em; simpl;
    [|done].
  intros Hsel. split; [|split].
  - rewrite (getitem_cols_labels _ _ _ Hsel). apply sublist_map.
    by eapply getitem_mask_sublist.
  - apply getitem_mask_frame in Em as [<- _].
    by eapply getitem_cols_columns.
  - intros k Hk _. by apply (getitem_cols_names _ _ _ Hsel).
Qed.

Lemma filter_by_df_filter_frame (a : args) (cl : list string)
      (u1 u2 : pd.DataFrame) :
  filter_by_df_filter a cl u1 = Return u2 →
  sublist (map pd.label (pd.rows u2)) (map pd.label (pd.rows u1)) ∧
  pd.columns u2 ⊆ pd.columns u1 ∧
  ∀ k, k ∈ cl → k ∈ pd.columns u1 → k ∈ pd.columns u2.
Proof.
  unfold filter_by_df_filter.
  destruct (hasattr_to_json (df_filter a)); [|by intros [= <-]].
  destruct (df_filter a) as [|mask| |]; try by intros [= <-].
  destruct (pd.getitem_mask u1 mask) as [kept|e] eqn:Em; simpl; [|done].
  intros Hsel. split; [|split].
  - rewrite (getitem_cols_labels _ _ _ Hsel). apply sublist_map.
    by eapply getitem_mask_sublist.
  - apply getitem_mask_frame in Em as [<- _].
    by eapply getitem_cols_columns.
  - intros k Hk _. by apply (getitem_cols_names _ _ _ Hsel).
Qed.

Lemma scrub_result_frame (a : args) (cl : list string) (u : pd.DataFrame) :
  the_scrub_result a cl = Return u →
  sublist (map pd.label (pd.rows u)) (map pd.label (pd.rows (df a))) ∧
  pd.columns u ⊆ pd.columns (df a) ∧
  ∀ k, k ∈ cl → k ∈ pd.columns (df a) → k ∈ pd.columns u.
Proof.
  unfold scrub_result.
  destruct (by_start_date a cl) as [u1|e] eqn:E1; simpl; [|done].
  destruct (filter_by_df_filter a cl u1) as [u2|e] eqn:E2; simpl; [|done].
  intros [= <-].
  apply filter_by_start_date_frame in E1 as (S1 & C1 & K1).
  apply filter_by_df_filter_frame in E2 as (S2 & C2 & K2).
  split; [|split].
  - etrans; [|exact S1]. etrans; [|exact S2].
    destruct (dropna_for_all a); [|done].
    apply sublist_map, dropna_sublist.
  - intros k Hk. apply C1, C2. by destruct (dropna_for_all a).
  - intros k Hk Hd.
    assert (k ∈ pd.columns u2) as H2 by auto.
    by destruct (dropna_for_all a).
Qed.

(** Why the scrubbing steps can fail. *)
Lemma filter_by_start_date_Raise (a : args) (cl : list string) (e : exn) :
  by_start_date a cl = Raise e →
  (∃ text, start_date a = Some text ∧ text ≠ ""%string ∧
           strptime text COMMON_TICK_DATE_FORMAT = None ∧
           e = ValueError text) ∨
  (truthy (start_date a) = true ∧
   ∃ k, e = KeyError k ∧ (k = date_col a ∨ k ∈ cl) ∧ k ∉ pd.columns (df a)).
Proof.
  unfold filter_by_start_date, truthy.
  destruct (start_date a) as [text|]; [|done].
  destruct (String.eqb_spec text "") as [->|Hne]; [done|].
  unfold parse_start_date.
  destruct (strptime text COMMON_TICK_DATE_FORMAT) as [v|] eqn:Ep; simpl.
  - destruct (pd.getitem_col (df a) (date_col a)) as [dates|e'] eqn:Ec; simpl.
    + destruct (getitem_mask_ge_total _ _ _ v Ec) as [kept Em].
      rewrite Em. simpl. intros Hsel. right.
      split; [by destruct text|].
      apply getitem_cols_Raise in Hsel as (k & -> & Hk & Hnot).
      apply getitem_mask_frame in Em as [Hcols _]. rewrite Hcols in Hnot.
      exists k. split; [done|]. split; [by right | done].
    + intros [= <-]. right. split; [by destruct text|].
      apply getitem_col_Raise in Ec as [-> Hnot].
      exists (date_col a). split; [done|]. split; [by left | done].
  - intros [= <-]. left. by exists text.
Qed.

Lemma filter_by_df_filter_Raise (a : args) (cl : list string)
      (u1 : pd.DataFrame) (e : exn) :
  filter_by_df_filter a cl u1 = Raise e →
  ∃ mask, df_filter a = FilterSeries mask ∧
          ((e = IndexingError ∧ uncovered mask u1) ∨
           (∃ k, e = KeyError k ∧ k ∈ cl ∧ k ∉ pd.columns u1)).
Proof.
  unfold filter_by_df_filter.
  destruct (df_filter a) as [|mask| |]; simpl; try done.
  intros H. exists mask. split; [done|].
  destruct (pd.getitem_mask u1 mask) as [kept|e'] eqn:Em; simpl in H.
  - right. apply getitem_cols_Raise in H as (k & -> & Hk & Hnot).
    apply getitem_mask_frame in Em as [Hcols _]. rewrite Hcols in Hnot. eauto.
  - injection H as <-. left. by apply getitem_mask_Raise.
Qed.

Lemma uncovered_sublist (mask : pd.Series bool) (u d : pd.DataFrame) :
  sublist (map pd.label (pd.rows u)) (map pd.label (pd.rows d)) →
  uncovered mask u → uncovered mask d.
Proof.
  intros Hsub (r & Hr & Hl).
  assert (pd.label r ∈ map pd.label (pd.rows d)) as Hin.
  { eapply elem_of_sublist; [|exact Hsub].
    by apply elem_of_map_label. }
  apply map_label_elem in Hin as (r' & Hr' & Heq).
  exists r'. split; [done|]. by rewrite Heq.
Qed.

Lemma scrub_result_Raise (a : args) (cl : list string) (e : exn) :
  the_scrub_result a cl = Raise e →
  (∃ text, start_date a = Some text ∧ text ≠ ""%string ∧
           strptime text COMMON_TICK_DATE_FORMAT = None ∧
           e = ValueError text) ∨
  ((truthy (start_date a) = true ∨ hasattr_to_json (df_filter a) = true) ∧
   ∃ k, e = KeyError k ∧ (k = date_col a ∨ k ∈ cl) ∧ k ∉ pd.columns (df a)) ∨
  (e = IndexingError ∧
   ∃ mask, df_filter a = FilterSeries mask ∧ uncovered mask (df a)).
Proof.
  unfold scrub_result.
  destruct (by_start_date a cl) as [u1|e1] eqn:E1; simpl.
  - destruct (filter_by_df_filter a cl u1) as [u2|e2] eqn:E2; simpl; [done|].
    intros [= <-]. right.
    apply filter_by_start_date_frame in E1 as (S1 & _ & K1).
    apply filter_by_df_filter_Raise in E2
      as (mask & Hf & [[-> Hun] | (k & -> & Hk & Hnot)]).
    + right. split; [done|]. exists mask. split; [done|].
      by eapply uncovered_sublist.
    + left. split; [right; by rewrite Hf|].
      exists k. split; [done|]. split; [by right|]. intros Hd. auto.
  - intros [= <-].
    apply filter_by_start_date_Raise in E1 as [H | [Ht H]]; [by left|].
    right. left. split; [by left | done].
Qed.

(** X14: scrubbing only drops rows: the index labels of the frame it
    yields are, in order, among those of the dataset, its columns are
    columns of the dataset, and no listed column of the dataset is
    lost. *)
Theorem scrub_only_drops_rows (a : args) (cl : list string) (s s' : plt.state)
        (u : pd.DataFrame) :
  scrub strptime COMMON_TICK_DATE_FORMAT a cl s = (Return u, s') →
  sublist (map pd.label (pd.rows u)) (map pd.label (pd.rows (df a))) ∧
  pd.columns u ⊆ pd.columns (df a) ∧
  ∀ k, k ∈ cl → k ∈ pd.columns (df a) → k ∈ pd.columns u.
Proof.
  intros H. apply scrub_result_Return in H. by apply scrub_result_frame.
Qed.

(** X15: with a Series [df_filter], every row of the scrubbed frame
    carries a label that the filter flags [True]. *)
Theorem series_filter_keeps_flagged_rows (a : args) (cl : list string)
        (s s' : plt.state) (u : pd.DataFrame) (mask : pd.Series bool)
        (r : pd.Row) :
  df_filter a = FilterSeries mask →
  scrub strptime COMMON_TICK_DATE_FORMAT a cl s = (Return u, s') →
  r ∈ pd.rows u → (pd.label r, true) ∈ mask.
Proof.
  intros Hf H Hr. apply scrub_Return in H as (u1 & u2 & _ & H2 & ->).
  assert (r ∈ pd.rows u2) as Hr2.
  { destruct (dropna_for_all a); [|done]. by apply (dropna_frame u2). }
  unfold filter_by_df_filter in H2. rewrite Hf in H2. simpl in H2.
  destruct (pd.getitem_mask u1 mask) as [kept|e] eqn:Em; simpl in H2; [|done].
  apply elem_of_map_label in Hr2.
  rewrite (getitem_cols_labels _ _ _ H2) in Hr2.
  apply map_label_elem in Hr2 as (r' & Hr' & <-).
  by eapply getitem_mask_flagged.
Qed.

End Scrubbing.

(** ** What was drawn, and why a call raises *)

Lemma drawn_for_columns (a : args) (use_df : pd.DataFrame) (h : nat)
      (nd : node) (drawn : list plt.Artist) :
  drawn_for a use_df h nd = Some drawn →
  date_col a ∈ pd.columns use_df ∧ column nd ∈ pd.columns use_df.
Proof.
  unfold drawn_for.
  destruct (pd.getitem_cols use_df [date_col a; column nd]) as [frame|e] eqn:E;
    [|done].
  intros _.
  assert (∀ k, k ∈ [date_col a; column nd] → k ∈ pd.columns use_df) as Hk.
  { intros k Hin. destruct (decide (k ∈ pd.columns use_df)) as [|Hnot]; [done|].
    destruct (getitem_cols_missing _ _ _ Hin Hnot) as [e He].
    rewrite He in E. discriminate. }
  split; apply Hk; [by left | right; by left].
Qed.

(** A series other than the date column leaves at least one artist. *)
Lemma drawn_for_nonempty (a : args) (use_df : pd.DataFrame) (h : nat)
      (nd : node) (drawn : list plt.Artist) :
  drawn_for a use_df h nd = Some drawn → column nd ≠ date_col a →
  drawn ≠ [].
Proof.
  unfold drawn_for.
  destruct (pd.getitem_cols use_df [date_col a; column nd]) as [frame|e] eqn:E;
    [|done].
  destruct (pd.positions (date_col a) (pd.columns frame)) as [|px pxs]; [done|].
  intros [= <-] Hne.
  assert (column nd ∈ pd.columns frame) as Hin.
  { apply (getitem_cols_names _ _ _ E). right. by left. }
  apply list_elem_of_lookup in Hin as [i Hi].
  assert (plt.mkArtist h (column nd) (color nd) (plot_kind_of a)
            (map (λ r, pd.cell_at r px) (pd.rows frame))
            (map (λ r, pd.cell_at r i) (pd.rows frame))
          ∈ drawn_artists frame (date_col a) px (plot_kind_of a) h (color nd))
    as Hart.
  { unfold drawn_artists. apply list_elem_of_omap. exists (i, column nd).
    split.
    - apply list_elem_of_lookup. exists i. rewrite list_lookup_imap, Hi. done.
    - simpl. by destruct (String.eqb_spec (column nd) (date_col a)). }
  intros Hnil. rewrite Hnil in Hart. inversion Hart.
Qed.

(** Cells read at a column position of a complete row are present. *)
Lemma key_positions_bound (keys cols : list string) (qs : list nat) (q : nat) :
  pd.key_positions keys cols = Return qs → q ∈ qs → q < length cols.
Proof.
  revert qs. induction keys as [|k ks IH]; intros qs; simpl.
  - intros [= <-] H. inversion H.
  - destruct (pd.positions k cols) as [|p ps] eqn:Ep; [done|].
    destruct (pd.key_positions ks cols) as [rs|e]; simpl; [|done].
    intros [= <-] Hq. change (q ∈ (p :: ps) ++ rs) in Hq.
    apply elem_of_app in Hq as [Hq|Hq]; [|by eapply IH].
    rewrite <- Ep in Hq. apply positions_spec in Hq.
    by eapply lookup_lt_Some.
Qed.

Lemma drawn_for_complete (a : args) (use_df : pd.DataFrame) (h : nat)
      (nd : node) (drawn : list plt.Artist) (art : plt.Artist) :
  (∀ r p, r ∈ pd.rows use_df → p < length (pd.columns use_df) →
          is_Some (pd.cell_at r p)) →
  drawn_for a use_df h nd = Some drawn → art ∈ drawn →
  Forall is_Some (plt.art_x art) ∧ Forall is_Some (plt.art_y art).
Proof.
  intros Hfull. unfold drawn_for, pd.getitem_cols.
  destruct (pd.key_positions [date_col a; column nd] (pd.columns use_df))
    as [qs|e] eqn:E; simpl; [|done].
  destruct (pd.positions (date_col a)
              (map (λ p, nth p (pd.columns use_df) ""%string) qs))
    as [|px pxs] eqn:Ep; [done|].
  intros [= <-]. unfold drawn_artists. simpl. intros Hart.
  assert (∀ r q, r ∈ pd.rows use_df → q < length qs →
                 is_Some (pd.cell_at (pd.project_row qs r) q)) as Hcell.
  { intros r q Hr Hq. unfold pd.cell_at at 1, pd.project_row. simpl.
    rewrite nth_lookup.
    destruct (qs !! q) as [p|] eqn:Eq;
      [|apply lookup_ge_None in Eq; lia].
    change (map (pd.cell_at r) qs) with (pd.cell_at r <$> qs).
    rewrite list_lookup_fmap, Eq. simpl. apply Hfull; [done|].
    eapply key_positions_bound; [exact E|]. by eapply list_elem_of_lookup_2. }
  assert (px < length qs) as Hpx.
  { assert (px ∈ pd.positions (date_col a)
                   (map (λ p, nth p (pd.columns use_df) ""%string) qs)) as Hin
      by (rewrite Ep; by left).
    apply positions_spec in Hin. apply lookup_lt_Some in Hin.
    by rewrite length_map in Hin. }
  apply list_elem_of_omap in Hart as ([p c] & Hpc & Hsome). simpl in Hsome.
  destruct (String.eqb c (date_col a)); [done|]. injection Hsome as <-. simpl.
  apply list_elem_of_lookup in Hpc as [i Hi]. rewrite list_lookup_imap in Hi.
  destruct (map (λ p, nth p (pd.columns use_df) ""%string) qs !! i)
    as [c'|] eqn:Ec; [|done].
  simpl in Hi. injection Hi as <- <-.
  apply lookup_lt_Some in Ec. rewrite length_map in Ec.
  split; apply Forall_forall; intros y Hy;
    apply list_elem_of_In, in_map_iff in Hy as (r' & <- & Hr');
    apply in_map_iff in Hr' as (r & <- & Hr);
    apply list_elem_of_In in Hr; by apply Hcell.
Qed.

Section Diagnosis.
Variable strptime : string -> string -> option Z.
Variable COMMON_TICK_DATE_FORMAT : string.
Variable PLOT_COLORS : string -> string.
Variable now_strftime : string -> string.
Variable auto_ylim : list plt.Artist -> float * float.

Local Abbreviation run :=
  (plot_trading_history strptime COMMON_TICK_DATE_FORMAT PLOT_COLORS
                        now_strftime auto_ylim).
Local Abbreviation the_scrub_result a :=
  (scrub_result strptime COMMON_TICK_DATE_FORMAT a (column_list PLOT_COLORS a)).

Lemma all_plots_slots (a : args) :
  length (all_plots PLOT_COLORS a) = length (selected_slots a).
Proof. by rewrite <- (all_plots_columns PLOT_COLORS a), length_map. Qed.

Lemma all_plots_listed (a : args) (nd : node) :
  nd ∈ all_plots PLOT_COLORS a → column nd ∈ selected_slots a.
Proof.
  intros H. rewrite <- (all_plots_columns PLOT_COLORS a).
  apply list_elem_of_In, in_map, list_elem_of_In, H.
Qed.

(** The axes of a returning call, position by position. *)
Lemma returned_axes (a : args) (s s' : plt.state) (res : result) (i : nat)
      (ax : plt.Axes) :
  run a s = (Return res, s') → plt.axes s' !! i = Some ax →
  ∃ use_df L ax0,
    the_scrub_result a = Return use_df ∧
    figure_axes auto_ylim a use_df (all_plots PLOT_COLORS a) = Some L ∧
    plt.axes s' = final_axes a L ∧
    L !! i = Some ax0 ∧ ax = finish a L i ax0.
Proof.
  intros H Hi.
  apply run_Return_inv in H as (use_df & L & Hs & HL & -> & ->).
  simpl in Hi. rewrite final_axes_lookup in Hi.
  destruct (L !! i) as [ax0|] eqn:E; [|done]. injection Hi as <-.
  exists use_df, L, ax0. by repeat split.
Qed.

(** Why a run of the model raises, and what it leaves behind. *)
Lemma run_Raise_inv (a : args) (s s' : plt.state) (e : exn) :
  run a s = (Raise e, s') →
  (the_scrub_result a = Raise e ∧
   plt.fig_num s' = plt.fig_num s ∧ plt.figsize s' = plt.figsize s ∧
   plt.axes s' = plt.axes s ∧ plt.current s' = plt.current s ∧
   figure_calls (plt.calls s') = figure_calls (plt.calls s)) ∨
  (∃ use_df nd k,
      the_scrub_result a = Return use_df ∧ nd ∈ all_plots PLOT_COLORS a ∧
      e = KeyError k ∧ k ∈ [date_col a; column nd] ∧
      (k ∉ pd.columns use_df) ∧
      plt.fig_num s' = S (plt.fig_num s) ∧
      plt.figsize s' = (width a, height a) ∧
      figure_calls (plt.calls s')
      = plt.SetCommonSeabornFonts :: figure_calls (plt.calls s)).
Proof.
  intros H.
  destruct (run_cases strptime COMMON_TICK_DATE_FORMAT PLOT_COLORS
                      now_strftime auto_ylim a s)
    as [(e' & Hs & E) | [(use_df & L & _ & _ & E)
                        | (use_df & nd & s'' & Hs & Hin & Hnone & E & Hfn
                           & Hfs & Hcs)]];
    rewrite E in H; [| discriminate |].
  - injection H as <- <-. left. simpl.
    by rewrite figure_calls_scrub_calls, figure_calls_logged.
  - injection H as <- <-. right.
    destruct (drawn_for_None _ _ _ _ Hnone) as (k & Hk & Hin' & Hnot).
    exists use_df, nd, k. by repeat split.
Qed.

End Diagnosis.

(** ** Outcomes of the call *)

Section Outcomes.
Variable strptime : string -> string -> option Z.
Variable COMMON_TICK_DATE_FORMAT : string.
Variable PLOT_COLORS : string -> string.
Variable now_strftime : string -> string.
Variable auto_ylim : list plt.Artist -> float * float.

Local Abbreviation run :=
  (plot_trading_history strptime COMMON_TICK_DATE_FORMAT PLOT_COLORS
                        now_strftime auto_ylim).
Local Abbreviation the_scrub_result a :=
  (scrub_result strptime COMMON_TICK_DATE_FORMAT a (column_list PLOT_COLORS a)).

(** C9: whenever the call returns, the envelope it returns has status
    SUCCESS and no error, and its [fig] is the handle of the figure in
    the pyplot state the call leaves: a new figure, numbered after the
    figures that existed at entry, of the size asked for and with at
    least one axes. *)
Theorem returned_envelope_is_success (a : args) (s s' : plt.state)
        (res : result) :
  run a s = (Return res, s') →
  status res = SUCCESS ∧ err res = None ∧
  rec res !! "fig" = Some (PyFigure (plt.fig_num s')) ∧
  plt.fig_num s' = S (plt.fig_num s) ∧
  plt.figsize s' = (width a, height a) ∧
  plt.axes s' ≠ [].
Proof.
  intros H. apply run_Return_inv in H as (use_df & L & Hs & HL & -> & ->).
  cbn [status err rec build_result plt.fig_num plt.figsize plt.axes].
  split; [done|]. split; [done|].
  split; [unfold final_rec; apply lookup_insert_eq|].
  split; [done|]. split; [done|].
  intros Hnil. apply (f_equal length) in Hnil.
  rewrite final_axes_length, (figure_axes_length _ _ _ _ _ HL) in Hnil.
  simpl in Hnil. lia.
Qed.

(** X3: a returning call opens one new figure of the size asked for,
    with one axes per selected series (one axes when none is selected);
    the current axes is the last one made, and [rec['fig']] is the new
    figure. *)
Theorem returning_call_opens_one_figure (a : args) (s s' : plt.state)
        (res : result) :
  run a s = (Return res, s') →
  plt.fig_num s' = S (plt.fig_num s) ∧
  plt.figsize s' = (width a, height a) ∧
  length (plt.axes s') = Nat.max 1 (length (selected_slots a)) ∧
  plt.current s' = length (plt.axes s') - 1 ∧
  rec res !! "fig" = Some (PyFigure (plt.fig_num s')).
Proof.
  intros H. apply run_Return_inv in H as (use_df & L & Hs & HL & -> & ->).
  simpl. rewrite final_axes_length, (figure_axes_length _ _ _ _ _ HL).
  rewrite all_plots_slots. repeat split; try done.
  unfold final_rec. apply lookup_insert_eq.
Qed.

(** X4: the legend a returning call leaves on the primary axes lists,
    in the order of the axes, every line of every axes of the figure,
    each under its own label, with [loc='best'] and a shadow. *)
Theorem legend_lists_every_line (a : args) (s s' : plt.state) (res : result) :
  run a s = (Return res, s') →
  ∃ ax, plt.axes s' !! 0 = Some ax ∧
        plt.ax_legend ax
        = Some (plt.mkLegend (legend_lines (plt.axes s'))
                             (map plt.art_label (legend_lines (plt.axes s')))
                             "best" true).
Proof.
  intros H. apply run_Return_inv in H as (use_df & L & Hs & HL & -> & ->).
  simpl. rewrite legend_lines_final, final_axes_lookup.
  pose proof (figure_axes_length _ _ _ _ _ HL) as Hlen.
  destruct L as [|ax0 L]; [simpl in Hlen; lia|]. simpl.
  eexists. split; [reflexivity|]. unfold finish.
  rewrite !bool_decide_eq_true_2 by done. by case_bool_decide.
Qed.

(** X5: the series at position [i] of [all_plots] is drawn on the axes
    [i] of the figure: every artist of that axes lives on it, has the
    colour of the series and the kind [linestyle] selects, is labelled
    with the column, and has one point per row of the scrubbed frame;
    a series other than the date column leaves at least one artist. *)
Theorem series_is_drawn_on_its_own_axes (a : args) (s s' : plt.state)
        (res : result) (i : nat) (nd : node) :
  run a s = (Return res, s') → all_plots PLOT_COLORS a !! i = Some nd →
  ∃ use_df ax,
    the_scrub_result a = Return use_df ∧ plt.axes s' !! i = Some ax ∧
    (column nd ≠ date_col a → plt.ax_artists ax ≠ []) ∧
    ∀ art, art ∈ plt.ax_artists ax →
           plt.art_host art = i ∧ plt.art_color art = color nd ∧
           plt.art_kind art = plot_kind_of a ∧
           plt.art_label art = column nd ∧
           length (plt.art_x art) = length (pd.rows use_df) ∧
           length (plt.art_y art) = length (pd.rows use_df).
Proof.
  intros H Hi. apply run_Return_inv in H as (use_df & L & Hs & HL & -> & ->).
  destruct (figure_axes_lookup _ _ _ _ _ _ _ HL Hi) as (drawn & Hd & HLi).
  simpl. rewrite final_axes_lookup, HLi. simpl.
  eexists use_df, _. split; [done|]. split; [reflexivity|].
  destruct (finish_geom a L i
              (if bool_decide (i = 0) then primary_axes auto_ylim a drawn
               else twin_axes auto_ylim a drawn)) as (-> & _ & _).
  assert (plt.ax_artists
            (if bool_decide (i = 0) then primary_axes auto_ylim a drawn
             else twin_axes auto_ylim a drawn) = drawn) as ->
    by (by case_bool_decide).
  split; [intros Hne; by eapply drawn_for_nonempty|].
  intros art Hart.
  destruct (drawn_for_artists _ _ _ _ _ _ Hd Hart)
    as (? & ? & ? & ? & _ & ? & ?).
  by repeat split.
Qed.

(** X6: apart from log lines, a returning call makes exactly these
    calls on pyplot, the figure and [ae_charts], in this order:
    [set_common_seaborn_fonts], [autofmt_xdate], [add_footnote] (with
    [footnote_text], or the dated default when that is empty),
    [tight_layout], [show], and then [show] again or an empty [plot]. *)
Theorem figure_level_calls_in_order (a : args) (s s' : plt.state)
        (res : result) :
  run a s = (Return res, s') →
  figure_calls (plt.calls s')
  = (if show_plot a then plt.Show else plt.PlotNothing)
      :: plt.Show :: plt.TightLayout
      :: plt.AddFootnote
           (plt.mkFootnote
              (if truthy (footnote_text a)
               then default ""%string (footnote_text a)
               else "algotraders - " +:+ now_strftime COMMON_TICK_DATE_FORMAT)
              (footnote_xpos a) (footnote_ypos a) (footnote_color a)
              (footnote_fontsize a))
      :: plt.AutofmtXdate :: plt.SetCommonSeabornFonts
      :: figure_calls (plt.calls s).
Proof.
  intros H. apply run_Return_inv in H as (use_df & L & Hs & HL & -> & ->).
  unfold final_calls, use_footnote. cbn [plt.calls].
  assert (∀ c cs, is_log c = false →
                  figure_calls (c :: cs) = c :: figure_calls cs) as Hcons.
  { intros c cs Hc. unfold figure_calls. simpl. by rewrite Hc. }
  rewrite !Hcons by (by destruct (show_plot a)).
  rewrite figure_calls_iter_logged, Hcons by done.
  by rewrite figure_calls_scrub_calls, figure_calls_logged.
Qed.

(** X8: a non-empty [start_date] that does not parse makes the call
    raise [ValueError] on it, whatever the other arguments, before any
    figure is created. *)
Theorem malformed_start_date_raises_ValueError (a : args) (s : plt.state)
        (text : string) :
  start_date a = Some text → text ≠ ""%string →
  strptime text COMMON_TICK_DATE_FORMAT = None →
  ∃ s', run a s = (Raise (ValueError text), s') ∧
        plt.fig_num s' = plt.fig_num s ∧ plt.axes s' = plt.axes s ∧
        figure_calls (plt.calls s') = figure_calls (plt.calls s).
Proof.
  intros Hsd Hne Hp.
  assert (the_scrub_result a = Raise (ValueError text)) as Hs.
  { unfold scrub_result, filter_by_start_date, parse_start_date.
    rewrite Hsd, Hp. by destruct (String.eqb_spec text ""). }
  eexists. split; [by apply run_scrub_raise_eq|]. simpl.
  split; [done|]. split; [done|].
  by rewrite figure_calls_scrub_calls, figure_calls_logged.
Qed.

(** The exceptions of the model: a rejected [start_date], a column the
    dataset lacks, a Series filter that cannot be aligned. *)
Lemma run_Raise_kinds (a : args) (s s' : plt.state) (e : exn) :
  run a s = (Raise e, s') →
  (∃ text, start_date a = Some text ∧ text ≠ ""%string ∧
           strptime text COMMON_TICK_DATE_FORMAT = None ∧
           e = ValueError text) ∨
  (∃ k, e = KeyError k ∧ (k = date_col a ∨ k ∈ selected_slots a) ∧
        k ∉ pd.columns (df a)) ∨
  (e = IndexingError ∧
   ∃ mask, df_filter a = FilterSeries mask ∧ uncovered mask (df a)).
Proof.
  intros H.
  apply run_Raise_inv in H
    as [(Hs & _) | (use_df & nd & k & Hs & Hnd & -> & Hk & Hnot & _)].
  - apply scrub_result_Raise in Hs
      as [Hv | [(_ & k & -> & Hk & Hnot) | Hi]]; [by left | | by right; right].
    right. left. exists k. split; [done|]. split; [|done].
    destruct Hk as [->|Hk]; [by left|].
    rewrite column_list_eq in Hk.
    apply elem_of_cons in Hk as [->|Hk]; [by left | by right].
  - right. left. exists k. split; [done|].
    assert (k = date_col a ∨ k ∈ selected_slots a) as Hsel.
    { apply elem_of_cons in Hk as [->|Hk]; [by left|].
      apply list_elem_of_singleton in Hk as ->. right.
      by apply (all_plots_listed PLOT_COLORS). }
    split; [done|]. intros Hd. apply Hnot.
    apply (scrub_result_frame _ _ _ _ _ Hs); [|done].
    rewrite column_list_eq.
    destruct Hsel as [->|Hsel]; [by left | by right].
Qed.

(** X9: what the look-ups of the function raise is explained by its
    arguments: a [KeyError] always names the date column or a selected
    series column that the dataset lacks, an [IndexingError] always
    comes with a Series [df_filter] whose index misses the label of
    some row of the dataset, and no exception is a [NameError]: the
    read of [use_ax] at line 281 is reached only after a series has
    bound it. *)
Theorem look_up_errors_are_explained (a : args) (s s' : plt.state) (e : exn) :
  run a s = (Raise e, s') →
  (∀ k, e = KeyError k →
        (k = date_col a ∨ k ∈ selected_slots a) ∧ k ∉ pd.columns (df a)) ∧
  (e = IndexingError →
   ∃ mask, df_filter a = FilterSeries mask ∧ uncovered mask (df a)) ∧
  (∀ n, e ≠ NameError n).
Proof.
  intros H.
  apply run_Raise_kinds in H
    as [(text & _ & _ & _ & ->) | [(k' & -> & Hk & Hnot) | (-> & Hm)]].
  - split; [intros k [=]|]. split; [intros [=] | intros n [=]].
  - split; [by intros k [= <-]|]. split; [intros [=] | intros n [=]].
  - split; [intros k [=]|]. split; [done | intros n [=]].
Qed.

(** X10: when the dataset has the date column and every selected series
    column, [start_date] is empty or parses, and a Series [df_filter]
    has an entry for the label of every row, none of the look-ups of
    the function fails: the scrubbing steps return a frame, and every
    selection [use_df[[date_col, column_name]]] of the plotting loop
    finds its columns in it. *)
Theorem well_formed_call_finds_its_columns (a : args) (s : plt.state) :
  date_col a ∈ pd.columns (df a) →
  (∀ c, c ∈ selected_slots a → c ∈ pd.columns (df a)) →
  (∀ text, start_date a = Some text → text ≠ ""%string →
           is_Some (strptime text COMMON_TICK_DATE_FORMAT)) →
  (∀ mask, df_filter a = FilterSeries mask → ¬ uncovered mask (df a)) →
  ∃ use_df s',
    scrub strptime COMMON_TICK_DATE_FORMAT a (column_list PLOT_COLORS a) s
    = (Return use_df, s') ∧
    ∀ nd, nd ∈ all_plots PLOT_COLORS a →
          ∃ frame,
            pd.getitem_cols use_df [date_col a; column nd] = Return frame.
Proof.
  intros Hdate Hcols Hsd Hmask.
  assert (∀ k, k ∈ column_list PLOT_COLORS a → k ∈ pd.columns (df a))
    as Hall.
  { intros k Hk. rewrite column_list_eq in Hk.
    apply elem_of_cons in Hk as [->|Hk]; auto. }
  rewrite scrub_eq.
  destruct (the_scrub_result a) as [use_df|e] eqn:Hs.
  - eexists use_df, _. split; [reflexivity|]. intros nd Hnd.
    apply getitem_cols_total. intros k Hk.
    assert (k ∈ column_list PLOT_COLORS a) as Hin.
    { rewrite column_list_eq.
      apply elem_of_cons in Hk as [->|Hk]; [by left|].
      apply list_elem_of_singleton in Hk as ->. right.
      by apply (all_plots_listed PLOT_COLORS). }
    apply (scrub_result_frame _ _ _ _ _ Hs); [done | by apply Hall].
  - exfalso. apply scrub_result_Raise in Hs
      as [(text & Ht & Hne & Hp & _)
         | [(_ & k & _ & Hk & Hnot) | (_ & mask & Hf & Hun)]].
    + destruct (Hsd text Ht Hne) as [v Hv]. congruence.
    + apply Hnot. destruct Hk as [->|Hk]; [done | by apply Hall].
    + by apply (Hmask mask).
Qed.

End Outcomes.

Section Shaped.
Variable auto_ylim : list plt.Artist -> float * float.

(** Each axes the loop leaves is the untouched first axes of a call
    without series, or the axes of the series at its position. *)
Lemma figure_axes_inv (a : args) (use_df : pd.DataFrame) (nodes : list node)
      (L : list plt.Axes) (i : nat) (ax0 : plt.Axes) :
  figure_axes auto_ylim a use_df nodes = Some L → L !! i = Some ax0 →
  (nodes = [] ∧ ax0 = plt.new_axes) ∨
  (∃ nd drawn, nodes !! i = Some nd ∧
               drawn_for a use_df i nd = Some drawn ∧
               ax0 = if bool_decide (i = 0)
                     then primary_axes auto_ylim a drawn
                     else twin_axes auto_ylim a drawn).
Proof.
  intros HL Hi. destruct nodes as [|nd0 rest] eqn:En.
  - left. split; [done|]. simpl in HL. injection HL as <-.
    destruct i; simpl in Hi; [by injection Hi | done].
  - right. rewrite <- En in *.
    pose proof (figure_axes_length _ _ _ _ _ HL) as Hlen.
    assert (i < length nodes) as Hlt.
    { apply lookup_lt_Some in Hi. rewrite Hlen, En in Hi. rewrite En.
      simpl in *. lia. }
    destruct (nodes !! i) as [nd|] eqn:Ei;
      [|apply lookup_ge_None in Ei; lia].
    destruct (figure_axes_lookup _ _ _ _ _ _ _ HL Ei) as (drawn & Hd & HLi).
    rewrite HLi in Hi. injection Hi as <-. eauto.
Qed.

End Shaped.

Section Projected.
Variable strptime : string -> string -> option Z.
Variable COMMON_TICK_DATE_FORMAT : string.

(** Once a start date or a Series filter has re-projected the frame,
    it has every listed column. *)
Lemma scrub_result_projected (a : args) (cl : list string) (u : pd.DataFrame) :
  scrub_result strptime COMMON_TICK_DATE_FORMAT a cl = Return u →
  truthy (start_date a) = true ∨ hasattr_to_json (df_filter a) = true →
  ∀ k, k ∈ cl → k ∈ pd.columns u.
Proof.
  unfold scrub_result.
  destruct (filter_by_start_date strptime COMMON_TICK_DATE_FORMAT a cl)
    as [u1|e] eqn:E1; simpl; [|done].
  destruct (filter_by_df_filter a cl u1) as [u2|e] eqn:E2; simpl; [|done].
  intros [= <-] Hwhy k Hk.
  assert (k ∈ pd.columns u2) as H2; [|by destruct (dropna_for_all a)].
  destruct Hwhy as [Hsd|Hf].
  - apply (filter_by_df_filter_frame _ _ _ _ E2); [done|].
    unfold filter_by_start_date, truthy in E1, Hsd.
    destruct (start_date a) as [text|]; [|done].
    destruct (String.eqb text ""); [done|].
    destruct (parse_start_date strptime COMMON_TICK_DATE_FORMAT text)
      as [v|e]; simpl in E1; [|done].
    destruct (pd.getitem_col (df a) (date_col a)) as [dates|e]; simpl in E1;
      [|done].
    destruct (pd.getitem_mask (df a) (pd.ge dates v)) as [kept|e]; simpl in E1;
      [|done].
    by apply (getitem_cols_names _ _ _ E1).
  - unfold filter_by_df_filter in E2. rewrite Hf in E2.
    destruct (df_filter a) as [|mask| |]; try done.
    destruct (pd.getitem_mask u1 mask) as [kept|e]; simpl in E2; [|done].
    by apply (getitem_cols_names _ _ _ E2).
Qed.

Lemma scrub_result_unfiltered (a : args) (cl : list string) :
  truthy (start_date a) = false → hasattr_to_json (df_filter a) = false →
  scrub_result strptime COMMON_TICK_DATE_FORMAT a cl
  = Return (if dropna_for_all a then pd.dropna (df a) else df a).
Proof.
  intros Hsd Hf. unfold scrub_result, filter_by_start_date, filter_by_df_filter.
  rewrite Hf. unfold truthy in Hsd.
  destruct (start_date a) as [text|]; [|done].
  by destruct (String.eqb text "").
Qed.

End Projected.

Section Effects.
Variable strptime : string -> string -> option Z.
Variable COMMON_TICK_DATE_FORMAT : string.
Variable PLOT_COLORS : string -> string.
Variable now_strftime : string -> string.
Variable auto_ylim : list plt.Artist -> float * float.

Local Abbreviation run :=
  (plot_trading_history strptime COMMON_TICK_DATE_FORMAT PLOT_COLORS
                        now_strftime auto_ylim).
Local Abbreviation the_scrub_result a :=
  (scrub_result strptime COMMON_TICK_DATE_FORMAT a (column_list PLOT_COLORS a)).


(** X11: with a start date or a Series filter, a column the dataset
    lacks is found out while the dataset is scrubbed: the call raises
    before any figure is created, and pyplot is as it was. *)
Theorem missing_column_with_filters_fails_before_figure
        (a : args) (s : plt.state) (k : string) :
  truthy (start_date a) = true ∨ hasattr_to_json (df_filter a) = true →
  k = date_col a ∨ k ∈ selected_slots a → k ∉ pd.columns (df a) →
  ∃ e s', run a s = (Raise e, s') ∧
          plt.fig_num s' = plt.fig_num s ∧ plt.figsize s' = plt.figsize s ∧
          plt.axes s' = plt.axes s ∧ plt.current s' = plt.current s ∧
          figure_calls (plt.calls s') = figure_calls (plt.calls s).
Proof.
  intros Hwhy Hk Hnot.
  assert (k ∈ column_list PLOT_COLORS a) as Hin.
  { rewrite column_list_eq. destruct Hk as [->|Hk]; [by left | by right]. }
  destruct (the_scrub_result a) as [u|e] eqn:Hs.
  - exfalso. apply Hnot.
    apply (scrub_result_frame _ _ _ _ _ Hs).
    by apply (scrub_result_projected _ _ _ _ _ Hs Hwhy).
  - exists e. eexists. split; [by apply run_scrub_raise_eq|].
    cbn [plt.fig_num plt.figsize plt.axes plt.current plt.calls].
    split; [done|]. split; [done|]. split; [done|]. split; [done|].
    by rewrite figure_calls_scrub_calls, figure_calls_logged.
Qed.

(** X12: without a start date and without a Series filter, a call that
    raises [KeyError] does so in the plotting loop: the new figure has
    been created by then and is left behind, never shown. *)
Theorem KeyError_without_filters_leaves_figure (a : args) (s s' : plt.state)
        (k : string) :
  run a s = (Raise (KeyError k), s') →
  truthy (start_date a) = false → hasattr_to_json (df_filter a) = false →
  plt.fig_num s' = S (plt.fig_num s) ∧
  plt.figsize s' = (width a, height a) ∧
  plt.count_show (plt.calls s') = plt.count_show (plt.calls s).
Proof.
  intros H Hsd Hf.
  pose proof (scrub_result_unfiltered strptime COMMON_TICK_DATE_FORMAT a
                (column_list PLOT_COLORS a) Hsd Hf) as Hret.
  apply run_Raise_inv in H
    as [(Hs & _) | (use_df & nd & k' & Hs & Hnd & _ & Hk & Hnot & Hfn & Hfs
                    & Hcs)]; [congruence|].
  split; [done|]. split; [done|].
  rewrite <- (count_show_figure_calls (plt.calls s')), Hcs.
  apply count_show_figure_calls.
Qed.

(** X13: with [dropna_for_all], no point that a returning call has put
    on the figure has a missing date or a missing value. *)
Theorem dropna_for_all_plots_no_missing_value (a : args) (s s' : plt.state)
        (res : result) (ax : plt.Axes) (art : plt.Artist) :
  dropna_for_all a = true → run a s = (Return res, s') →
  ax ∈ plt.axes s' → art ∈ plt.ax_artists ax →
  Forall is_Some (plt.art_x art) ∧ Forall is_Some (plt.art_y art).
Proof.
  intros Hdrop H Hax Hart.
  apply list_elem_of_lookup in Hax as [i Hi].
  destruct (returned_axes _ _ _ _ _ _ _ _ _ _ _ H Hi)
    as (use_df & L & ax0 & Hs & HL & _ & HLi & ->).
  destruct (finish_geom a L i ax0) as (Heq & _ & _). rewrite Heq in Hart.
  destruct (figure_axes_inv _ _ _ _ _ _ _ HL HLi)
    as [[_ ->] | (nd & drawn & Hnd & Hd & ->)]; [inversion Hart|].
  assert (art ∈ drawn) as Hin by (by case_bool_decide).
  eapply drawn_for_complete; [|exact Hd | exact Hin].
  intros r p Hr Hp. unfold scrub_result in Hs. rewrite Hdrop in Hs.
  destruct (filter_by_start_date strptime COMMON_TICK_DATE_FORMAT a
              (column_list PLOT_COLORS a)) as [u1|e1]; simpl in Hs; [|done].
  destruct (filter_by_df_filter a (column_list PLOT_COLORS a) u1)
    as [u2|e2]; simpl in Hs; [|done].
  injection Hs as <-. by eapply dropna_complete.
Qed.


(** X17: the primary axes, and every twin axes unless [scale_y] is set,
    keeps the y-limits that autoscaling gives to what is drawn on it. *)
Theorem unscaled_axes_keep_automatic_limits (a : args) (s s' : plt.state)
        (res : result) (i : nat) (ax : plt.Axes) :
  run a s = (Return res, s') → plt.axes s' !! i = Some ax →
  i < length (selected_slots a) → i = 0 ∨ scale_y a = false →
  plt.ax_ylim ax = auto_ylim (plt.ax_artists ax).
Proof.
  intros H Hi Hlt Hwhy.
  destruct (returned_axes _ _ _ _ _ _ _ _ _ _ _ H Hi)
    as (use_df & L & ax0 & Hs & HL & _ & HLi & ->).
  destruct (finish_geom a L i ax0) as (-> & -> & _).
  destruct (figure_axes_inv _ _ _ _ _ _ _ HL HLi)
    as [[Hnil _] | (nd & drawn & Hnd & Hd & ->)].
  - rewrite <- (all_plots_slots PLOT_COLORS), Hnil in Hlt. simpl in Hlt. lia.
  - case_bool_decide; [done|]. destruct Hwhy as [->|Hsc]; [done|].
    unfold twin_axes. simpl. by rewrite Hsc.
Qed.

(** X18: the cosmetic calls each axes of a returning call has received,
    most recent first: the title on the first axes only; the axis
    labels on the last axes only, which is the first only when at most
    one series is selected; under them the grid and formatter settings
    of the plotting loop. *)
Theorem cosmetic_calls_of_each_axes (a : args) (s s' : plt.state)
        (res : result) (i : nat) (ax : plt.Axes) :
  run a s = (Return res, s') → plt.axes s' !! i = Some ax →
  plt.ax_calls ax
  = (if bool_decide (i = 0) then [plt.SetTitle (title a)] else [])
    ++ (if bool_decide (i = length (plt.axes s') - 1)
        then [plt.SetYlabel (ylabel a); plt.SetXlabel (xlabel a)] else [])
    ++ (if bool_decide (i = 0)
        then (if bool_decide (selected_slots a = []) then []
              else [plt.Grid true; plt.XaxisSetMinorFormatter (date_format a);
                    plt.SetFmtXdata (date_format a);
                    plt.XaxisGrid true "minor"])
        else [plt.YaxisSetTicklabels []; plt.YaxisGrid false;
              plt.XaxisGrid false "major"; plt.SetFmtXdata (date_format a)]).
Proof.
  intros H Hi.
  destruct (returned_axes _ _ _ _ _ _ _ _ _ _ _ H Hi)
    as (use_df & L & ax0 & Hs & HL & -> & HLi & ->).
  rewrite final_axes_length.
  pose proof (all_plots_slots PLOT_COLORS a) as Hk.
  destruct (figure_axes_inv _ _ _ _ _ _ _ HL HLi)
    as [[Hnil ->] | (nd & drawn & Hnd & Hd & ->)].
  - rewrite Hnil in HL, Hk. simpl in HL. injection HL as <-.
    destruct i as [|i]; [|done]. unfold finish. simpl.
    destruct (selected_slots a); [done | simpl in Hk; lia].
  - unfold finish.
    assert (selected_slots a ≠ []) as Hne.
    { intros Hnil. rewrite Hnil in Hk. simpl in Hk.
      apply lookup_lt_Some in Hnd. lia. }
    rewrite (bool_decide_eq_false_2 (selected_slots a = [])) by done.
    repeat case_bool_decide; try done; try lia.
Qed.

End Effects.

Section Quiet.
Variable strptime : string -> string -> option Z.
Variable COMMON_TICK_DATE_FORMAT : string.
Variable PLOT_COLORS : string -> string.
Variable now_strftime : string -> string.
Variable auto_ylim : list plt.Artist -> float * float.

Local Abbreviation run :=
  (plot_trading_history strptime COMMON_TICK_DATE_FORMAT PLOT_COLORS
                        now_strftime auto_ylim).

Lemma twins_for_verbose (b : bool) (a : args) (use_df : pd.DataFrame)
      (nodes : list node) :
  ∀ h, twins_for auto_ylim (set_verbose b a) use_df h nodes
       = twins_for auto_ylim a use_df h nodes.
Proof.
  induction nodes as [|nd rest IH]; intros h; simpl; [done|].
  by rewrite IH.
Qed.

Lemma figure_axes_verbose (b : bool) (a : args) (use_df : pd.DataFrame)
      (nodes : list node) :
  figure_axes auto_ylim (set_verbose b a) use_df nodes
  = figure_axes auto_ylim a use_df nodes.
Proof.
  destruct nodes as [|nd rest]; simpl; [done|].
  by rewrite twins_for_verbose.
Qed.

(** X20: [verbose] only adds log lines: with the flag changed, a
    returning call returns the same envelope and leaves the same
    figure, axes and calls on pyplot, the figure and [ae_charts]. *)
Theorem verbose_only_adds_log_lines (b : bool) (a : args) (s s' : plt.state)
        (res : result) :
  run a s = (Return res, s') →
  ∃ s'', run (set_verbose b a) s = (Return res, s'') ∧
         plt.fig_num s'' = plt.fig_num s' ∧ plt.figsize s'' = plt.figsize s' ∧
         plt.axes s'' = plt.axes s' ∧ plt.current s'' = plt.current s' ∧
         figure_calls (plt.calls s'') = figure_calls (plt.calls s').
Proof.
  intros H. apply run_Return_inv in H as (use_df & L & Hs & HL & -> & ->).
  rewrite <- (figure_axes_verbose b) in HL.
  eexists. split.
  - apply (run_return_eq strptime COMMON_TICK_DATE_FORMAT PLOT_COLORS
             now_strftime auto_ylim (set_verbose b a) use_df L s);
      [exact Hs | exact HL].
  - cbn [plt.fig_num plt.figsize plt.axes plt.current plt.calls].
    split; [done|]. split; [done|]. split; [done|]. split; [done|].
    unfold final_calls.
    assert (∀ c cs cs', is_log c = false →
                        figure_calls cs = figure_calls cs' →
                        figure_calls (c :: cs) = figure_calls (c :: cs'))
      as Hcons.
    { intros c cs cs' Hc Heq. unfold figure_calls in *. simpl.
      rewrite Hc. simpl. by rewrite Heq. }
    apply Hcons; [by destruct (show_plot a)|].
    do 4 (apply Hcons; [done|]).
    rewrite !figure_calls_iter_logged.
    apply Hcons; [done|].
    by rewrite !figure_calls_scrub_calls, !figure_calls_logged.
Qed.

(** X21: [scale_y] matters only to a second series: with at most one
    series selected the call behaves the same with the flag set and
    unset. *)
Theorem scale_y_needs_a_second_series (a : args) (s : plt.state) :
  length (selected_slots a) ≤ 1 →
  run (set_scale_y true a) s = run (set_scale_y false a) s.
Proof.
  intros Hone. unfold plot_trading_history.
  apply bind_ext; [reflexivity|]. intros u0 s0.
  apply bind_ext; [reflexivity|]. intros use_df s1.
  apply bind_ext; [reflexivity|]. intros u1 s2.
  apply bind_ext; [reflexivity|]. intros fig_ax s3.
  apply bind_ext; [|reflexivity].
  change (all_plots PLOT_COLORS (set_scale_y true a))
    with (all_plots PLOT_COLORS a).
  change (all_plots PLOT_COLORS (set_scale_y false a))
    with (all_plots PLOT_COLORS a).
  rewrite <- (all_plots_slots PLOT_COLORS) in Hone.
  destruct (all_plots PLOT_COLORS a) as [|nd [|nd' rest]];
    [reflexivity | reflexivity | simpl in Hone; lia].
Qed.

(** X22: the [rec] of a returned envelope has the five keys it was
    created with, [ax1] to [ax4] and [fig], and no other. *)
Theorem returned_rec_has_five_keys (a : args) (s s' : plt.state)
        (res : result) (key : string) :
  run a s = (Return res, s') →
  is_Some (rec res !! key)
  ↔ key ∈ ["ax1"; "ax2"; "ax3"; "ax4"; "fig"]%string.
Proof.
  intros H. apply run_Return_inv in H as (use_df & L & Hs & HL & -> & ->).
  pose proof (all_plots_length PLOT_COLORS a) as Hk.
  unfold build_result, final_rec, fill_slots. cbn [rec].
  generalize (S (plt.fig_num s)). intros n.
  assert (∀ h m, is_Some ((<["fig" := PyFigure n]>
                             (fold_left (λ r i, <["ax" +:+ pretty (i + 1)
                                                   := PyAxes h]> r)
                                        (seq 0 m) rec0)) !! key)
                 ↔ key = "fig"%string
                   ∨ (∃ i, i < m ∧ key = "ax" +:+ pretty (i + 1))
                   ∨ is_Some (rec0 !! key)) as Hgen.
  { intros h m. rewrite lookup_insert_is_Some'.
    assert (∀ j (r : gmap string pyval), is_Some (fold_left (λ r i, <["ax" +:+ pretty (i + 1)
                                                := PyAxes h]> r)
                                      (seq j m) r !! key)
                   ↔ (∃ i, j ≤ i < j + m ∧ key = "ax" +:+ pretty (i + 1))
                     ∨ is_Some (r !! key)) as Hfold.
    { induction m as [|m IH]; intros j r; simpl.
      - split; [by right|]. intros [(i & Hi & _)|Hr]; [lia | done].
      - rewrite IH, lookup_insert_is_Some'. split.
        + intros [(i & Hi & ->)|[<-|Hr]].
          * left. exists i. split; [lia | done].
          * left. exists j. split; [lia | done].
          * by right.
        + intros [(i & Hi & ->)|Hr]; [|right; by right].
          destruct (decide (i = j)) as [->|Hne]; [right; by left|].
          left. exists i. split; [lia | done]. }
    rewrite Hfold. split.
    - intros [<-|[(i & Hi & ->)|Hr]]; [by left | | right; by right].
      right. left. exists i. split; [lia | done].
    - intros [->|[(i & Hi & ->)|Hr]]; [by left | | right; by right].
      right. left. exists i. split; [lia | done]. }
  rewrite Hgen. clear Hgen.
  assert (is_Some (rec0 !! key)
          ↔ key ∈ ["ax1"; "ax2"; "ax3"; "ax4"; "fig"]%string) as H0.
  { unfold rec0. rewrite !lookup_insert_is_Some', lookup_empty.
    rewrite !elem_of_cons, elem_of_nil. split.
    - intros [<-|[<-|[<-|[<-|[<-|[? Hx]]]]]]; [tauto..|discriminate].
    - intros [->|[->|[->|[->|[->|[]]]]]]; tauto. }
  rewrite H0. split; [|by right; right].
  intros [->|[(i & Hi & ->)|Hin]]; [| |done].
  - do 4 right. by left.
  - assert (i < 4) as Hi4 by lia.
    destruct i as [|[|[|[|i]]]]; [..|lia];
      apply (bool_decide_unpack _); vm_compute; exact I.
Qed.

End Quiet.

(** *** The duplicate-free legend lists, continued *)

Lemma dedup_labels_spec (pairs : list (plt.Artist * string)) :
  ∀ newLabels newHandles,
    NoDup newLabels → length newHandles = length newLabels →
    NoDup (fst (dedup_labels pairs newLabels newHandles)) ∧
    length (snd (dedup_labels pairs newLabels newHandles))
    = length (fst (dedup_labels pairs newLabels newHandles)) ∧
    ∀ l, l ∈ fst (dedup_labels pairs newLabels newHandles)
         ↔ l ∈ newLabels ∨ l ∈ map snd pairs.
Proof.
  induction pairs as [|[handle lbl] rest IH]; intros newLabels newHandles Hnd Hlen;
    simpl.
  - split; [done|]. split; [done|]. intros l. split; [by left|].
    intros [H|H]; [done | inversion H].
  - case_bool_decide as Hin.
    + destruct (IH newLabels newHandles Hnd Hlen) as (H1 & H2 & H3).
      split; [done|]. split; [done|]. intros l. rewrite H3. split.
      * intros [H|H]; [by left | right; by right].
      * intros [H|H]; [by left|].
        apply elem_of_cons in H as [->|H]; [by left | by right].
    + assert (NoDup (newLabels ++ [lbl])) as Hnd'.
      { apply NoDup_app. split; [done|]. split; [|apply NoDup_singleton].
        intros x Hx ->%list_elem_of_singleton. done. }
      assert (length (newHandles ++ [handle]) = length (newLabels ++ [lbl]))
        as Hlen' by (rewrite !length_app; simpl; lia).
      destruct (IH _ _ Hnd' Hlen') as (H1 & H2 & H3).
      split; [done|]. split; [done|]. intros l. rewrite H3, elem_of_app.
      rewrite list_elem_of_singleton. split.
      * intros [[H | ->] | H]; [by left | right; by left | right; by right].
      * intros [H|H]; [left; by left|].
        apply elem_of_cons in H as [->|H]; [left; by right | by right].
Qed.

(** X19: the loop of lines 272-276 keeps one handle per label: the
    labels it collects are those of the pairs it reads, without
    repetition, and it collects as many handles as labels. *)
Theorem dedup_loop_keeps_one_handle_per_label
        (pairs : list (plt.Artist * string)) :
  NoDup (fst (dedup_labels pairs [] [])) ∧
  length (snd (dedup_labels pairs [] [])) = length (fst (dedup_labels pairs [] []))
  ∧ ∀ l, l ∈ fst (dedup_labels pairs [] []) ↔ l ∈ map snd pairs.
Proof.
  destruct (dedup_labels_spec pairs [] [] (NoDup_nil_2) eq_refl)
    as (H1 & H2 & H3).
  split; [done|]. split; [done|]. intros l. rewrite H3. split; [|by right].
  intros [H|H]; [inversion H | done].
Qed.

(** * The properties on concrete calls *)

Section Concrete.

Local Abbreviation theory_run :=
  (plot_trading_history env.strptime env.COMMON_TICK_DATE_FORMAT
                        env.PLOT_COLORS env.now_strftime env.auto_ylim).

(** Run the call: it returns, as evaluation shows. *)
Tactic Notation "run_returns" constr(a) "as" ident(res) ident(s) ident(E) :=
  unfold env.run;
  destruct (theory_run a env.fresh) as [[res|?] s] eqn:E;
  [|vm_compute in E; discriminate].

(** C1, as stated, fails: with [blue='volume'] absent from the dataset
    the call raises [KeyError]; no envelope with status FAILED comes
    back. *)
Lemma absent_column_raises_KeyError :
  fatal env.strptime env.COMMON_TICK_DATE_FORMAT env.absent_column ∧
  fst (env.run env.absent_column) = Raise (KeyError "volume") ∧
  ¬ ∃ res s', env.run env.absent_column = (Return res, s') ∧
              status res = FAILED.
Proof.
  split; [|split].
  - right. left. exists "volume"%string.
    split; apply (bool_decide_unpack _); vm_compute; exact I.
  - vm_compute. reflexivity.
  - intros (res & s' & H & _). vm_compute in H. discriminate.
Qed.

Lemma fatal_condition_raises_witness :
  fatal env.strptime env.COMMON_TICK_DATE_FORMAT env.absent_column ∧
  ∃ e s', env.run env.absent_column = (Raise e, s').
Proof.
  assert (fatal env.strptime env.COMMON_TICK_DATE_FORMAT env.absent_column)
    as Hfatal.
  { right. left. exists "volume"%string.
    split; apply (bool_decide_unpack _); vm_compute; exact I. }
  split; [exact Hfatal|]. unfold env.run.
  exact (fatal_condition_raises env.strptime env.COMMON_TICK_DATE_FORMAT
           env.PLOT_COLORS env.now_strftime env.auto_ylim env.absent_column
           env.fresh Hfatal).
Defined.

(** The date column matters only where it is looked up: with no series,
    no start date and no Series filter the call returns although the
    dataset has no such column. *)
Lemma absent_date_col_unused_returns :
  ∃ res s',
    theory_run
      (mkArgs "t" (pd.mkDF ["equity"%string] []) None None None None None None
              None None "date" "Date" "Algo Values" "-" 8%float 6%float "%d"
              FilterNone None None 0.5%float 0.25%float "#888888" 8%float
              false false false false)
      env.fresh
    = (Return res, s') ∧ status res = SUCCESS.
Proof. eexists _, _. split; [vm_compute; reflexivity | reflexivity]. Qed.

(** C2: with the same column in two slots the legend put on the primary
    axes names it twice; the duplicate-free lists of lines 272-276 are
    computed and then left unused. *)
Lemma legend_repeats_shared_label :
  plt.lg_labels
    <$> plt.ax_legend (pyplot.read_axes 0 (snd (env.run env.same_column_twice)))
  = Some ["equity"; "equity"]%string.
Proof. vm_compute. reflexivity. Qed.

(** C3: with two series both [ax1] and [ax2] hold the twin axes (handle
    1), the axes of the last series; [ax1] is not the primary axes
    (handle 0) that was created for the first series. *)
Lemma every_slot_holds_last_axes :
  ∃ res s', env.run (env.two_series false) = (Return res, s') ∧
            rec res !! "ax1" = Some (PyAxes 1) ∧
            rec res !! "ax2" = Some (PyAxes 1) ∧
            rec res !! "ax3" = Some PyNone ∧
            rec res !! "ax4" = Some PyNone ∧
            rec res !! "fig" = Some (PyFigure 1) ∧
            length (plt.axes s') = 2.
Proof.
  eexists _, _. split; [vm_compute; reflexivity|].
  repeat split; vm_compute; reflexivity.
Qed.

(** C4: the figure is shown once with [show_plot=False] and twice with
    [show_plot=True]. *)
Lemma show_is_called_regardless :
  plt.count_show (plt.calls (snd (env.run (env.two_series false)))) = 1 ∧
  plt.count_show (plt.calls (snd (env.run env.one_series))) = 2.
Proof. split; vm_compute; reflexivity. Qed.

(** C5, as stated, fails: a name selected twice is listed twice. *)
Lemma column_list_repeats_name :
  column_list env.PLOT_COLORS env.same_column_twice
  = ["date"; "equity"; "equity"]%string ∧
  ¬ NoDup (column_list env.PLOT_COLORS env.same_column_twice) ∧
  length (filter (λ x, x = "equity"%string)
                 (column_list env.PLOT_COLORS env.same_column_twice)) = 2.
Proof.
  split; [reflexivity|]. split; [|reflexivity].
  change (¬ NoDup ["date"; "equity"; "equity"]%string).
  intros Hnd. apply NoDup_cons in Hnd as [_ Hnd].
  apply NoDup_cons in Hnd as [Hnot _]. apply Hnot. by left.
Qed.

Lemma column_list_distinct_witness :
  NoDup (date_col (env.two_series false)
         :: selected_slots (env.two_series false)) ∧
  column_list env.PLOT_COLORS (env.two_series false)
  = ["date"; "equity"; "cash"]%string ∧
  NoDup (column_list env.PLOT_COLORS (env.two_series false)).
Proof.
  assert (NoDup (date_col (env.two_series false)
                 :: selected_slots (env.two_series false))) as Hnd.
  { apply (bool_decide_unpack _). vm_compute. exact I. }
  split; [exact Hnd|].
  destruct (column_list_distinct env.PLOT_COLORS (env.two_series false))
    as (Heq & _ & _ & Hdistinct).
  split; [exact Heq | exact (proj1 (Hdistinct Hnd))].
Defined.

Lemma scrub_dates_from_start_witness :
  ∃ use_df s',
    scrub env.strptime env.COMMON_TICK_DATE_FORMAT (env.two_series false)
          (column_list env.PLOT_COLORS (env.two_series false)) env.fresh
    = (Return use_df, s') ∧
    length (pd.rows use_df) = 6 ∧
    ∀ r, r ∈ pd.rows use_df →
         ∃ t, pd.value_at use_df "date" r = Some t ∧
              (20200105000000 <= t)%Z.
Proof.
  destruct (scrub env.strptime env.COMMON_TICK_DATE_FORMAT
                  (env.two_series false)
                  (column_list env.PLOT_COLORS (env.two_series false))
                  env.fresh) as [[use_df|e] s'] eqn:E;
    [|vm_compute in E; discriminate].
  exists use_df, s'. split; [reflexivity|]. split.
  - vm_compute in E. injection E as <- _. reflexivity.
  - apply (scrub_dates_from_start env.strptime env.COMMON_TICK_DATE_FORMAT
             env.PLOT_COLORS (env.two_series false) "2020-01-05 00:00:00"
             20200105000000 env.fresh s' use_df);
      [reflexivity | discriminate | vm_compute; reflexivity | exact E].
Defined.

Lemma scale_y_triples_upper_limit_witness :
  ∃ r1 s1 r0 s0,
    env.run (set_scale_y true (env.two_series false)) = (Return r1, s1) ∧
    env.run (set_scale_y false (env.two_series false)) = (Return r0, s0) ∧
    plt.ax_ylim <$> plt.axes s1 !! 1 = Some (0%float, 1440%float) ∧
    plt.ax_ylim <$> plt.axes s0 !! 1 = Some (455%float, 480%float) ∧
    ∀ i ax1 ax0,
      0 < i → plt.axes s1 !! i = Some ax1 → plt.axes s0 !! i = Some ax0 →
      plt.ax_artists ax1 = plt.ax_artists ax0 ∧
      snd (plt.ax_ylim ax1) = (snd (plt.ax_ylim ax0) * 3)%float.
Proof.
  run_returns (set_scale_y true (env.two_series false)) as r1 s1 E1.
  run_returns (set_scale_y false (env.two_series false)) as r0 s0 E0.
  exists r1, s1, r0, s0. split; [reflexivity|]. split; [reflexivity|].
  split; [pose proof E1 as C; vm_compute in C; injection C as _ <-;
          reflexivity|].
  split; [pose proof E0 as C; vm_compute in C; injection C as _ <-;
          reflexivity|].
  exact (proj1 (proj2 (scale_y_triples_upper_limit
                         env.strptime env.COMMON_TICK_DATE_FORMAT
                         env.PLOT_COLORS env.now_strftime env.auto_ylim
                         (env.two_series false) env.fresh s1 s0 r1 r0 E1 E0))).
Defined.

Lemma df_filter_without_to_json_is_skipped_witness :
  filter_truthy (df_filter env.list_filter) = true ∧
  hasattr_to_json (df_filter env.list_filter) = false ∧
  (∀ cl use_df, filter_by_df_filter env.list_filter cl use_df = Return use_df) ∧
  (∀ s, theory_run env.list_filter s
        = theory_run (set_df_filter FilterNone env.list_filter) s).
Proof.
  split; [reflexivity|]. split; [reflexivity|].
  exact (df_filter_without_to_json_is_skipped
           env.strptime env.COMMON_TICK_DATE_FORMAT env.PLOT_COLORS
           env.now_strftime env.auto_ylim env.list_filter eq_refl).
Defined.

Lemma returned_envelope_is_success_witness :
  ∃ res s', env.run (env.two_series true) = (Return res, s') ∧
            status res = SUCCESS ∧ err res = None ∧
            rec res !! "fig" = Some (PyFigure (plt.fig_num s')) ∧
            plt.fig_num s' = 1 ∧
            plt.figsize s' = (8%float, 6%float) ∧
            plt.axes s' ≠ [].
Proof.
  run_returns (env.two_series true) as res s' E.
  exists res, s'. split; [reflexivity|].
  exact (returned_envelope_is_success
           env.strptime env.COMMON_TICK_DATE_FORMAT env.PLOT_COLORS
           env.now_strftime env.auto_ylim (env.two_series true) env.fresh s'
           res E).
Defined.

Lemma scale_y_sets_zero_to_triple_witness :
  ∃ res s' ax,
    env.run (env.two_series true) = (Return res, s') ∧
    plt.axes s' !! 1 = Some ax ∧
    plt.ax_ylim ax
    = (0%float, (snd (env.auto_ylim (plt.ax_artists ax)) * 3)%float).
Proof.
  run_returns (env.two_series true) as res s' E.
  destruct (plt.axes s' !! 1) as [ax|] eqn:Eax.
  - exists res, s', ax. split; [reflexivity|]. split; [exact Eax|].
    exact (scale_y_sets_zero_to_triple
             env.strptime env.COMMON_TICK_DATE_FORMAT env.PLOT_COLORS
             env.now_strftime env.auto_ylim (env.two_series true) env.fresh s'
             res 1 ax eq_refl E (le_n 1) Eax).
  - exfalso. vm_compute in E. injection E as _ <-. discriminate.
Defined.

End Concrete.

(** * The whole-call properties on concrete calls *)

Section ConcreteCoverage.

Local Abbreviation theory_run :=
  (plot_trading_history env.strptime env.COMMON_TICK_DATE_FORMAT
                        env.PLOT_COLORS env.now_strftime env.auto_ylim).
Local Abbreviation theory_scrub :=
  (scrub env.strptime env.COMMON_TICK_DATE_FORMAT).

Tactic Notation "run_returns" constr(a) "as" ident(res) ident(s) ident(E) :=
  unfold env.run;
  destruct (theory_run a env.fresh) as [[res|?] s] eqn:E;
  [|vm_compute in E; discriminate].

(** Run the call: it raises, as evaluation shows. *)
Tactic Notation "run_raises" constr(a) "as" ident(e) ident(s) ident(E) :=
  unfold env.run;
  destruct (theory_run a env.fresh) as [[?|e] s] eqn:E;
  [vm_compute in E; discriminate|].

(** Scrub the dataset of the call: it returns, as evaluation shows. *)
Tactic Notation "scrub_returns" constr(a) constr(cl) "as" ident(u) ident(s)
       ident(E) :=
  destruct (theory_scrub a cl env.fresh) as [[u|?] s] eqn:E;
  [|vm_compute in E; discriminate].

Lemma run_shows_witness :
  ∃ res s', env.run env.one_series = (Return res, s') ∧
            plt.count_show (plt.calls s')
            = plt.count_show (plt.calls env.fresh)
              + (if show_plot env.one_series then 2 else 1).
Proof.
  run_returns env.one_series as res s' E.
  exists res, s'. split; [reflexivity|].
  exact (run_shows env.strptime env.COMMON_TICK_DATE_FORMAT env.PLOT_COLORS
           env.now_strftime env.auto_ylim env.one_series env.fresh s' res E).
Defined.

Lemma run_slots_witness :
  ∃ res s', env.run (env.two_series false) = (Return res, s') ∧
            rec res !! ("ax" +:+ pretty (1 + 1))
            = Some (if bool_decide
                         (1 < length (all_plots env.PLOT_COLORS
                                                (env.two_series false)))
                    then PyAxes (length (all_plots env.PLOT_COLORS
                                                   (env.two_series false)) - 1)
                    else PyNone).
Proof.
  run_returns (env.two_series false) as res s' E.
  exists res, s'. split; [reflexivity|].
  exact (run_slots env.strptime env.COMMON_TICK_DATE_FORMAT env.PLOT_COLORS
           env.now_strftime env.auto_ylim (env.two_series false) env.fresh s'
           res 1 E ltac:(lia)).
Defined.

Lemma returning_call_opens_one_figure_witness :
  ∃ res s', env.run (env.two_series false) = (Return res, s') ∧
            plt.fig_num s' = S (plt.fig_num env.fresh) ∧
            plt.figsize s' = (8%float, 6%float) ∧
            length (plt.axes s') = 2 ∧
            plt.current s' = length (plt.axes s') - 1 ∧
            rec res !! "fig" = Some (PyFigure (plt.fig_num s')).
Proof.
  run_returns (env.two_series false) as res s' E.
  exists res, s'. split; [reflexivity|].
  exact (returning_call_opens_one_figure
           env.strptime env.COMMON_TICK_DATE_FORMAT env.PLOT_COLORS
           env.now_strftime env.auto_ylim (env.two_series false) env.fresh s'
           res E).
Defined.

Lemma legend_lists_every_line_witness :
  ∃ res s' ax,
    env.run (env.two_series false) = (Return res, s') ∧
    plt.axes s' !! 0 = Some ax ∧
    plt.ax_legend ax
    = Some (plt.mkLegend (legend_lines (plt.axes s'))
                         (map plt.art_label (legend_lines (plt.axes s')))
                         "best" true).
Proof.
  run_returns (env.two_series false) as res s' E.
  destruct (legend_lists_every_line
              env.strptime env.COMMON_TICK_DATE_FORMAT env.PLOT_COLORS
              env.now_strftime env.auto_ylim (env.two_series false) env.fresh
              s' res E) as (ax & Hax & Hlg).
  exists res, s', ax. split; [reflexivity|]. split; [exact Hax | exact Hlg].
Defined.

Lemma series_is_drawn_on_its_own_axes_witness :
  all_plots env.PLOT_COLORS (env.two_series false) !! 1
  = Some (mkNode "cash" "#3498DB") ∧
  ∃ res s' use_df ax,
    env.run (env.two_series false) = (Return res, s') ∧
    scrub_result env.strptime env.COMMON_TICK_DATE_FORMAT
                 (env.two_series false)
                 (column_list env.PLOT_COLORS (env.two_series false))
    = Return use_df ∧
    plt.axes s' !! 1 = Some ax ∧
    (column (mkNode "cash" "#3498DB") ≠ date_col (env.two_series false) →
     plt.ax_artists ax ≠ []) ∧
    ∀ art, art ∈ plt.ax_artists ax →
           plt.art_host art = 1 ∧
           plt.art_color art = color (mkNode "cash" "#3498DB") ∧
           plt.art_kind art = plot_kind_of (env.two_series false) ∧
           plt.art_label art = column (mkNode "cash" "#3498DB") ∧
           length (plt.art_x art) = length (pd.rows use_df) ∧
           length (plt.art_y art) = length (pd.rows use_df).
Proof.
  split; [reflexivity|].
  run_returns (env.two_series false) as res s' E.
  destruct (series_is_drawn_on_its_own_axes
              env.strptime env.COMMON_TICK_DATE_FORMAT env.PLOT_COLORS
              env.now_strftime env.auto_ylim (env.two_series false) env.fresh
              s' res 1 (mkNode "cash" "#3498DB") E eq_refl)
    as (use_df & ax & H).
  exists res, s', use_df, ax. split; [reflexivity | exact H].
Defined.

Lemma figure_level_calls_in_order_witness :
  ∃ res s',
    env.run env.one_series = (Return res, s') ∧
    figure_calls (plt.calls s')
    = (if show_plot env.one_series then plt.Show else plt.PlotNothing)
        :: plt.Show :: plt.TightLayout
        :: plt.AddFootnote
             (plt.mkFootnote
                (if truthy (footnote_text env.one_series)
                 then default ""%string (footnote_text env.one_series)
                 else "algotraders - "
                      +:+ env.now_strftime env.COMMON_TICK_DATE_FORMAT)
                (footnote_xpos env.one_series) (footnote_ypos env.one_series)
                (footnote_color env.one_series)
                (footnote_fontsize env.one_series))
        :: plt.AutofmtXdate :: plt.SetCommonSeabornFonts
        :: figure_calls (plt.calls env.fresh).
Proof.
  run_returns env.one_series as res s' E.
  exists res, s'. split; [reflexivity|].
  exact (figure_level_calls_in_order
           env.strptime env.COMMON_TICK_DATE_FORMAT env.PLOT_COLORS
           env.now_strftime env.auto_ylim env.one_series env.fresh s' res E).
Defined.

Lemma malformed_start_date_raises_ValueError_witness :
  start_date env.bad_start_date = Some "yesterday"%string ∧
  env.strptime "yesterday" env.COMMON_TICK_DATE_FORMAT = None ∧
  ∃ s', theory_run env.bad_start_date env.fresh
        = (Raise (ValueError "yesterday"), s') ∧
        plt.fig_num s' = plt.fig_num env.fresh ∧
        plt.axes s' = plt.axes env.fresh ∧
        figure_calls (plt.calls s') = figure_calls (plt.calls env.fresh).
Proof.
  split; [reflexivity|]. split; [reflexivity|].
  exact (malformed_start_date_raises_ValueError
           env.strptime env.COMMON_TICK_DATE_FORMAT env.PLOT_COLORS
           env.now_strftime env.auto_ylim env.bad_start_date env.fresh
           "yesterday" eq_refl ltac:(discriminate) eq_refl).
Defined.

Lemma look_up_errors_are_explained_witness :
  ∃ e s',
    env.run env.absent_column = (Raise e, s') ∧
    (∀ k, e = KeyError k →
          (k = date_col env.absent_column
           ∨ k ∈ selected_slots env.absent_column) ∧
          k ∉ pd.columns (df env.absent_column)) ∧
    (e = IndexingError →
     ∃ mask, df_filter env.absent_column = FilterSeries mask ∧
             uncovered mask (df env.absent_column)) ∧
    (∀ n, e ≠ NameError n).
Proof.
  run_raises env.absent_column as e s' E.
  exists e, s'. split; [reflexivity|].
  exact (look_up_errors_are_explained
           env.strptime env.COMMON_TICK_DATE_FORMAT env.PLOT_COLORS
           env.now_strftime env.auto_ylim env.absent_column env.fresh s' e E).
Defined.

Lemma well_formed_call_finds_its_columns_witness :
  date_col (env.two_series false) ∈ pd.columns (df (env.two_series false)) ∧
  (∀ c, c ∈ selected_slots (env.two_series false) →
        c ∈ pd.columns (df (env.two_series false))) ∧
  (∀ text, start_date (env.two_series false) = Some text → text ≠ ""%string →
           is_Some (env.strptime text env.COMMON_TICK_DATE_FORMAT)) ∧
  (∀ mask, df_filter (env.two_series false) = FilterSeries mask →
           ¬ uncovered mask (df (env.two_series false))) ∧
  ∃ use_df s',
    theory_scrub (env.two_series false)
                 (column_list env.PLOT_COLORS (env.two_series false))
                 env.fresh = (Return use_df, s') ∧
    ∀ nd, nd ∈ all_plots env.PLOT_COLORS (env.two_series false) →
          ∃ frame,
            pd.getitem_cols use_df
                            [date_col (env.two_series false); column nd]
            = Return frame.
Proof.
  assert (date_col (env.two_series false)
          ∈ pd.columns (df (env.two_series false))) as H1
    by (apply (bool_decide_unpack _); vm_compute; exact I).
  assert (∀ c, c ∈ selected_slots (env.two_series false) →
               c ∈ pd.columns (df (env.two_series false))) as H2.
  { intros c Hc.
    change (c ∈ ["equity"; "cash"]%string) in Hc.
    apply elem_of_cons in Hc as [->|Hc];
      [apply (bool_decide_unpack _); vm_compute; exact I|].
    apply list_elem_of_singleton in Hc as ->.
    apply (bool_decide_unpack _); vm_compute; exact I. }
  assert (∀ text, start_date (env.two_series false) = Some text →
                  text ≠ ""%string →
                  is_Some (env.strptime text env.COMMON_TICK_DATE_FORMAT))
    as H3.
  { intros text [= <-] _. eexists. vm_compute. reflexivity. }
  assert (∀ mask, df_filter (env.two_series false) = FilterSeries mask →
                  ¬ uncovered mask (df (env.two_series false))) as H4
    by (intros mask [=]).
  split; [exact H1|]. split; [exact H2|]. split; [exact H3|].
  split; [exact H4|].
  exact (well_formed_call_finds_its_columns
           env.strptime env.COMMON_TICK_DATE_FORMAT env.PLOT_COLORS
           (env.two_series false) env.fresh H1 H2 H3 H4).
Defined.

Lemma missing_column_with_filters_fails_before_figure_witness :
  truthy (start_date env.absent_column_from_start) = true ∧
  "volume"%string ∈ selected_slots env.absent_column_from_start ∧
  ("volume"%string ∉ pd.columns (df env.absent_column_from_start)) ∧
  ∃ e s',
    theory_run env.absent_column_from_start env.fresh = (Raise e, s') ∧
    plt.fig_num s' = plt.fig_num env.fresh ∧
    plt.figsize s' = plt.figsize env.fresh ∧
    plt.axes s' = plt.axes env.fresh ∧
    plt.current s' = plt.current env.fresh ∧
    figure_calls (plt.calls s') = figure_calls (plt.calls env.fresh).
Proof.
  assert ("volume"%string ∈ selected_slots env.absent_column_from_start)
    as Hin by (apply (bool_decide_unpack _); vm_compute; exact I).
  assert ("volume"%string ∉ pd.columns (df env.absent_column_from_start))
    as Hnot by (apply (bool_decide_unpack _); vm_compute; exact I).
  split; [reflexivity|]. split; [exact Hin|]. split; [exact Hnot|].
  exact (missing_column_with_filters_fails_before_figure
           env.strptime env.COMMON_TICK_DATE_FORMAT env.PLOT_COLORS
           env.now_strftime env.auto_ylim env.absent_column_from_start
           env.fresh "volume" (or_introl eq_refl) (or_intror Hin) Hnot).
Defined.

Lemma KeyError_without_filters_leaves_figure_witness :
  truthy (start_date env.absent_column) = false ∧
  hasattr_to_json (df_filter env.absent_column) = false ∧
  ∃ s',
    env.run env.absent_column = (Raise (KeyError "volume"), s') ∧
    plt.fig_num s' = S (plt.fig_num env.fresh) ∧
    plt.figsize s' = (width env.absent_column, height env.absent_column) ∧
    plt.count_show (plt.calls s') = plt.count_show (plt.calls env.fresh).
Proof.
  split; [reflexivity|]. split; [reflexivity|].
  run_raises env.absent_column as e s' E.
  assert (e = KeyError "volume") as ->
    by (pose proof E as C; vm_compute in C; by injection C as <- _).
  exists s'. split; [reflexivity|].
  exact (KeyError_without_filters_leaves_figure
           env.strptime env.COMMON_TICK_DATE_FORMAT env.PLOT_COLORS
           env.now_strftime env.auto_ylim env.absent_column env.fresh s'
           "volume" E eq_refl eq_refl).
Defined.

Lemma dropna_for_all_plots_no_missing_value_witness :
  dropna_for_all env.with_gaps = true ∧
  ∃ res s',
    theory_run env.with_gaps env.fresh = (Return res, s') ∧
    ∀ ax art, ax ∈ plt.axes s' → art ∈ plt.ax_artists ax →
              Forall is_Some (plt.art_x art) ∧ Forall is_Some (plt.art_y art).
Proof.
  split; [reflexivity|].
  destruct (theory_run env.with_gaps env.fresh) as [[res|?] s'] eqn:E;
    [|vm_compute in E; discriminate].
  exists res, s'. split; [reflexivity|].
  exact (λ ax art,
           dropna_for_all_plots_no_missing_value
             env.strptime env.COMMON_TICK_DATE_FORMAT env.PLOT_COLORS
             env.now_strftime env.auto_ylim env.with_gaps env.fresh s' res
             ax art eq_refl E).
Defined.

Lemma scrub_only_drops_rows_witness :
  ∃ u s',
    theory_scrub (env.two_series false)
                 (column_list env.PLOT_COLORS (env.two_series false))
                 env.fresh = (Return u, s') ∧
    sublist (map pd.label (pd.rows u))
            (map pd.label (pd.rows (df (env.two_series false)))) ∧
    pd.columns u ⊆ pd.columns (df (env.two_series false)) ∧
    ∀ k, k ∈ column_list env.PLOT_COLORS (env.two_series false) →
         k ∈ pd.columns (df (env.two_series false)) → k ∈ pd.columns u.
Proof.
  scrub_returns (env.two_series false)
                (column_list env.PLOT_COLORS (env.two_series false))
    as u s' E.
  exists u, s'. split; [reflexivity|].
  exact (scrub_only_drops_rows
           env.strptime env.COMMON_TICK_DATE_FORMAT (env.two_series false)
           (column_list env.PLOT_COLORS (env.two_series false))
           env.fresh s' u E).
Defined.

Lemma series_filter_keeps_flagged_rows_witness :
  df_filter env.series_filter = FilterSeries env.even_rows ∧
  ∃ u s',
    theory_scrub env.series_filter
                 (column_list env.PLOT_COLORS env.series_filter)
                 env.fresh = (Return u, s') ∧
    length (pd.rows u) = 5 ∧
    ∀ r, r ∈ pd.rows u → (pd.label r, true) ∈ env.even_rows.
Proof.
  split; [reflexivity|].
  scrub_returns env.series_filter
                (column_list env.PLOT_COLORS env.series_filter)
    as u s' E.
  exists u, s'. split; [reflexivity|].
  split; [pose proof E as C; vm_compute in C; injection C as <- _;
          reflexivity|].
  exact (λ r,
           series_filter_keeps_flagged_rows
             env.strptime env.COMMON_TICK_DATE_FORMAT env.series_filter
             (column_list env.PLOT_COLORS env.series_filter)
             env.fresh s' u env.even_rows r eq_refl E).
Defined.

Lemma unscaled_axes_keep_automatic_limits_witness :
  ∃ res s' ax,
    env.run (env.two_series true) = (Return res, s') ∧
    plt.axes s' !! 0 = Some ax ∧
    0 < length (selected_slots (env.two_series true)) ∧
    plt.ax_ylim ax = env.auto_ylim (plt.ax_artists ax).
Proof.
  run_returns (env.two_series true) as res s' E.
  assert (0 < length (selected_slots (env.two_series true))) as Hlt
    by (vm_compute; lia).
  destruct (plt.axes s' !! 0) as [ax|] eqn:Eax.
  - exists res, s', ax. split; [reflexivity|]. split; [exact Eax|].
    split; [exact Hlt|].
    exact (unscaled_axes_keep_automatic_limits
             env.strptime env.COMMON_TICK_DATE_FORMAT env.PLOT_COLORS
             env.now_strftime env.auto_ylim (env.two_series true) env.fresh s'
             res 0 ax E Eax Hlt (or_introl eq_refl)).
  - exfalso. vm_compute in E. injection E as _ <-. discriminate.
Defined.

Lemma cosmetic_calls_of_each_axes_witness :
  ∃ res s' ax,
    env.run (env.two_series false) = (Return res, s') ∧
    plt.axes s' !! 1 = Some ax ∧
    plt.ax_calls ax
    = (if bool_decide (1 = 0) then [plt.SetTitle (title (env.two_series false))]
       else [])
      ++ (if bool_decide (1 = length (plt.axes s') - 1)
          then [plt.SetYlabel (ylabel (env.two_series false));
                plt.SetXlabel (xlabel (env.two_series false))]
          else [])
      ++ (if bool_decide (1 = 0)
          then (if bool_decide (selected_slots (env.two_series false) = [])
                then []
                else [plt.Grid true;
                      plt.XaxisSetMinorFormatter
                        (date_format (env.two_series false));
                      plt.SetFmtXdata (date_format (env.two_series false));
                      plt.XaxisGrid true "minor"])
          else [plt.YaxisSetTicklabels []; plt.YaxisGrid false;
                plt.XaxisGrid false "major";
                plt.SetFmtXdata (date_format (env.two_series false))]).
Proof.
  run_returns (env.two_series false) as res s' E.
  destruct (plt.axes s' !! 1) as [ax|] eqn:Eax.
  - exists res, s', ax. split; [reflexivity|]. split; [exact Eax|].
    exact (cosmetic_calls_of_each_axes
             env.strptime env.COMMON_TICK_DATE_FORMAT env.PLOT_COLORS
             env.now_strftime env.auto_ylim (env.two_series false) env.fresh s'
             res 1 ax E Eax).
  - exfalso. vm_compute in E. injection E as _ <-. discriminate.
Defined.

Lemma verbose_only_adds_log_lines_witness :
  ∃ res s' s'',
    env.run (env.two_series false) = (Return res, s') ∧
    theory_run (set_verbose true (env.two_series false)) env.fresh
    = (Return res, s'') ∧
    plt.fig_num s'' = plt.fig_num s' ∧ plt.figsize s'' = plt.figsize s' ∧
    plt.axes s'' = plt.axes s' ∧ plt.current s'' = plt.current s' ∧
    figure_calls (plt.calls s'') = figure_calls (plt.calls s').
Proof.
  run_returns (env.two_series false) as res s' E.
  destruct (verbose_only_adds_log_lines
              env.strptime env.COMMON_TICK_DATE_FORMAT env.PLOT_COLORS
              env.now_strftime env.auto_ylim true (env.two_series false)
              env.fresh s' res E) as (s'' & H).
  exists res, s', s''. split; [reflexivity | exact H].
Defined.

Lemma scale_y_needs_a_second_series_witness :
  length (selected_slots env.one_series) ≤ 1 ∧
  theory_run (set_scale_y true env.one_series) env.fresh
  = theory_run (set_scale_y false env.one_series) env.fresh.
Proof.
  assert (length (selected_slots env.one_series) ≤ 1) as Hone
    by (vm_compute; lia).
  split; [exact Hone|].
  exact (scale_y_needs_a_second_series
           env.strptime env.COMMON_TICK_DATE_FORMAT env.PLOT_COLORS
           env.now_strftime env.auto_ylim env.one_series env.fresh Hone).
Defined.

Lemma returned_rec_has_five_keys_witness :
  ∃ res s',
    env.run env.one_series = (Return res, s') ∧
    (is_Some (rec res !! "ax3")
     ↔ "ax3"%string ∈ ["ax1"; "ax2"; "ax3"; "ax4"; "fig"]%string).
Proof.
  run_returns env.one_series as res s' E.
  exists res, s'. split; [reflexivity|].
  exact (returned_rec_has_five_keys
           env.strptime env.COMMON_TICK_DATE_FORMAT env.PLOT_COLORS
           env.now_strftime env.auto_ylim env.one_series env.fresh s' res
           "ax3" E).
Defined.

End ConcreteCoverage.
